(** * pyecommerceapi: query translation and bulk ingestion

    A shallow embedding of the request handlers of
    [app/routes/search_routes.py], [app/routes/fileupload_routes.py] and
    [app/routes/product_routes.py] (all its handlers but [update_product]
    and [get_unique_column_values]), together with the properties of the
    specification that concern them.

    Conventions.
    - Python [str] is [string]; the text is taken to be ASCII, so that
      [str.lower], [str.strip] and [int(str)] act on single characters.
    - Python [int] is [Z] (unbounded, as in Python).
    - Python [float] is an abstract type [F] with the few builtins the
      handlers apply to it ([float(s)], [bool(x)], [int(x)], [str(x)]).
    - A Python [dict] is an association list in insertion order with
      unique keys, updated by [dict_set].
    - A handler body runs in a monad that threads the document store and
      may raise; the [try ... except Exception] wrapper of every handler
      turns a raised exception into the 500 response.
    - What the driver does with the database and collection names of a
      request, in [mongo.cx[database_name]] and [db[collection_name]], is
      a parameter ([driver]): the handlers pass the names on as they
      come. *)

From Stdlib Require Import List String Ascii ZArith NArith Lia Bool Arith.
From Stdlib Require Import DecimalString.
Import ListNotations.

Set Warnings "-register-all".

Local Open Scope string_scope.
Local Open Scope Z_scope.

(** ** Identifiers: [uuid.uuid4()] and [bson.ObjectId] *)

Module Ident.

Definition hex_char (n : N) : ascii :=
  if (n <? 10)%N then ascii_of_N (48 + n) else ascii_of_N (87 + n).

(** The [k] lowest hexadecimal digits of [n], most significant first. *)
Fixpoint hex_digits (k : nat) (n : N) (acc : string) : string :=
  match k with
  | O => acc
  | S k' => hex_digits k' (n / 16)%N (String (hex_char (n mod 16)%N) acc)
  end.

Definition hex (k : nat) (n : N) : string := hex_digits k n "".

(** [str(u)] for a UUID [u] (a 128-bit number): 8-4-4-4-12 hexadecimal
    digits separated by hyphens. *)
Definition str_of_uuid (u : N) : string :=
  let h := hex 32 u in
  substring 0 8 h ++ "-" ++ substring 8 4 h ++ "-" ++ substring 12 4 h
    ++ "-" ++ substring 16 4 h ++ "-" ++ substring 20 12 h.

Definition hex_val (c : ascii) : option N :=
  let n := N_of_ascii c in
  if ((48 <=? n) && (n <=? 57))%N then Some (n - 48)%N
  else if ((97 <=? n) && (n <=? 102))%N then Some (n - 87)%N
  else if ((65 <=? n) && (n <=? 70))%N then Some (n - 55)%N
  else None.

(** The ASCII whitespace that [bytes.fromhex] skips between bytes. *)
Definition is_hex_space (c : ascii) : bool :=
  let n := nat_of_ascii c in
  ((9 <=? n) && (n <=? 13) || (n =? 32))%nat.

(** [bytes.fromhex(s)]: pairs of hexadecimal digits, with whitespace
    allowed between the pairs; [None] is [ValueError]. *)
Fixpoint fromhex (s : string) : option (list N) :=
  match s with
  | EmptyString => Some []
  | String c s' =>
      if is_hex_space c then fromhex s'
      else
        match s' with
        | EmptyString => None
        | String c' s'' =>
            match hex_val c, hex_val c' with
            | Some top, Some bot =>
                option_map (cons (16 * top + bot)%N) (fromhex s'')
            | _, _ => None
            end
        end
  end.

(** The bytes read as a number, most significant first. *)
Fixpoint be_value (bs : list N) : N :=
  match bs with
  | [] => 0
  | b :: bs' => (b * 256 ^ N.of_nat (List.length bs') + be_value bs')%N
  end.

(** The ObjectId with the bytes [bs].  Twelve bytes are a 96-bit number.
    [ObjectId(s)] does not check how many bytes [bytes.fromhex] gave it,
    so a string with whitespace gives an identifier of fewer bytes: it is
    written as a number from [2^96] up that tells its length, and is
    equal to no identifier of twelve bytes. *)
Definition oid_of_bytes (bs : list N) : N :=
  if (List.length bs =? 12)%nat then be_value bs
  else (2 ^ 96 + 2 ^ (8 * N.of_nat (List.length bs)) + be_value bs)%N.

(** [str(oid)] for an ObjectId: the hexadecimal digits of its bytes, 24
    of them for an identifier of twelve bytes. *)
Definition str_of_oid (o : N) : string :=
  if (o <? 2 ^ 96)%N then hex 24 o
  else
    let tagged := (o - 2 ^ 96)%N in
    let bytes := (N.log2 tagged / 8)%N in
    hex (2 * N.to_nat bytes) (tagged - 2 ^ (8 * bytes))%N.

End Ident.

(** ** Python values, exceptions and builtins *)

Module Py.

(** The exception classes the handlers can meet.  All of them derive from
    [Exception], so all are caught by the handlers' catch-all clause. *)
Inductive exn : Type :=
| NameError (name : string)
| AttributeError
| TypeError
| ValueError
| StopIteration
| InvalidId
| InvalidDocument
| DuplicateKeyError
| OperationFailure
| InvalidFile
| KeyError
| OverflowError
| ConfigError
| InvalidName.

Inductive result (A : Type) : Type :=
| Ok (a : A)
| Raise (e : exn).
Arguments Ok {A} a.
Arguments Raise {A} e.

Definition rbind {A B} (r : result A) (k : A -> result B) : result B :=
  match r with
  | Ok a => k a
  | Raise e => Raise e
  end.

Definition is_ok {A} (r : result A) : bool :=
  match r with Ok _ => true | Raise _ => false end.

(** Dictionaries: insertion-ordered association lists. *)
Section Dict.
Context {K V : Type} (eqb : K -> K -> bool).

Fixpoint dict_get (k : K) (d : list (K * V)) : option V :=
  match d with
  | [] => None
  | (k', v) :: d' => if eqb k k' then Some v else dict_get k d'
  end.

(** [d[k] = v]: overwrite in place when the key exists, append
    otherwise. *)
Fixpoint dict_set (k : K) (v : V) (d : list (K * V)) : list (K * V) :=
  match d with
  | [] => [(k, v)]
  | (k', v') :: d' =>
      if eqb k k' then (k', v) :: d' else (k', v') :: dict_set k v d'
  end.

(** [dict(pairs)] and [{**d, ...}]: successive assignments. *)
Definition dict_update (d : list (K * V)) (kvs : list (K * V)) :=
  fold_left (fun acc kv => dict_set (fst kv) (snd kv) acc) kvs d.

Definition dict_of_pairs (kvs : list (K * V)) : list (K * V) :=
  dict_update [] kvs.

Definition dict_has (k : K) (d : list (K * V)) : bool :=
  match dict_get k d with Some _ => true | None => false end.
End Dict.

(** *** Strings *)

Definition is_space (c : ascii) : bool :=
  let n := nat_of_ascii c in
  ((9 <=? n) && (n <=? 13) || (28 <=? n) && (n <=? 32))%nat.

Definition is_upper (c : ascii) : bool :=
  let n := nat_of_ascii c in ((65 <=? n) && (n <=? 90))%nat.

Definition lower_char (c : ascii) : ascii :=
  if is_upper c then ascii_of_nat (nat_of_ascii c + 32) else c.

(** [s.lower()] *)
Fixpoint str_lower (s : string) : string :=
  match s with
  | EmptyString => EmptyString
  | String c s' => String (lower_char c) (str_lower s')
  end.

Fixpoint lstrip (s : string) : string :=
  match s with
  | EmptyString => EmptyString
  | String c s' => if is_space c then lstrip s' else s
  end.

Fixpoint str_rev_onto (s acc : string) : string :=
  match s with
  | EmptyString => acc
  | String c s' => str_rev_onto s' (String c acc)
  end.

Definition str_rev (s : string) : string := str_rev_onto s EmptyString.

(** [s.strip()] *)
Definition str_strip (s : string) : string :=
  str_rev (lstrip (str_rev (lstrip s))).

(** [c in s] for a one-character [c] *)
Fixpoint str_has_char (c : ascii) (s : string) : bool :=
  match s with
  | EmptyString => false
  | String c' s' => Ascii.eqb c c' || str_has_char c s'
  end.

(** [s.endswith(suffix)] *)
Definition str_endswith (s suffix : string) : bool :=
  let n := String.length s in
  let m := String.length suffix in
  (m <=? n)%nat && String.eqb (substring (n - m) m s) suffix.

Definition is_digit (c : ascii) : bool :=
  let n := nat_of_ascii c in ((48 <=? n) && (n <=? 57))%nat.

Definition digit_val (c : ascii) : Z := Z.of_nat (nat_of_ascii c - 48).

(** The digits of a decimal literal: one or more digits, single
  underscores allowed between digits. [prev] tells whether the previous
  character was a digit. *)
Fixpoint int_digits (s : string) (prev : bool) (acc : Z) : option Z :=
  match s with
  | EmptyString => if prev then Some acc else None
  | String c s' =>
    if is_digit c then int_digits s' true (10 * acc + digit_val c)
    else if Ascii.eqb c "_"%char then
      (if prev then int_digits s' false acc else None)
    else None
  end.

Fixpoint count_digits (s : string) : Z :=
  match s with
  | EmptyString => 0
  | String c s' => (if is_digit c then 1 else 0) + count_digits s'
  end.

(** [sys.get_int_max_str_digits()], as the interpreter starts. *)
Definition max_str_digits : Z := 4300.

(** A decimal literal within the limit on the number of digits. *)
Definition int_literal (s : string) : option Z :=
  if max_str_digits <? count_digits s then None else int_digits s false 0.

(** [int(s)] for a string: surrounding whitespace, an optional sign,
  decimal digits, no more than [max_str_digits] of them.  [None] is
  [ValueError]. *)
Definition int_of_str (s : string) : option Z :=
  match str_strip s with
  | String "-"%char s' => option_map Z.opp (int_literal s')
  | String "+"%char s' => int_literal s'
  | s' => int_literal s'
  end.

(** [str(n)] for an int *)
Definition str_of_int (z : Z) : string :=
  NilZero.string_of_int (Z.to_int z).

(** *** Values *)

Section Values.
(** Python's [float]. *)
Context {F : Type}.

Inductive value : Type :=
| VNone
| VBool (b : bool)
| VInt (z : Z)
| VFloat (x : F)
| VStr (s : string)
| VList (l : list value)
| VDict (d : list (string * value))
| VObjectId (oid : N)          (* bson.ObjectId, a 96-bit number; from
                                  2^96 up see Ident.oid_of_bytes *)
| VDatetime (t : Z).           (* datetime.datetime *)

(** The builtins whose results the handlers only pass along. *)
Class runtime : Type := {
  float_of_str : string -> option F;   (* float(s); None: ValueError *)
  float_truthy : F -> bool;            (* bool(x) *)
  int_of_float : F -> option Z;        (* int(x); None: nan or inf *)
  float_of_int : Z -> option F;        (* float(n); None: OverflowError *)
  str_other : value -> string;         (* str(v) for a float, a
                                          container or a datetime *)
  key_eqb : value -> value -> bool;    (* equality of dict keys *)
  (* the groups of re.match(r"(.+?)(\d{4})_(.+?)_(.+?)_(\d{8})\.xlsx", s) *)
  filename_groups : string -> option (string * string * string * string * string)
}.

Context {rt : runtime}.

(** [bool(v)] *)
Definition truthy (v : value) : bool :=
  match v with
  | VNone => false
  | VBool b => b
  | VInt z => negb (z =? 0)
  | VFloat x => float_truthy x
  | VStr s => negb (String.eqb s "")
  | VList l => match l with [] => false | _ => true end
  | VDict d => match d with [] => false | _ => true end
  | VObjectId _ => true
  | VDatetime _ => true
  end.

(** [str(v)], as used by an f-string *)
Definition py_str (v : value) : string :=
  match v with
  | VNone => "None"
  | VBool true => "True"
  | VBool false => "False"
  | VInt z => str_of_int z
  | VStr s => s
  | VObjectId o => Ident.str_of_oid o
  | _ => str_other v
  end.

(** [int(v)] *)
Definition py_int (v : value) : result Z :=
  match v with
  | VInt z => Ok z
  | VBool b => Ok (if b then 1 else 0)
  | VFloat x =>
      match int_of_float x with Some z => Ok z | None => Raise ValueError end
  | VStr s =>
      match int_of_str s with Some z => Ok z | None => Raise ValueError end
  | _ => Raise TypeError
  end.

Definition get (k : string) (d : list (string * value)) : option value :=
  dict_get String.eqb k d.

(** [d.get(k, default)] *)
Definition get_default (k : string) (default : value)
           (d : list (string * value)) : value :=
  match get k d with Some v => v | None => default end.

(** [v.strip()]: only [str] has the method. *)
Definition py_strip (v : value) : result string :=
  match v with
  | VStr s => Ok (str_strip s)
  | _ => Raise AttributeError
  end.

(** [v.lower()] *)
Definition py_lower (v : value) : result string :=
  match v with
  | VStr s => Ok (str_lower s)
  | _ => Raise AttributeError
  end.

(** [request.get_json()] followed by a [.get]: the body must be a
    dict. *)
Definition as_dict (v : value) : result (list (string * value)) :=
  match v with
  | VDict d => Ok d
  | _ => Raise AttributeError
  end.

(** [k in names] for a list of string literals *)
Definition str_in (k : string) (names : list string) : bool :=
  existsb (String.eqb k) names.

End Values.

Arguments value F : clear implicits.
Arguments runtime F : clear implicits.

End Py.
Import Py.

(** ** The regular expressions of the store

    The fragment of PCRE that the patterns of the handlers need: literal
    characters, [.], a postfix [*], and the anchors [^] and [$].  A
    pattern that uses another metacharacter is outside the fragment. *)

Module Regex.

Inductive atom : Type :=
| AChar (c : ascii)
| AAny.

Inductive item : Type :=
| IOne (a : atom)
| IStar (a : atom)
| IBol
| IEol.

Definition regex := list item.

Definition is_meta (c : ascii) : bool :=
  existsb (Ascii.eqb c)
    (list_ascii_of_string "\[](){}|+?").

Definition atom_of (c : ascii) : atom :=
  if Ascii.eqb c "."%char then AAny else AChar c.

(** [None]: the pattern is outside the fragment (or dangling [*]). *)
Fixpoint parse (s : string) : option regex :=
  match s with
  | EmptyString => Some []
  | String c s' =>
      if is_meta c || Ascii.eqb c "*"%char then None
      else if Ascii.eqb c "^"%char then
        match s' with
        | String "*"%char _ => None
        | _ => option_map (cons IBol) (parse s')
        end
      else if Ascii.eqb c "$"%char then
        match s' with
        | String "*"%char _ => None
        | _ => option_map (cons IEol) (parse s')
        end
      else
        match s' with
        | String "*"%char s'' =>
            match s'' with
            | String "*"%char _ => None
            | _ => option_map (cons (IStar (atom_of c))) (parse s'')
            end
        | _ => option_map (cons (IOne (atom_of c))) (parse s')
        end
  end.

Definition newline : ascii := ascii_of_nat 10.

(** [ci] is the [i] option. *)
Definition atom_ok (ci : bool) (a : atom) (c : ascii) : bool :=
  match a with
  | AAny => negb (Ascii.eqb c newline)
  | AChar c' =>
      if ci then Ascii.eqb (lower_char c) (lower_char c') else Ascii.eqb c c'
  end.

Definition at_end (s : string) : bool :=
  match s with
  | EmptyString => true
  | String c EmptyString => Ascii.eqb c newline
  | _ => false
  end.

(** Does [r] match a prefix of [s]?  [bol] tells whether [s] starts at
    the beginning of the subject. *)
Fixpoint match_here (ci : bool) (r : regex) (bol : bool) (s : string)
  : bool :=
  match r with
  | [] => true
  | IBol :: r' => bol && match_here ci r' bol s
  | IEol :: r' => at_end s && match_here ci r' bol s
  | IOne a :: r' =>
      match s with
      | EmptyString => false
      | String c s' => atom_ok ci a c && match_here ci r' false s'
      end
  | IStar a :: r' =>
      (fix star (bol : bool) (s : string) {struct s} : bool :=
         match_here ci r' bol s
         || match s with
            | EmptyString => false
            | String c s' => atom_ok ci a c && star false s'
            end) bol s
  end.

(** Unanchored search, as [$regex] does. *)
Fixpoint search_from (ci : bool) (r : regex) (bol : bool) (s : string)
  : bool :=
  match_here ci r bol s
  || match s with
     | EmptyString => false
     | String _ s' => search_from ci r false s'
     end.

Definition search (ci : bool) (r : regex) (s : string) : bool :=
  search_from ci r true s.

End Regex.

(** ** The document store

    An in-memory model of the store behind [mongo.cx]: named collections
    of documents, with the operations the handlers call.  The semantics of
    the store is written out for top-level fields and for the conditions
    the handlers build: a [$regex] condition in the fragment of [Regex]
    with option [i], and equality with a string or an ObjectId.  Whatever
    lies outside (operators, dotted paths, array fields, other values,
    sorting) is left to the [environment]. *)

Module Mongo.

Section Store.
Context {F : Type} {rt : runtime F}.

Definition doc : Type := list (string * value F).
Definition pydict : Type := list (value F * value F).
Definition coll_ref : Type := (string * string)%type.

Class environment : Type := {
  ext_cond : string -> value F -> doc -> bool;
  ext_cond_error : string -> value F -> option exn;
  ext_sort : list (string * Z) -> list doc -> list doc;
  oid_at : nat -> N;       (* the ObjectId generated at a given moment *)
  time_at : nat -> Z;      (* the clock read at a given moment *)
  uuid_at : nat -> N;      (* the UUID drawn at a given moment *)
  default_db : option string   (* [mongo.db], from the configuration *)
}.

Context {env : environment}.

(** The write operations issued to the store, in order. *)
Inductive write_op : Type :=
| WInsertOne (c : coll_ref) (d : pydict)
| WInsertMany (c : coll_ref) (ds : list pydict)
| WUpdateOne (c : coll_ref) (q : doc) (sets : pydict)
| WDeleteMany (c : coll_ref) (q : doc)
| WDeleteOne (c : coll_ref) (q : doc).

Record world : Type := {
  colls : list (coll_ref * list doc);
  moment : nat;                (* readings of the environment so far *)
  journal : list write_op      (* write operations issued so far *)
}.

(** Computations over the store that may raise; the store keeps what was
    written before the exception.  *)
Definition M (A : Type) : Type := world -> result A * world.

Definition ret {A} (a : A) : M A := fun w => (Ok a, w).
Definition raise {A} (e : exn) : M A := fun w => (Raise e, w).
Definition bind {A B} (m : M A) (k : A -> M B) : M B :=
  fun w => match m w with
           | (Ok a, w') => k a w'
           | (Raise e, w') => (Raise e, w')
           end.
Definition lift {A} (r : result A) : M A := fun w => (r, w).

Definition ref_eqb (a b : coll_ref) : bool :=
  String.eqb (fst a) (fst b) && String.eqb (snd a) (snd b).

Definition docs_of (w : world) (c : coll_ref) : list doc :=
  match dict_get ref_eqb c (colls w) with
  | Some ds => ds
  | None => []
  end.

Definition set_docs (c : coll_ref) (ds : list doc) (w : world) : world :=
  {| colls := dict_set ref_eqb c ds (colls w);
     moment := moment w; journal := journal w |}.

Definition advance (w : world) : world :=
  {| colls := colls w; moment := S (moment w); journal := journal w |}.

Definition record_op (op : write_op) : M unit :=
  fun w => (Ok tt, {| colls := colls w; moment := moment w;
                      journal := journal w ++ [op] |}).

(** [datetime.utcnow()] *)
Definition utcnow : M (value F) :=
  fun w => (Ok (VDatetime (time_at (moment w))), advance w).

(** [uuid.uuid4()] *)
Definition uuid4 : M N :=
  fun w => (Ok (uuid_at (moment w)), advance w).

Definition fresh_oid : M (value F) :=
  fun w => (Ok (VObjectId (oid_at (moment w))), advance w).

(** *** Conditions *)

Inductive cond_kind : Type :=
| CRegex (r : Regex.regex)
| CEqStr (s : string)
| CEqOid (o : N)
| CExt.

Definition classify (k : string) (c : value F) : cond_kind :=
  if str_has_char "."%char k || str_has_char "$"%char k then CExt
  else
    match c with
    | VStr s => CEqStr s
    | VObjectId o => CEqOid o
    | VDict [(k1, VStr p); (k2, VStr o)] =>
        if String.eqb k1 "$regex" && String.eqb k2 "$options"
           && String.eqb o "i"
        then match Regex.parse p with
             | Some r => CRegex r
             | None => CExt
             end
        else CExt
    | _ => CExt
    end.

Definition cond_matches (k : string) (c : value F) (d : doc) : bool :=
  match classify k c with
  | CExt => ext_cond k c d
  | kind =>
      match get k d with
      | Some (VList _) => ext_cond k c d
      | Some (VStr s) =>
          match kind with
          | CRegex r => Regex.search true r s
          | CEqStr s' => String.eqb s' s
          | _ => false
          end
      | Some (VObjectId o) =>
          match kind with
          | CEqOid o' => N.eqb o' o
          | _ => false
          end
      | _ => false
      end
  end.

Definition matches (q : doc) (d : doc) : bool :=
  forallb (fun kc => cond_matches (fst kc) (snd kc) d) q.

Definition cond_error (k : string) (c : value F) : option exn :=
  match classify k c with
  | CExt => ext_cond_error k c
  | _ => None
  end.

Fixpoint query_error (q : doc) : option exn :=
  match q with
  | [] => None
  | (k, c) :: q' =>
      match cond_error k c with
      | Some e => Some e
      | None => query_error q'
      end
  end.

Definition check_query (q : doc) : M unit :=
  match query_error q with
  | Some e => raise e
  | None => ret tt
  end.

(** BSON encoding of a Python dict: the keys must be strings. *)
Fixpoint encode (d : pydict) : result doc :=
  match d with
  | [] => Ok []
  | (VStr k, v) :: d' => rbind (encode d') (fun r => Ok ((k, v) :: r))
  | _ => Raise InvalidDocument
  end.

Fixpoint encode_all (ds : list pydict) : result (list doc) :=
  match ds with
  | [] => Ok []
  | d :: ds' =>
      rbind (encode d) (fun r => rbind (encode_all ds') (fun rs => Ok (r :: rs)))
  end.

(** *** Reads *)

Definition project (proj : option doc) (d : doc) : doc :=
  match proj with
  | None => d
  | Some p =>
      filter (fun kv => String.eqb (fst kv) "_id" || dict_has String.eqb (fst kv) p) d
  end.

Definition encode_projection (proj : option pydict) : result (option doc) :=
  match proj with
  | None => Ok None
  | Some p => rbind (encode p) (fun r => Ok (Some r))
  end.

(** [cursor.skip(n)] *)
Definition cursor_skip (n : Z) (ds : list doc) : result (list doc) :=
  if n <? 0 then Raise ValueError else Ok (skipn (Z.to_nat n) ds).

(** [cursor.limit(n)]: 0 is no limit, a negative limit counts as its
    absolute value. *)
Definition cursor_limit (n : Z) (ds : list doc) : list doc :=
  if n =? 0 then ds else firstn (Z.to_nat (Z.abs n)) ds.

(** [list(collection.find(q, proj).sort(s).skip(n).limit(m))]; an empty
    [s] is no sort. *)
Definition find (c : coll_ref) (q : doc) (proj : option pydict)
           (s : list (string * Z)) (skip limit : Z) : M (list doc) :=
  fun w =>
    (rbind (cursor_skip skip
              (match s with
               | [] => filter (matches q) (docs_of w c)
               | _ => ext_sort s (filter (matches q) (docs_of w c))
               end))
       (fun skipped =>
          rbind (encode_projection proj) (fun p =>
          match query_error q with
          | Some e => Raise e
          | None => Ok (map (project p) (cursor_limit limit skipped))
          end)),
     w).

Definition count_documents (c : coll_ref) (q : doc) : M Z :=
  bind (check_query q) (fun _ =>
  fun w => (Ok (Z.of_nat (List.length (filter (matches q) (docs_of w c)))), w)).

Definition find_one (c : coll_ref) (q : doc) : M (option doc) :=
  bind (check_query q) (fun _ =>
  fun w => (Ok (List.find (matches q) (docs_of w c)), w)).

(** [db.list_collection_names()] *)
Definition list_collection_names (db : string) : M (list string) :=
  fun w =>
    (Ok (map (fun e => snd (fst e))
           (filter (fun e => String.eqb (fst (fst e)) db) (colls w))), w).

(** *** Writes *)

Definition insert_doc (c : coll_ref) (d : doc) : M unit :=
  bind (match get "_id" d with
        | Some id => ret (id, d)
        | None => bind fresh_oid (fun id =>
                  ret (id, dict_set String.eqb "_id" id d))
        end)
       (fun idd =>
          fun w =>
            if existsb (cond_matches "_id" (fst idd)) (docs_of w c)
            then (Raise DuplicateKeyError, w)
            else (Ok tt, set_docs c (docs_of w c ++ [snd idd]) w)).

Definition insert_one (c : coll_ref) (d : pydict) : M unit :=
  bind (record_op (WInsertOne c d)) (fun _ =>
  bind (lift (encode d)) (insert_doc c)).

Fixpoint insert_docs (c : coll_ref) (ds : list doc) : M unit :=
  match ds with
  | [] => ret tt
  | d :: ds' => bind (insert_doc c d) (fun _ => insert_docs c ds')
  end.

(** Ordered bulk insert: the documents before a rejected one stay. *)
Definition insert_many (c : coll_ref) (ds : list pydict) : M unit :=
  bind (record_op (WInsertMany c ds)) (fun _ =>
  match ds with
  | [] => raise TypeError
  | _ => bind (lift (encode_all ds)) (insert_docs c)
  end).

Fixpoint update_first (q : doc) (sets : doc) (ds : list doc) : list doc :=
  match ds with
  | [] => []
  | d :: ds' =>
      if matches q d then dict_update String.eqb d sets :: ds'
      else d :: update_first q sets ds'
  end.

(** [collection.update_one(q, {"$set": sets})] *)
Definition update_one (c : coll_ref) (q : doc) (sets : pydict) : M unit :=
  bind (record_op (WUpdateOne c q sets)) (fun _ =>
  bind (check_query q) (fun _ =>
  bind (lift (encode sets)) (fun s =>
  fun w =>
    if existsb (matches q) (docs_of w c)
    then (Ok tt, set_docs c (update_first q s (docs_of w c)) w)
    else (Ok tt, w)))).

(** Returns [deleted_count]. *)
Definition delete_many (c : coll_ref) (q : doc) : M Z :=
  bind (record_op (WDeleteMany c q)) (fun _ =>
  bind (check_query q) (fun _ =>
  fun w =>
    let hit := filter (matches q) (docs_of w c) in
    match hit with
    | [] => (Ok 0, w)
    | _ => (Ok (Z.of_nat (List.length hit)),
            set_docs c (filter (fun d => negb (matches q d)) (docs_of w c)) w)
    end)).

Fixpoint remove_first (q : doc) (ds : list doc) : list doc :=
  match ds with
  | [] => []
  | d :: ds' => if matches q d then ds' else d :: remove_first q ds'
  end.

Definition delete_one (c : coll_ref) (q : doc) : M unit :=
  bind (record_op (WDeleteOne c q)) (fun _ =>
  bind (check_query q) (fun _ =>
  fun w =>
    if existsb (matches q) (docs_of w c)
    then (Ok tt, set_docs c (remove_first q (docs_of w c)) w)
    else (Ok tt, w))).

End Store.

Arguments doc F : clear implicits.
Arguments pydict F : clear implicits.
Arguments environment F : clear implicits.
Arguments world F : clear implicits.
Arguments M F : clear implicits.

End Mongo.
Import Mongo.

Declare Scope store_scope.
Notation "x <- m ;; k" := (bind m (fun x => k))
  (at level 61, m at next level, right associativity) : store_scope.
Notation "m ;;; k" := (bind m (fun _ => k))
  (at level 61, right associativity) : store_scope.

Local Open Scope store_scope.

(** What the driver does with the names in [mongo.cx[database_name]]
    and [db[collection_name]]: the exception it raises for names it
    rejects (an empty name, for one), if any. *)
Class driver : Type := {
  invalid_name : string -> string -> option exn
}.

(** ** Responses *)

Section Http.
Context {F : Type} {rt : runtime F} {env : environment F} {drv : driver}.

(** [mongo.cx[database_name][collection_name]] *)
Definition named_collection (database_name collection_name : string)
  : result coll_ref :=
  match invalid_name database_name collection_name with
  | Some e => Raise e
  | None => Ok (database_name, collection_name)
  end.

(** The body passed to [jsonify]: a JSON value, or [{"error": str(e)}]
    for a caught exception [e]. *)
Inductive payload : Type :=
| PJson (v : value F)
| PExn (e : exn).

Definition response : Type := (payload * Z)%type.

Definition error_msg (msg : string) : payload :=
  PJson (VDict [("error", VStr msg)]).

(** What the JSON provider can serialise: everything in [value] but an
    ObjectId. *)
Fixpoint jsonable (v : value F) : bool :=
  match v with
  | VObjectId _ => false
  | VList l => forallb jsonable l
  | VDict d => forallb (fun kv => match kv with (_, x) => jsonable x end) d
  | _ => true
  end.

Definition jsonify (v : value F) (status : Z) : M F response :=
  if jsonable v then ret (PJson v, status) else raise TypeError.

(** [try: body except Exception as e: return jsonify({"error": str(e)}), 500] *)
Definition handle (body : M F response) : world F -> response * world F :=
  fun w =>
    match body w with
    | (Ok r, w') => (r, w')
    | (Raise e, w') => ((PExn e, 500), w')
    end.

(** [item["_id"] = str(item["_id"])] *)
Definition stringify_id (d : doc F) : result (doc F) :=
  match get "_id" d with
  | Some v => Ok (dict_set String.eqb "_id" (VStr (py_str v)) d)
  | None => Raise KeyError
  end.

Fixpoint stringify_ids (ds : list (doc F)) : result (list (doc F)) :=
  match ds with
  | [] => Ok []
  | d :: ds' =>
      rbind (stringify_id d) (fun r =>
      rbind (stringify_ids ds') (fun rs => Ok (r :: rs)))
  end.

(** [{field: 1 for field in fields} if fields else None] *)
Definition hashable (v : value F) : bool :=
  match v with
  | VList _ | VDict _ => false
  | _ => true
  end.

Definition field_dict (items : list (value F)) : result (pydict F) :=
  if forallb hashable items
  then Ok (dict_of_pairs key_eqb (map (fun f => (f, VInt 1)) items))
  else Raise TypeError.

(** The elements a [for] loop draws from a value. *)
Definition iterate (v : value F) : result (list (value F)) :=
  match v with
  | VList l => Ok l
  | VDict d => Ok (map (fun kv => VStr (fst kv)) d)
  | VStr s => Ok (map (fun c => VStr (String c "")) (list_ascii_of_string s))
  | _ => Raise TypeError
  end.

Definition projection_of (fields : value F) : result (option (pydict F)) :=
  if truthy fields
  then rbind (iterate fields) (fun items =>
       rbind (field_dict items) (fun p => Ok (Some p)))
  else Ok None.

Definition regex_cond (pattern : value F) : value F :=
  VDict [("$regex", pattern); ("$options", VStr "i")].

Definition count_data (count : Z) (data : list (doc F)) : value F :=
  VDict [("count", VInt count); ("data", VList (map VDict data))].

Definition len {A} (l : list A) : Z := Z.of_nat (List.length l).

(** ** [app/routes/search_routes.py] *)

(** The names bound at module level: the imports, the blueprint and the
    two handlers.  A global is either a one-argument function, a
    two-argument function, or something the handlers do not call by
    name here. *)
Inductive global : Type :=
| GFun1 (f : value F -> M F (value F))
| GFun2 (f : value F -> value F -> M F (value F))
| GObject.

Definition namespace : Type := list (string * global).

Definition search_routes_globals : namespace :=
  [("Blueprint", GObject); ("request", GObject); ("jsonify", GObject);
   ("mongo", GObject); ("swag_from", GObject); ("search_bp", GObject);
   ("search_for_name", GObject); ("get_table_data", GObject)].

(** Resolving a free name of a function body: the module globals (no
    builtin has the names looked up here). *)
Definition lookup_global (ns : namespace) (name : string) : result global :=
  match dict_get String.eqb name ns with
  | Some g => Ok g
  | None => Raise (NameError name)
  end.

Definition call1 (g : global) (a : value F) : M F (value F) :=
  match g with
  | GFun1 f => f a
  | _ => raise TypeError
  end.

Definition call2 (g : global) (a b : value F) : M F (value F) :=
  match g with
  | GFun2 f => f a b
  | _ => raise TypeError
  end.

Definition search_for_name_reserved : list string :=
  ["database"; "collection"; "page"; "page_records"; "fields"].

(** Line 95: the prefix-match query. *)
Definition search_for_name_query (data : doc F) : doc F :=
  dict_of_pairs String.eqb
    (map (fun kv => (fst kv, regex_cond (VStr ("^" ++ py_str (snd kv)))))
       (filter (fun kv => truthy (snd kv)
                          && negb (str_in (fst kv) search_for_name_reserved))
          data)).

Definition search_for_name_in (ns : namespace) (body : value F)
  : M F response :=
  data <- lift (as_dict body) ;;
  database_name <- lift (py_strip (get_default "database" (VStr "") data)) ;;
  collection_name <- lift (py_strip (get_default "collection" (VStr "") data)) ;;
  page <- lift (py_int (get_default "page" (VInt 1) data)) ;;
  page_records <- lift (py_int (get_default "page_records" (VInt 1000) data)) ;;
  let fields := get_default "fields" (VList []) data in
  if String.eqb database_name "" || String.eqb collection_name ""
  then jsonify (VDict [("error", VStr "Database and collection are required")]) 400
  else
    get_cached_search_results <-
      lift (lookup_global ns "get_cached_search_results") ;;
    cached_result <- call1 get_cached_search_results (VDict data) ;;
    if truthy cached_result then jsonify cached_result 200
    else
      let query := search_for_name_query data in
      collection <- lift (named_collection database_name collection_name) ;;
      projection <- lift (projection_of fields) ;;
      let skip_records := (page - 1) * page_records in
      found <- find collection query projection [] skip_records page_records ;;
      results <- lift (stringify_ids found) ;;
      let response_data := count_data (len results) results in
      cache_search_results <- lift (lookup_global ns "cache_search_results") ;;
      _ <- call2 cache_search_results (VDict data) response_data ;;
      jsonify response_data 200.

Definition search_for_name (body : value F) : world F -> response * world F :=
  handle (search_for_name_in search_routes_globals body).

Definition table_reserved : list string :=
  ["database"; "collection"; "page"; "page_records"; "fields"; "sort"].

(** [v == s] for a string literal [s] *)
Definition eq_str (v : value F) (s : string) : bool :=
  match v with
  | VStr s' => String.eqb s' s
  | _ => false
  end.

(** ["." in v] *)
Definition contains_dot (v : value F) : result bool :=
  match v with
  | VStr s => Ok (str_has_char "."%char s)
  | VList l => Ok (existsb (fun x => eq_str x ".") l)
  | VDict d => Ok (dict_has String.eqb "." d)
  | _ => Raise TypeError
  end.

(** [float(v)] *)
Definition py_float (v : value F) : result (value F) :=
  match v with
  | VStr s =>
      match float_of_str s with
      | Some x => Ok (VFloat x)
      | None => Raise ValueError
      end
  | VFloat x => Ok (VFloat x)
  | VInt z =>
      match float_of_int z with
      | Some x => Ok (VFloat x)
      | None => Raise OverflowError
      end
  | VBool b =>
      match float_of_int (if b then 1 else 0) with
      | Some x => Ok (VFloat x)
      | None => Raise OverflowError
      end
  | _ => Raise TypeError
  end.

(** [float(v) if "." in v else int(v)] *)
Definition to_number (v : value F) : result (value F) :=
  rbind (contains_dot v) (fun dotted =>
  if dotted then py_float v else rbind (py_int v) (fun z => Ok (VInt z))).

(** One iteration of the filter loop (lines 222-246); [continue] and a
    fall through both leave the query as it is. *)
Definition table_filter_step (query : doc F) (key : string) (v : value F)
  : result (doc F) :=
  if str_in key table_reserved then Ok query
  else
    match v with
    | VDict d =>
        let data_type := get_default "data_type" (VStr "text") d in
        let search_value := get_default "search_by" VNone d in
        match search_value with
        | VNone => Ok query
        | _ =>
            if eq_str data_type "text" then
              Ok (dict_set String.eqb key
                    (regex_cond (VStr (".*" ++ py_str search_value ++ ".*")))
                    query)
            else if eq_str data_type "number" then
              match to_number search_value with
              | Ok n => Ok (dict_set String.eqb key n query)
              | Raise ValueError => Ok query
              | Raise e => Raise e
              end
            else if eq_str data_type "exact" then
              Ok (dict_set String.eqb key search_value query)
            else Ok query
        end
    | VNone => Ok query
    | VStr s =>
        Ok (dict_set String.eqb key (regex_cond (VStr (".*" ++ s ++ ".*"))) query)
    | _ => Ok (dict_set String.eqb key v query)
    end.

Fixpoint table_filter_loop (query : doc F) (items : doc F) : result (doc F) :=
  match items with
  | [] => Ok query
  | (key, v) :: items' =>
      rbind (table_filter_step query key v) (fun query' =>
      table_filter_loop query' items')
  end.

Definition table_query (filters : value F) : result (doc F) :=
  match filters with
  | VDict items => table_filter_loop [] items
  | _ => Ok []
  end.

(** Lines 263-266. *)
Definition table_direction (sort_data : doc F) : result Z :=
  rbind (py_lower (get_default "direction" (VStr "asc") sort_data)) (fun d =>
  Ok (if String.eqb d "asc" then 1 else -1)).

Definition table_sort_clause (sort_data : value F)
  : result (list (string * Z)) :=
  rbind (as_dict sort_data) (fun sd =>
  if truthy (get_default "sort_by" VNone sd)
  then rbind (table_direction sd) (fun direction =>
       match get "sort_by" sd with
       | Some (VStr field) => Ok [(field, direction)]
       | _ => Raise TypeError
       end)
  else Ok []).

Definition get_table_data_body (body : value F) : M F response :=
  data <- lift (as_dict body) ;;
  database_name <- lift (py_strip (get_default "database" (VStr "") data)) ;;
  collection_name <- lift (py_strip (get_default "collection" (VStr "") data)) ;;
  if String.eqb database_name "" || String.eqb collection_name ""
  then jsonify (VDict [("error", VStr "Database and collection are required")]) 400
  else
    page <- lift (py_int (get_default "page" (VInt 1) data)) ;;
    page_records <- lift (py_int (get_default "page_records" (VInt 10) data)) ;;
    let fields := get_default "fields" (VList []) data in
    let sort_data := get_default "sort" (VDict []) data in
    let filters := get_default "filters" (VDict data) data in
    query <- lift (table_query filters) ;;
    collection <- lift (named_collection database_name collection_name) ;;
    names <- list_collection_names database_name ;;
    if negb (str_in collection_name names)
    then jsonify (VDict [("error", VStr ("Collection " ++ collection_name
                                         ++ " not found"))]) 404
    else
      projection <- lift (projection_of fields) ;;
      let skip_records := (page - 1) * page_records in
      sort_clause <- lift (table_sort_clause sort_data) ;;
      found <- find collection query projection sort_clause skip_records
                 page_records ;;
      results <- lift (stringify_ids found) ;;
      total_count <- count_documents collection query ;;
      jsonify (count_data total_count results) 200.

Definition get_table_data (body : value F) : world F -> response * world F :=
  handle (get_table_data_body body).

(** ** [app/routes/product_routes.py] *)

Definition get_collection : M F coll_ref :=
  match default_db with
  | None => raise ConfigError
  | Some db => ret (db, "products")
  end.

(** Lines 323-328: the projection always includes [_id]. *)
Definition products_projection (fields : value F) : result (option (pydict F)) :=
  if truthy fields
  then rbind (iterate fields) (fun items =>
       rbind (field_dict items) (fun p =>
       Ok (Some (dict_update key_eqb [(VStr "_id", VInt 1)] p))))
  else Ok None.

Definition get_products_body (body : value F) : M F response :=
  data <- lift (as_dict body) ;;
  page <- lift (py_int (get_default "page" (VInt 0) data)) ;;
  page_records <- lift (py_int (get_default "page_records" (VInt 100) data)) ;;
  let fields := get_default "fields" (VList []) data in
  collection <- get_collection ;;
  let skip_records := page * page_records in
  projection <- lift (products_projection fields) ;;
  found <- find collection [] projection [] skip_records page_records ;;
  products <- lift (stringify_ids found) ;;
  jsonify (VDict [("count", VInt (len products));
                  ("products", VList (map VDict products))]) 200.

Definition get_products (body : value F) : world F -> response * world F :=
  handle (get_products_body body).

(** ** [app/routes/fileupload_routes.py]

    [validate_excel_row] is defined in the file but its only call is
    commented out; the upload runs without it. *)

(** The uploaded file: its name, and the rows of the active sheet as the
    workbook reader yields them ([None] when the content is not a
    workbook the reader accepts). *)
Record file_storage : Type := {
  filename : string;
  sheet : option (list (list (value F)))
}.

Record upload_request : Type := {
  req_file : option file_storage;
  req_form : list (string * string)
}.

(** [request.form.get(k, "").strip()] *)
Definition form_field (k : string) (form : list (string * string)) : string :=
  str_strip (match dict_get String.eqb k form with
             | Some s => s
             | None => ""
             end).

Definition batch_size : Z := 500.

Record loop_state : Type := {
  total : Z;
  valid : Z;
  invalid : Z;
  data_buffer : list (pydict F);
  error_buffer : list (pydict F)
}.

Definition collections : Type := (coll_ref * coll_ref * coll_ref)%type.

Section Rows.
(** The row validator.  The handler runs with [fun _ => ""]: the call of
    [validate_excel_row] is commented out and [error_msg] is the empty
    string. *)
Variable validate : pydict F -> string.
Variable file_id : string.
Variable headers : list (value F).
Variable data_collection error_collection : coll_ref.

(** Lines 148-169. *)
Definition append_row (row_index : Z) (row : list (value F))
           (st : loop_state) : M F loop_state :=
  let total' := total st + 1 in
  let row_data := dict_of_pairs key_eqb (combine headers row) in
  let error_msg := validate row_data in
  if negb (String.eqb error_msg "")
  then
    now <- utcnow ;;
    ret {| total := total'; valid := valid st; invalid := invalid st + 1;
           data_buffer := data_buffer st;
           error_buffer := error_buffer st ++
             [[(VStr "fileId", VStr file_id); (VStr "rowNumber", VInt row_index);
               (VStr "error", VStr error_msg); (VStr "createdAt", now)]] |}
  else
    now <- utcnow ;;
    ret {| total := total'; valid := valid st + 1; invalid := invalid st;
           data_buffer := data_buffer st ++
             [dict_set key_eqb (VStr "createdAt") now
                (dict_update key_eqb
                   [(VStr "fileId", VStr file_id);
                    (VStr "rowNumber", VInt row_index)] row_data)];
           error_buffer := error_buffer st |}.

(** Lines 171-173. *)
Definition flush_data (st : loop_state) : M F loop_state :=
  if len (data_buffer st) >=? batch_size
  then
    insert_many data_collection (data_buffer st) ;;;
    ret {| total := total st; valid := valid st; invalid := invalid st;
           data_buffer := []; error_buffer := error_buffer st |}
  else ret st.

(** Lines 175-177. *)
Definition flush_errors (st : loop_state) : M F loop_state :=
  if len (error_buffer st) >=? batch_size
  then
    insert_many error_collection (error_buffer st) ;;;
    ret {| total := total st; valid := valid st; invalid := invalid st;
           data_buffer := data_buffer st; error_buffer := [] |}
  else ret st.

Definition row_steps (ir : Z * list (value F))
  : list (loop_state -> M F loop_state) :=
  [append_row (fst ir) (snd ir); flush_data; flush_errors].

(** [enumerate(rows, start=n)] *)
Fixpoint enumerate {A} (n : Z) (rows : list A) : list (Z * A) :=
  match rows with
  | [] => []
  | r :: rows' => (n, r) :: enumerate (n + 1) rows'
  end.

Definition loop_steps (rows : list (list (value F)))
  : list (loop_state -> M F loop_state) :=
  flat_map row_steps (enumerate 2 rows).

(** Running the statements of the loop one after the other.  The first
    component lists the loop state after every statement that
    completed: the observation points of the run. *)
Fixpoint exec (steps : list (loop_state -> M F loop_state))
         (st : loop_state) (w : world F)
  : list loop_state * (result loop_state * world F) :=
  match steps with
  | [] => ([], (Ok st, w))
  | f :: steps' =>
      match f st w with
      | (Ok st', w') =>
          let (seen, r) := exec steps' st' w' in (st' :: seen, r)
      | (Raise e, w') => ([], (Raise e, w'))
      end
  end.

(** Lines 147-177: the [for] loop. *)
Definition row_loop (rows : list (list (value F))) (st : loop_state)
  : M F loop_state :=
  fun w => snd (exec (loop_steps rows) st w).

(** Lines 179-183. *)
Definition flush_rest (st : loop_state) : M F unit :=
  (match data_buffer st with
   | [] => ret tt
   | _ => insert_many data_collection (data_buffer st)
   end) ;;;
  match error_buffer st with
  | [] => ret tt
  | _ => insert_many error_collection (error_buffer st)
  end.

End Rows.

(** Line 188. *)
Definition final_status (invalid : Z) : string :=
  if invalid >? 0 then "failed" else "compeleted".

Definition upload_with (validate : pydict F -> string) (req : upload_request)
  : M F response :=
  let database_name := form_field "database" (req_form req) in
  let data_collection_name := form_field "data_collection" (req_form req) in
  let uploaded_by := form_field "uploadedBy" (req_form req) in
  match req_file req with
  | None =>
      jsonify (VDict [("error",
        VStr "file, database, data_collection, and uploadedBy are required")]) 400
  | Some file =>
      if String.eqb (filename file) "" || String.eqb database_name ""
         || String.eqb data_collection_name "" || String.eqb uploaded_by ""
      then
        jsonify (VDict [("error",
          VStr "file, database, data_collection, and uploadedBy are required")]) 400
      else if negb (str_endswith (filename file) ".xlsx")
      then jsonify (VDict [("error", VStr "Only .xlsx files are allowed")]) 400
      else
        match filename_groups (filename file) with
        | None => jsonify (VDict [("error", VStr "Invalid filename format")]) 400
        | Some (_, year, creater, reviewer, date_str) =>
            data_collection <-
              lift (named_collection database_name data_collection_name) ;;
            let file_collection := (database_name, "file_uploads") in
            let error_collection := (database_name, "validation_errors") in
            u <- uuid4 ;;
            let file_id := Ident.str_of_uuid u in
            year_number <- lift (match int_of_str year with
                                 | Some y => Ok y
                                 | None => Raise ValueError
                                 end) ;;
            upload_date <- utcnow ;;
            insert_one file_collection
              [(VStr "_id", VStr file_id);
               (VStr "filename", VStr (filename file));
               (VStr "createdBy", VStr creater);
               (VStr "uploadedBy", VStr uploaded_by);
               (VStr "reviewedBy", VStr reviewer);
               (VStr "year", VInt year_number);
               (VStr "uploadDate", upload_date);
               (VStr "status", VStr "uploading");
               (VStr "totalRows", VInt 0);
               (VStr "validRows", VInt 0);
               (VStr "invalidRows", VInt 0)] ;;;
            rows <- lift (match sheet file with
                          | Some rows => Ok rows
                          | None => Raise InvalidFile
                          end) ;;
            match rows with
            | [] => raise StopIteration
            | headers :: data_rows =>
                st <- row_loop validate file_id headers data_collection
                        error_collection data_rows
                        {| total := 0; valid := 0; invalid := 0;
                           data_buffer := []; error_buffer := [] |} ;;
                flush_rest data_collection error_collection st ;;;
                let status := final_status (invalid st) in
                update_one file_collection [("_id", VStr file_id)]
                  [(VStr "status", VStr status);
                   (VStr "totalRows", VInt (total st));
                   (VStr "validRows", VInt (valid st));
                   (VStr "invalidRows", VInt (invalid st))] ;;;
                jsonify (VDict [("fileId", VStr file_id);
                                ("database", VStr database_name);
                                ("collection", VStr data_collection_name);
                                ("filename", VStr (filename file));
                                ("status", VStr status);
                                ("totalRows", VInt (total st));
                                ("validRows", VInt (valid st));
                                ("invalidRows", VInt (invalid st))]) 200
            end
        end
  end.

Definition upload_excel_file (req : upload_request)
  : world F -> response * world F :=
  handle (upload_with (fun _ => "") req).

Definition files_reserved : list string :=
  ["database"; "collection"; "page"; "page_records"].

(** Lines 272-276. *)
Definition files_query (data : doc F) : doc F :=
  dict_of_pairs String.eqb
    (map (fun kv => (fst kv, regex_cond (snd kv)))
       (filter (fun kv => truthy (snd kv)
                          && negb (str_in (fst kv) files_reserved))
          data)).

Definition get_uploaded_files_body (body : value F) : M F response :=
  data <- lift (as_dict body) ;;
  database_name <- lift (py_strip (get_default "database" (VStr "") data)) ;;
  collection_name <- lift (py_strip (get_default "collection" (VStr "") data)) ;;
  page <- lift (py_int (get_default "page" (VInt 1) data)) ;;
  page_records <- lift (py_int (get_default "page_records" (VInt 20) data)) ;;
  if String.eqb database_name "" || String.eqb collection_name ""
  then jsonify (VDict [("error", VStr "Database and collection are required")]) 400
  else
    let query := files_query data in
    collection <- lift (named_collection database_name collection_name) ;;
    let skip := (page - 1) * page_records in
    found <- find collection query None [("createdAt", -1)] skip
               page_records ;;
    total <- count_documents collection query ;;
    files <- lift (stringify_ids found) ;;
    jsonify (VDict [("count", VInt total); ("page", VInt page);
                    ("page_records", VInt page_records);
                    ("data", VList (map VDict files))]) 200.

Definition get_uploaded_files (body : value F)
  : world F -> response * world F :=
  handle (get_uploaded_files_body body).

(** [ObjectId(v)]: an ObjectId, or a string of 24 characters that
    [bytes.fromhex] accepts. *)
Definition object_id (v : value F) : result N :=
  match v with
  | VObjectId o => Ok o
  | VStr s =>
      if (String.length s =? 24)%nat
      then match Ident.fromhex s with
           | Some bs => Ok (Ident.oid_of_bytes bs)
           | None => Raise InvalidId
           end
      else Raise InvalidId
  | _ => Raise TypeError
  end.

Definition delete_uploaded_file_body (body : value F) : M F response :=
  data <- lift (as_dict body) ;;
  database_name <- lift (py_strip (get_default "database" (VStr "") data)) ;;
  file_collection_name <-
    lift (py_strip (get_default "file_collection" (VStr "") data)) ;;
  data_collection_name <-
    lift (py_strip (get_default "data_collection" (VStr "") data)) ;;
  let file_id := get_default "fileId" VNone data in
  if negb (negb (String.eqb database_name "")
           && negb (String.eqb file_collection_name "")
           && negb (String.eqb data_collection_name "")
           && truthy file_id)
  then jsonify (VDict [("error", VStr "Missing required fields")]) 400
  else
    file_collection <-
      lift (named_collection database_name file_collection_name) ;;
    data_collection <-
      lift (named_collection database_name data_collection_name) ;;
    file_object_id <- lift (object_id file_id) ;;
    file_doc <- find_one file_collection [("_id", VObjectId file_object_id)] ;;
    match file_doc with
    | None => jsonify (VDict [("error", VStr "File not found")]) 404
    | Some _ =>
        rows_deleted <- delete_many data_collection
                          [("fileId", VObjectId file_object_id)] ;;
        delete_one file_collection [("_id", VObjectId file_object_id)] ;;;
        jsonify (VDict [("message", VStr "File deleted successfully");
                        ("rowsDeleted", VInt rows_deleted)]) 200
    end.

Definition delete_uploaded_file (body : value F)
  : world F -> response * world F :=
  handle (delete_uploaded_file_body body).

End Http.

Arguments payload F : clear implicits.
Arguments response F : clear implicits.
Arguments namespace F : clear implicits.
Arguments file_storage F : clear implicits.
Arguments upload_request F : clear implicits.
Arguments loop_state F : clear implicits.

(** ** A concrete runtime

    Decimal numbers stand for floats, the store supports exactly the
    conditions written out in [Mongo] and keeps insertion order.  The
    examples below run in it. *)

Module Sample.

(** [m / 10^e] *)
Definition dec : Type := (Z * nat)%type.

Fixpoint frac_digits (s : string) (m : Z) (e : nat) : option dec :=
  match s with
  | EmptyString => Some (m, e)
  | String c s' =>
      if is_digit c then frac_digits s' (10 * m + digit_val c) (S e) else None
  end.

Fixpoint dec_digits (s : string) (m : Z) : option dec :=
  match s with
  | EmptyString => Some (m, O)
  | String c s' =>
      if is_digit c then dec_digits s' (10 * m + digit_val c)
      else if Ascii.eqb c "."%char then frac_digits s' m O
      else None
  end.

Definition dec_of_str (s : string) : option dec :=
  match str_strip s with
  | EmptyString => None
  | String "."%char EmptyString => None
  | String "-"%char s' =>
      option_map (fun d => (Z.opp (fst d), snd d)) (dec_digits s' 0)
  | s' => dec_digits s' 0
  end.

Definition str_of_dec (d : dec) : string :=
  str_of_int (Z.quot (fst d) (10 ^ Z.of_nat (snd d))) ++ "."
    ++ str_of_int (Z.abs (Z.rem (fst d) (10 ^ Z.of_nat (snd d)))).

Fixpoint join (sep : string) (l : list string) : string :=
  match l with
  | [] => ""
  | [s] => s
  | s :: l' => s ++ sep ++ join sep l'
  end.

Fixpoint repr (v : value dec) : string :=
  match v with
  | VNone => "None"
  | VBool true => "True"
  | VBool false => "False"
  | VInt z => str_of_int z
  | VFloat x => str_of_dec x
  | VStr s => "'" ++ s ++ "'"
  | VList l => "[" ++ join ", " (map repr l) ++ "]"
  | VDict d =>
      "{" ++ join ", " (map (fun kv => match kv with
                                       | (k, x) => "'" ++ k ++ "': " ++ repr x
                                       end) d) ++ "}"
  | VObjectId o => "ObjectId('" ++ Ident.str_of_oid o ++ "')"
  | VDatetime t => str_of_int t
  end.

Definition scalar_eqb (a b : value dec) : bool :=
  match a, b with
  | VNone, VNone => true
  | VStr s, VStr t => String.eqb s t
  | VInt x, VInt y => Z.eqb x y
  | VBool x, VBool y => Bool.eqb x y
  | VBool x, VInt y | VInt y, VBool x => Z.eqb (if x then 1 else 0) y
  | VObjectId x, VObjectId y => N.eqb x y
  | VDatetime x, VDatetime y => Z.eqb x y
  | _, _ => false
  end.

Definition all_digits (s : string) : bool :=
  forallb is_digit (list_ascii_of_string s).

(** The first split, in the order a backtracking matcher tries them, of
    [name] as [g1 yyyy _ g3 _ g4 _ dddddddd .xlsx ...] with non-empty
    [g1], [g3] and [g4]. *)
Definition split_filename (name : string)
  : option (string * string * string * string * string) :=
  let n := String.length name in
  let sub := fun a b => substring a (b - a) name in
  let candidates :=
    flat_map (fun i =>
      flat_map (fun j =>
        map (fun k => (i, j, k)) (seq (j + 2) (n - (j + 1))))
        (seq (i + 6) (n - (i + 5))))
      (seq 1 n) in
  match
    List.find (fun ijk =>
      match ijk with
      | (i, j, k) =>
          all_digits (sub i (i + 4)) && String.eqb (sub (i + 4) (i + 5)) "_"
          && String.eqb (sub j (j + 1)) "_"
          && String.eqb (sub k (k + 1)) "_"
          && all_digits (sub (k + 1) (k + 9))
          && (String.length (sub (k + 1) (k + 9)) =? 8)%nat
          && (String.length (sub i (i + 4)) =? 4)%nat
          && String.eqb (sub (k + 9) (k + 14)) ".xlsx"
      end) candidates
  with
  | Some (i, j, k) =>
      Some (sub 0 i, sub i (i + 4), sub (i + 5) j, sub (j + 1) k,
            sub (k + 1) (k + 9))
  | None => None
  end%nat.

#[global] Instance sample_runtime : Py.runtime dec := {|
  float_of_str := dec_of_str;
  float_truthy := fun d => negb (fst d =? 0);
  int_of_float := fun d => Some (Z.quot (fst d) (10 ^ Z.of_nat (snd d)));
  float_of_int := fun z => Some (z, O);
  str_other := repr;
  key_eqb := scalar_eqb;
  filename_groups := split_filename
|}.

#[global] Instance sample_environment : Mongo.environment dec := {|
  ext_cond := fun _ _ _ => false;
  ext_cond_error := fun _ _ => Some OperationFailure;
  ext_sort := fun _ ds => ds;
  oid_at := fun n => N.of_nat n;
  time_at := fun n => Z.of_nat n;
  uuid_at := fun n => (N.of_nat n + 2 ^ 100)%N;
  default_db := Some "ecommercedb"
|}.

(** The names the driver refuses with [InvalidName]: an empty database
    name or one with a space, a dot, a dollar sign, a slash, a backslash,
    a null character or a double quote; an empty collection name or one
    with two dots in a row, with a dollar sign (the system collections
    apart), with a dot at either end or with a null character. *)
Definition bad_database_name (s : string) : bool :=
  String.eqb s ""
  || existsb (fun c => str_has_char c s)
       [" "%char; "."%char; "$"%char; "/"%char; ascii_of_nat 92;
        ascii_of_nat 0; ascii_of_nat 34].

Fixpoint has_two_dots (s : string) : bool :=
  match s with
  | String "."%char (String "."%char _) => true
  | String _ s' => has_two_dots s'
  | EmptyString => false
  end.

Definition bad_collection_name (s : string) : bool :=
  String.eqb s ""
  || has_two_dots s
  || (str_has_char "$"%char s
      && negb (String.prefix "oplog.$main" s || String.prefix "$cmd" s))
  || String.prefix "." s
  || str_endswith s "."
  || str_has_char (ascii_of_nat 0) s.

#[global] Instance sample_driver : driver := {|
  invalid_name := fun db coll =>
    if bad_database_name db || bad_collection_name coll
    then Some InvalidName else None
|}.

Definition empty_world : world dec :=
  {| colls := []; moment := O; journal := [] |}.

Definition product (n : N) (name : string) : doc dec :=
  [("_id", VObjectId n); ("productName", VStr name)].

Definition shop : world dec :=
  {| colls := [(("ecommercedb", "products"),
                [product 1 "My Test Product"; product 2 "Test Kit";
                 product 3 "Lamp"])];
     moment := 10; journal := [] |}.

Definition budget_file (rows : list (list (value dec))) : file_storage dec :=
  {| filename := "AnnualBudget2026_JaneDoe_MarkSmith_20251216.xlsx";
     sheet := Some ([VStr "department"; VStr "amount"] :: rows) |}.

Definition budget_upload (rows : list (list (value dec))) : upload_request dec :=
  {| req_file := Some (budget_file rows);
     req_form := [("database", "upload_db"); ("data_collection", "excel_data");
                  ("uploadedBy", "JaneDoe")] |}.

Definition budget_row : list (value dec) := [VStr "IT"; VInt 100].

(** A row without a department, and a validator that asks for one (the
    first check of [validate_excel_row]). *)
Definition unnamed_row : list (value dec) := [VStr ""; VInt 100].

Definition department_required (row : pydict dec) : string :=
  match dict_get scalar_eqb (VStr "department") row with
  | Some v => if truthy v then "" else "Department is required"
  | None => "Department is required"
  end.

End Sample.

(** ** The vocabulary of the properties *)

Section Vocabulary.
Context {F : Type} {rt : runtime F} {env : environment F} {drv : driver}.

(** The spellings of "asc" in any letter case. *)
Definition asc_spellings : list string :=
  ["asc"; "asC"; "aSc"; "aSC"; "Asc"; "AsC"; "ASc"; "ASC"].

(** The string [s] is not the text of a number: [float(s)] raises when
    [s] has a decimal point, [int(s)] raises when it has none. *)
Definition not_a_number (s : string) : Prop :=
  (str_has_char "."%char s = true /\ float_of_str s = None)
  \/ (str_has_char "."%char s = false /\ int_of_str s = None).

(** The message of the validator for a row under the headers. *)
Definition row_error (validate : pydict F -> string)
           (headers row : list (value F)) : string :=
  validate (dict_of_pairs key_eqb (combine headers row)).

Definition row_invalid (validate : pydict F -> string)
           (headers row : list (value F)) : bool :=
  negb (String.eqb (row_error validate headers row) "").

Definition row_valid (validate : pydict F -> string)
           (headers row : list (value F)) : bool :=
  String.eqb (row_error validate headers row) "".

(** The sizes of the batches handed to [insert_many], in order. *)
Definition flush_sizes (ops : list (write_op (F := F))) : list Z :=
  flat_map (fun op => match op with
                      | WInsertMany _ ds => [len ds]
                      | _ => []
                      end) ops.

(** The batches handed to [insert_many] on collection [c], in order. *)
Definition batches_to (c : coll_ref) (ops : list (write_op (F := F)))
  : list (list (pydict F)) :=
  flat_map (fun op => match op with
                      | WInsertMany c' ds => if ref_eqb c' c then [ds] else []
                      | _ => []
                      end) ops.

(** The sizes of the batches in which [n] entries leave a buffer: the
    full batches, then the remainder if there is one. *)
Definition batch_sizes (n : Z) : list Z :=
  (repeat batch_size (Z.to_nat (n / batch_size))
   ++ (if n mod batch_size =? 0 then [] else [n mod batch_size]))%list.

Definition within_batch (st : loop_state F) : Prop :=
  len (data_buffer st) <= batch_size /\ len (error_buffer st) <= batch_size.

Definition below_batch (st : loop_state F) : Prop :=
  len (data_buffer st) < batch_size /\ len (error_buffer st) < batch_size.

Definition start_state : loop_state F :=
  {| total := 0; valid := 0; invalid := 0;
     data_buffer := []; error_buffer := [] |}.

(** The documents of collection [c] that match [q], in the order of the
    cursor: the order of the collection, or the order of the sort. *)
Definition cursor_docs (w : world F) (c : coll_ref) (q : doc F)
           (s : list (string * Z)) : list (doc F) :=
  match s with
  | [] => filter (matches q) (docs_of w c)
  | _ => ext_sort s (filter (matches q) (docs_of w c))
  end.

(** The documents left after skipping [skip] and keeping [limit]. *)
Definition page_slice (skip limit : Z) (ds : list (doc F)) : list (doc F) :=
  firstn (Z.to_nat limit) (skipn (Z.to_nat skip) ds).

(** The list under [field] of the response [v] is the page of [ds] that
    starts after [skip] documents and has at most [limit] items, with
    the projection applied and the identifiers turned into strings. *)
Definition shows_page (v : value F) (field : string) (skip limit : Z)
           (ds : list (doc F)) : Prop :=
  exists proj results,
    stringify_ids (map (project proj) (page_slice skip limit ds)) = Ok results
    /\ (exists d, v = VDict d /\ get field d = Some (VList (map VDict results)))
    /\ len results <= limit.

(** The request without its paging and projection parameters. *)
Definition without_paging (data : doc F) : doc F :=
  filter (fun kv => negb (str_in (fst kv) ["page"; "page_records"; "fields"]))
    data.

(** The JSON body of the answer of a handler. *)
Definition answer (r : response F * world F) : value F :=
  match fst (fst r) with
  | PJson v => v
  | PExn _ => VNone
  end.

(** The [count] of a response. *)
Definition count_of (v : value F) : option (value F) :=
  match v with
  | VDict d => get "count" d
  | _ => None
  end.

End Vocabulary.


(** ** Further vocabulary *)

Section MoreVocabulary.
Context {F : Type} {rt : runtime F} {env : environment F} {drv : driver}.

(** A computation that leaves the store as it found it, whether it
    returns or raises. *)
Definition reads_only {A} (m : M F A) : Prop :=
  forall w, snd (m w) = w.

(** The status code of the answer of a handler. *)
Definition status_of (r : response F * world F) : Z := snd (fst r).

(** The items listed under [field] in a JSON body. *)
Definition items_of (v : value F) (field : string) : list (value F) :=
  match v with
  | VDict d =>
      match get field d with
      | Some (VList l) => l
      | _ => []
      end
  | _ => []
  end.

(** The value is a document whose [_id] is a string. *)
Definition has_string_id (v : value F) : Prop :=
  exists d s, v = VDict d /\ get "_id" d = Some (VStr s).

End MoreVocabulary.

Section TranslatorVocabulary.
Context {F : Type} {rt : runtime F}.

(** The declared type of a structured predicate is one the translator
    knows. *)
Definition known_data_type (data_type : value F) : bool :=
  eq_str data_type "text" || eq_str data_type "number"
  || eq_str data_type "exact".

(** A filter value the translator passes over: null, a structured
    predicate without a [search_by], or one whose declared type is not
    known. *)
Definition passed_over (v : value F) : Prop :=
  v = VNone
  \/ exists d,
       v = VDict d
       /\ (get_default "search_by" VNone d = VNone
           \/ known_data_type (get_default "data_type" (VStr "text") d) = false).

(** The clause of the uploaded-files query for a key bound to [v]. *)
Definition files_clause (k : string) (v : value F) : option (value F) :=
  if truthy v && negb (str_in k files_reserved)
  then Some (regex_cond v)
  else None.

End TranslatorVocabulary.

Section UploadVocabulary.
Context {F : Type} {rt : runtime F} {env : environment F} {drv : driver}.

(** The upload request fails one of the checks made before the store is
    touched: a file with a name, the three form fields, the [.xlsx]
    extension and the pattern of the file name. *)
Definition upload_malformed (req : upload_request F) : bool :=
  match req_file req with
  | None => true
  | Some file =>
      String.eqb (filename file) ""
      || String.eqb (form_field "database" (req_form req)) ""
      || String.eqb (form_field "data_collection" (req_form req)) ""
      || String.eqb (form_field "uploadedBy" (req_form req)) ""
      || negb (str_endswith (filename file) ".xlsx")
      || match filename_groups (filename file) with
         | None => true
         | Some _ => false
         end
  end.

(** No document of the collection has the identifier [id]. *)
Definition id_unused (w : world F) (c : coll_ref) (id : value F) : Prop :=
  existsb (cond_matches "_id" id) (docs_of w c) = false.

(** The field of a document is neither an ObjectId nor an array. *)
Definition plain_field (k : string) (d : doc F) : Prop :=
  match get k d with
  | Some (VObjectId _) => False
  | Some (VList _) => False
  | _ => True
  end.

End UploadVocabulary.

Section StoreVocabulary.
Context {F : Type} {rt : runtime F} {env : environment F} {drv : driver}.

(** Every collection of [w'] starts with the documents it had in [w]:
    nothing was removed, replaced or reordered. *)
Definition store_grows (w w' : world F) : Prop :=
  forall c, exists added, docs_of w' c = (docs_of w c ++ added)%list.

End StoreVocabulary.

(** ** More of [app/routes/product_routes.py]

    [create_product], [get_productstotalcount], [get_product],
    [delete_product] and [check_unique_with_category_and_sku]. *)

Section Products.
Context {F : Type} {rt : runtime F} {env : environment F} {drv : driver}.

(** [d[k]] *)
Definition subscript (k : string) (d : doc F) : result (value F) :=
  match get k d with
  | Some v => Ok v
  | None => Raise KeyError
  end.

(** [request.json[k]]: only a dict can be subscripted by a string. *)
Definition json_subscript (k : string) (body : value F) : result (value F) :=
  match body with
  | VDict d => subscript k d
  | _ => Raise TypeError
  end.

(** [ObjectId.is_valid(v)] *)
Definition object_id_is_valid (v : value F) : bool :=
  truthy v && is_ok (object_id v).

(** [collection.insert_one(d).inserted_id]: the [_id] of [d], or the
    ObjectId generated for it. *)
Definition insert_one_id (c : coll_ref) (d : pydict F) : M F (value F) :=
  record_op (WInsertOne c d) ;;;
  e <- lift (encode d) ;;
  idd <- match get "_id" e with
         | Some id => ret (id, e)
         | None => id <- fresh_oid ;;
                   ret (id, dict_set String.eqb "_id" id e)
         end ;;
  insert_doc c (snd idd) ;;;
  ret (fst idd).

(** [collection.delete_one(q).deleted_count] *)
Definition delete_one_count (c : coll_ref) (q : doc F) : M F Z :=
  record_op (WDeleteOne c q) ;;;
  check_query q ;;;
  fun w =>
    if existsb (matches q) (docs_of w c)
    then (Ok 1, set_docs c (remove_first q (docs_of w c)) w)
    else (Ok 0, w).

Definition required_fields : list string :=
  ["category"; "sku"; "productName"; "active"; "country"].

(** Lines 82-84: the first required field whose value is missing or
    falsy. *)
Fixpoint first_missing (fields : list string) (data : doc F) : option string :=
  match fields with
  | [] => None
  | field :: fields' =>
      if negb (truthy (get_default field VNone data)) then Some field
      else first_missing fields' data
  end.

Definition create_product_body (body : value F) : M F (response F) :=
  data <- lift (as_dict body) ;;
  database_name <- lift (py_strip (get_default "database" (VStr "") data)) ;;
  collection_name <- lift (py_strip (get_default "collection" (VStr "") data)) ;;
  match first_missing required_fields data with
  | Some field =>
      jsonify (VDict [("error", VStr ("'" ++ field ++ "' is required"))]) 400
  | None =>
      category <- lift (subscript "category" data) ;;
      sku <- lift (subscript "sku" data) ;;
      product_name <- lift (subscript "productName" data) ;;
      active <- lift (subscript "active" data) ;;
      country <- lift (subscript "country" data) ;;
      created_at <- utcnow ;;
      let product_doc :=
        [(VStr "category", category);
         (VStr "sku", sku);
         (VStr "productName", product_name);
         (VStr "description", get_default "description" (VStr "") data);
         (VStr "active", active);
         (VStr "country", country);
         (VStr "productLabel", get_default "productLabel" VNone data);
         (VStr "createdAt", created_at)] in
      collection <- lift (named_collection database_name collection_name) ;;
      existing <- find_one collection [("sku", sku)] ;;
      match existing with
      | Some (_ :: _) =>
          jsonify (VDict [("error", VStr "SKU must be unique")]) 400
      | _ =>
          inserted_id <- insert_one_id collection product_doc ;;
          jsonify (VDict [("message", VStr "Product created successfully");
                          ("inserted_id", VStr (py_str inserted_id))]) 201
      end
  end.

Definition create_product (body : value F) : world F -> response F * world F :=
  handle (create_product_body body).

Definition total_count_projection : pydict F :=
  [(VStr "_id", VInt 1); (VStr "category", VInt 1); (VStr "sku", VInt 1);
   (VStr "productName", VInt 1); (VStr "description", VInt 1);
   (VStr "productStatus", VInt 1); (VStr "country", VInt 1);
   (VStr "productLabel", VInt 1); (VStr "active", VInt 1)].

Definition get_productstotalcount_body : M F (response F) :=
  collection <- get_collection ;;
  found <- find collection [] (Some total_count_projection) [("_id", -1)] 0 0 ;;
  products <- lift (stringify_ids found) ;;
  jsonify (VDict [("response_count", VInt (len products))]) 200.

Definition get_productstotalcount : world F -> response F * world F :=
  handle get_productstotalcount_body.

Definition get_product_body (id : string) : M F (response F) :=
  collection <- get_collection ;;
  if negb (object_id_is_valid (VStr id : value F))
  then jsonify (VDict [("error", VStr "Invalid product ID format")]) 400
  else
    oid <- lift (object_id (VStr id : value F)) ;;
    product <- find_one collection [("_id", VObjectId oid)] ;;
    match product with
    | Some (kv :: rest) =>
        shown <- lift (stringify_id (kv :: rest)) ;;
        jsonify (VDict shown) 200
    | _ => jsonify (VDict [("error", VStr "Product not found")]) 404
    end.

Definition get_product (id : string) : world F -> response F * world F :=
  handle (get_product_body id).

Definition delete_product_body (id : string) : M F (response F) :=
  collection <- get_collection ;;
  if negb (object_id_is_valid (VStr id : value F))
  then jsonify (VDict [("error", VStr "Invalid product ID format")]) 400
  else
    oid <- lift (object_id (VStr id : value F)) ;;
    deleted_count <- delete_one_count collection [("_id", VObjectId oid)] ;;
    if deleted_count =? 0
    then jsonify (VDict [("error", VStr "Product not found")]) 404
    else jsonify (VDict [("message", VStr "Product deleted successfully")]) 200.

Definition delete_product (id : string) : world F -> response F * world F :=
  handle (delete_product_body id).

Definition check_unique_with_category_and_sku_body (body : value F)
  : M F (response F) :=
  category <- lift (json_subscript "category" body) ;;
  sku <- lift (json_subscript "sku" body) ;;
  collection <- get_collection ;;
  found <- find collection [("category", category); ("sku", sku)]
             (Some [(VStr "_id", VInt 1)]) [] 0 0 ;;
  products <- lift (stringify_ids found) ;;
  jsonify (VDict [("products", VList (map VDict products))]) 200.

Definition check_unique_with_category_and_sku (body : value F)
  : world F -> response F * world F :=
  handle (check_unique_with_category_and_sku_body body).

End Products.


(** ** More sample data *)

Module Cases.

Import Sample.

(** A store with one file record keyed by an ObjectId, one keyed by the
    string of an upload, and their rows. *)
Definition archive : world dec :=
  {| colls :=
       [(("reports_db", "uploaded_files"),
         [[("_id", VObjectId 7); ("filename", VStr "Budget.xlsx")];
          [("_id", VStr "job-1"); ("filename", VStr "Plan.xlsx")]]);
        (("reports_db", "excel_data"),
         [[("_id", VObjectId 20); ("fileId", VObjectId 7); ("rowNumber", VInt 2)];
          [("_id", VObjectId 21); ("fileId", VStr "job-1"); ("rowNumber", VInt 2)];
          [("_id", VObjectId 22); ("fileId", VObjectId 7); ("rowNumber", VInt 3)]])];
     moment := 30; journal := [] |}.

Definition delete_request (file_id : string) : value dec :=
  VDict [("database", VStr "reports_db");
         ("file_collection", VStr "uploaded_files");
         ("data_collection", VStr "excel_data");
         ("fileId", VStr file_id)].

Definition kite : doc dec :=
  [("database", VStr "ecommercedb"); ("collection", VStr "products");
   ("category", VStr "toys"); ("sku", VStr "K-1");
   ("productName", VStr "Kite"); ("active", VBool true);
   ("country", VStr "FR")].

(** An upload whose file has the right name but is not a workbook. *)
Definition text_upload : upload_request dec :=
  {| req_file :=
       Some {| filename := "AnnualBudget2026_JaneDoe_MarkSmith_20251216.xlsx";
               sheet := None |};
     req_form := [("database", "upload_db"); ("data_collection", "excel_data");
                  ("uploadedBy", "JaneDoe")] |}.

End Cases.
(** * Properties *)

(** ** Running a handler body *)

Section Monad.
Context {F : Type} {rt : runtime F} {env : environment F} {drv : driver}.

Lemma bind_ok {A B} (m : M F A) (k : A -> M F B) w b w' :
  bind m k w = (Ok b, w') ->
  exists a w1, m w = (Ok a, w1) /\ k a w1 = (Ok b, w').
Proof.
  unfold bind. destruct (m w) as [[a | e] w1]; intros H.
  - exists a, w1. split; [reflexivity | exact H].
  - discriminate H.
Qed.

Lemma lift_ok {A} (r : result A) w a w' :
  lift (F := F) r w = (Ok a, w') -> r = Ok a /\ w' = w.
Proof. unfold lift. intros H. inversion H. split; reflexivity. Qed.

Lemma ret_ok {A} (x : A) w a w' :
  ret (F := F) x w = (Ok a, w') -> a = x /\ w' = w.
Proof. unfold ret. intros H. inversion H. split; reflexivity. Qed.

Lemma jsonify_ok (v : value F) status w r w' :
  jsonify v status w = (Ok r, w') ->
  r = (PJson v, status) /\ w' = w /\ jsonable v = true.
Proof.
  unfold jsonify. destruct (jsonable v); intros H.
  - apply ret_ok in H. destruct H as [-> ->]. repeat split.
  - discriminate H.
Qed.

(** A handler answers 200 only when its body ran to the end. *)
Lemma handle_200 (body : M F (response F)) w p w' :
  handle body w = ((p, 200), w') -> body w = (Ok (p, 200), w').
Proof.
  unfold handle. destruct (body w) as [[r | e] w1]; intros H.
  - inversion H. reflexivity.
  - inversion H.
Qed.

Lemma named_collection_ok (db coll : string) (c : coll_ref) :
  named_collection db coll = Ok c ->
  c = (db, coll) /\ invalid_name db coll = None.
Proof.
  unfold named_collection. destruct (invalid_name db coll); intros H.
  - discriminate H.
  - injection H as <-. split; reflexivity.
Qed.

Lemma ref_eqb_eq (a b : coll_ref) : ref_eqb a b = true <-> a = b.
Proof.
  destruct a as [a1 a2], b as [b1 b2]. unfold ref_eqb. cbn [fst snd].
  rewrite andb_true_iff, !String.eqb_eq. split.
  - intros [-> ->]. reflexivity.
  - intros H. now injection H.
Qed.

Lemma ref_eqb_refl (a : coll_ref) : ref_eqb a a = true.
Proof. now apply ref_eqb_eq. Qed.

Lemma rbind_ok {A B} (r : result A) (k : A -> result B) b :
  rbind r k = Ok b -> exists a, r = Ok a /\ k a = Ok b.
Proof.
  destruct r as [a | e]; simpl; intros H.
  - exists a. split; [reflexivity | exact H].
  - discriminate H.
Qed.

End Monad.

(** ** Strings *)

Lemma hex_digits_length k n acc :
  String.length (Ident.hex_digits k n acc) = (k + String.length acc)%nat.
Proof.
  revert n acc. induction k as [| k IH]; intros n acc; simpl.
  - reflexivity.
  - rewrite IH. simpl. lia.
Qed.

Lemma substring_length n m s :
  (n + m <= String.length s)%nat -> String.length (substring n m s) = m.
Proof.
  revert n m. induction s as [| c s IH]; intros n m H; simpl in H.
  - assert (n = 0 /\ m = 0)%nat as [-> ->] by lia. reflexivity.
  - destruct n as [| n]; simpl.
    + destruct m as [| m]; simpl; [reflexivity |].
      f_equal. apply (IH 0%nat m). lia.
    + apply IH. lia.
Qed.

Lemma append_length s t :
  String.length (s ++ t) = (String.length s + String.length t)%nat.
Proof. induction s as [| c s IH]; simpl; [reflexivity | now rewrite IH]. Qed.

(** [str(uuid.uuid4())] has 36 characters. *)
Lemma str_of_uuid_length u : String.length (Ident.str_of_uuid u) = 36%nat.
Proof.
  unfold Ident.str_of_uuid.
  assert (L : String.length (Ident.hex 32 u) = 32%nat).
  { unfold Ident.hex. rewrite hex_digits_length. reflexivity. }
  repeat rewrite append_length.
  repeat (rewrite substring_length by (rewrite L; lia)).
  reflexivity.
Qed.

Lemma eqb_empty_false s : s <> "" -> String.eqb s "" = false.
Proof. intros H. now apply String.eqb_neq. Qed.

(** ** The search-for-name operation *)

Section SearchForName.
Context {F : Type} {rt : runtime F} {env : environment F} {drv : driver}.

Lemma lookup_cache_helper :
  lookup_global (F := F) search_routes_globals "get_cached_search_results"
  = Raise (NameError "get_cached_search_results").
Proof. reflexivity. Qed.

(** C3.  A request to [search_for_name] whose database and collection
    names are non-empty never gets a result payload: the answer is the 500
    response of the catch-all handler and the store is untouched.  When
    [page] and [page_records] convert to integers the exception is the
    [NameError] raised by the call of [get_cached_search_results], a name
    bound nowhere in the module. *)
Theorem search_for_name_server_error :
  forall (data : doc F) (db coll : string) (w : world F),
    py_strip (get_default "database" (VStr "") data) = Ok db ->
    db <> "" ->
    py_strip (get_default "collection" (VStr "") data) = Ok coll ->
    coll <> "" ->
    exists e,
      search_for_name (VDict data) w = ((PExn e, 500), w)
      /\ (is_ok (py_int (get_default "page" (VInt 1) data)) = true ->
          is_ok (py_int (get_default "page_records" (VInt 1000) data)) = true ->
          e = NameError "get_cached_search_results").
Proof.
  intros data db coll w Hdb Hne Hcoll Hne'.
  unfold search_for_name, handle, search_for_name_in, bind, lift, as_dict.
  rewrite Hdb, Hcoll.
  destruct (py_int (get_default "page" (VInt 1) data)) as [page | e1].
  - destruct (py_int (get_default "page_records" (VInt 1000) data))
      as [page_records | e2].
    + rewrite (eqb_empty_false db Hne), (eqb_empty_false coll Hne').
      simpl. eexists. split; [reflexivity | intros _ _; reflexivity].
    + eexists. split; [reflexivity | intros _ H; discriminate H].
  - eexists. split; [reflexivity | intros H; discriminate H].
Qed.

(** Whatever the request, [search_for_name] does not answer 200. *)
Lemma search_for_name_never_200 (body : value F) (w : world F) :
  snd (fst (search_for_name body w)) <> 200.
Proof.
  unfold search_for_name, handle, search_for_name_in, bind, lift.
  destruct (as_dict body) as [data | e]; [| simpl; lia].
  destruct (py_strip (get_default "database" (VStr "") data)) as [db | e];
    [| simpl; lia].
  destruct (py_strip (get_default "collection" (VStr "") data)) as [coll | e];
    [| simpl; lia].
  destruct (py_int (get_default "page" (VInt 1) data)) as [page | e];
    [| simpl; lia].
  destruct (py_int (get_default "page_records" (VInt 1000) data)) as [pr | e];
    [| simpl; lia].
  destruct (String.eqb db "" || String.eqb coll ""); simpl; lia.
Qed.

End SearchForName.

Lemma search_for_name_server_error_witness :
  exists e,
    search_for_name
      (VDict [("database", VStr "ecommercedb"); ("collection", VStr "products");
              ("productName", VStr "Test")]) Sample.shop
    = ((PExn e, 500), Sample.shop)
    /\ (true = true -> true = true -> e = NameError "get_cached_search_results").
Proof.
  apply (search_for_name_server_error
           [("database", VStr "ecommercedb"); ("collection", VStr "products");
            ("productName", VStr "Test")] "ecommercedb" "products" Sample.shop).
  - reflexivity.
  - discriminate.
  - reflexivity.
  - discriminate.
Defined.

(** ** Sorting in the table-data operation *)

Section Sorting.
Context {F : Type} {rt : runtime F}.

Lemma lower_char_a c :
  lower_char c = "a"%char -> c = "a"%char \/ c = "A"%char.
Proof.
  destruct c as [[] [] [] [] [] [] [] []]; vm_compute; intros H;
    first [discriminate H | now left | now right].
Qed.

Lemma lower_char_s c :
  lower_char c = "s"%char -> c = "s"%char \/ c = "S"%char.
Proof.
  destruct c as [[] [] [] [] [] [] [] []]; vm_compute; intros H;
    first [discriminate H | now left | now right].
Qed.

Lemma lower_char_c c :
  lower_char c = "c"%char -> c = "c"%char \/ c = "C"%char.
Proof.
  destruct c as [[] [] [] [] [] [] [] []]; vm_compute; intros H;
    first [discriminate H | now left | now right].
Qed.

Lemma lower_is_asc s : str_lower s = "asc" <-> In s asc_spellings.
Proof.
  split.
  - destruct s as [| c1 [| c2 [| c3 [| c4 s]]]]; simpl; try discriminate.
    intros H. injection H as H1 H2 H3.
    apply lower_char_a in H1. apply lower_char_s in H2.
    apply lower_char_c in H3.
    destruct H1 as [-> | ->], H2 as [-> | ->], H3 as [-> | ->]; simpl; tauto.
  - intros H. simpl in H.
    repeat (destruct H as [<- | H]; [reflexivity |]). contradiction.
Qed.

(** C6, as the code has it.  With a direction string [s] in the sort
    specification, [s] spelling "asc" in any letter case gives ascending
    order (1), and every other string, "desc" in any letter case and an
    unrecognised word alike, gives descending order (-1). *)
Theorem table_direction_spec :
  forall (sort_data : doc F) (s : string),
    get "direction" sort_data = Some (VStr s) ->
    (In s asc_spellings /\ table_direction sort_data = Ok 1)
    \/ (~ In s asc_spellings /\ table_direction sort_data = Ok (-1)).
Proof.
  intros sort_data s H. unfold table_direction, get_default.
  rewrite H. simpl.
  destruct (String.eqb (str_lower s) "asc") eqn:E.
  - left. split; [| reflexivity].
    apply lower_is_asc. now apply String.eqb_eq.
  - right. split; [| reflexivity].
    intros Hs. apply lower_is_asc in Hs. apply String.eqb_neq in E.
    contradiction.
Qed.

(** Without a direction the order is ascending. *)
Lemma default_direction_ascending (sort_data : doc F) :
  get "direction" sort_data = None -> table_direction sort_data = Ok 1.
Proof. intros H. unfold table_direction, get_default. now rewrite H. Qed.

(** "desc" in any letter case is not a spelling of "asc". *)
Lemma desc_descending (sort_data : doc F) s :
  get "direction" sort_data = Some (VStr s) ->
  str_lower s = "desc" -> table_direction sort_data = Ok (-1).
Proof.
  intros H Hs. unfold table_direction, get_default. rewrite H. simpl.
  now rewrite Hs.
Qed.

(** The claim as the specification words it fails: an unrecognised
    direction sorts descending. *)
Lemma unrecognized_direction_descending :
  table_sort_clause (F := F)
    (VDict [("sort_by", VStr "price"); ("direction", VStr "sideways")])
  = Ok [("price", -1)].
Proof. reflexivity. Qed.

End Sorting.

Lemma table_direction_spec_witness :
  (In "DESC" asc_spellings
   /\ table_direction (F := Sample.dec)
        [("sort_by", VStr "price"); ("direction", VStr "DESC")] = Ok 1)
  \/ (~ In "DESC" asc_spellings
      /\ table_direction (F := Sample.dec)
           [("sort_by", VStr "price"); ("direction", VStr "DESC")] = Ok (-1)).
Proof.
  apply (table_direction_spec
           [("sort_by", VStr "price"); ("direction", VStr "DESC")] "DESC").
  reflexivity.
Defined.

(** The counterexample to C6 in a concrete runtime: the direction
    "sideways" is not sorted ascending. *)
Lemma unrecognized_direction_not_ascending :
  table_sort_clause (F := Sample.dec)
    (VDict [("sort_by", VStr "price"); ("direction", VStr "sideways")])
  <> Ok [("price", 1)].
Proof. intros H. vm_compute in H. discriminate H. Qed.

(** ** The two substring matches *)

Section Matching.
Context {F : Type} {rt : runtime F} {env : environment F} {drv : driver}.

(** C9.  For the filter value "Test" on [productName], the query of the
    table-data operation is the contains pattern [.*Test.*] with option
    [i] and matches a document named "My Test Product"; the query of the
    search-for-name operation is the prefix pattern [^Test] with option
    [i] and does not match it. *)
Theorem contains_matches_prefix_does_not :
  forall (id : value F),
    let filter_spec : doc F := [("productName", VStr "Test")] in
    let document : doc F :=
      [("_id", id); ("productName", VStr "My Test Product")] in
    (table_query (VDict filter_spec)
     = Ok [("productName", regex_cond (VStr ".*Test.*"))]
     /\ matches [("productName", regex_cond (VStr ".*Test.*"))] document = true)
    /\ (search_for_name_query filter_spec
        = [("productName", regex_cond (VStr "^Test"))]
        /\ matches [("productName", regex_cond (VStr "^Test"))] document = false).
Proof.
  intros id. repeat split; reflexivity.
Qed.

(** The prefix pattern does match a name that starts with the value, in
    any letter case. *)
Lemma prefix_matches_at_start (id : value F) :
  matches (search_for_name_query [("productName", VStr "Test")])
    [("_id", id); ("productName", VStr "test kit")] = true.
Proof. reflexivity. Qed.

End Matching.

(** ** Numeric predicates of the table-data operation *)

Section NumericPredicate.
Context {F : Type} {rt : runtime F}.

Lemma get_dict_set_other (k k' : string) (v : value F) (q : doc F) :
  k <> k' -> get k (dict_set String.eqb k' v q) = get k q.
Proof.
  intros Hne. unfold get. induction q as [| [k0 v0] q IH]; simpl.
  - destruct (String.eqb k k') eqn:E; [| reflexivity].
    apply String.eqb_eq in E. contradiction.
  - destruct (String.eqb k' k0) eqn:E0; simpl.
    + apply String.eqb_eq in E0. subst k0.
      destruct (String.eqb k k') eqn:E; [| reflexivity].
      apply String.eqb_eq in E. contradiction.
    + destruct (String.eqb k k0); [reflexivity | exact IH].
Qed.

(** An iteration of the filter loop writes no other key than its own. *)
Lemma table_filter_step_other (q q' : doc F) key v k :
  table_filter_step q key v = Ok q' -> k <> key -> get k q' = get k q.
Proof.
  unfold table_filter_step. intros H Hne.
  destruct (str_in key table_reserved); [now inversion H |].
  destruct v; try (inversion H; subst; first
    [ reflexivity | now apply get_dict_set_other ]).
  destruct (get_default "search_by" VNone d);
    try (now inversion H);
    (destruct (eq_str (get_default "data_type" (VStr "text") d) "text");
     [inversion H; now apply get_dict_set_other |];
     destruct (eq_str (get_default "data_type" (VStr "text") d) "number");
     [ match type of H with
       | context [to_number ?x] => destruct (to_number x) as [n | []]
       end; inversion H; subst;
       first [reflexivity | now apply get_dict_set_other]
     |];
     destruct (eq_str (get_default "data_type" (VStr "text") d) "exact");
     inversion H; subst; first [reflexivity | now apply get_dict_set_other]).
Qed.

Lemma table_filter_loop_other (items : doc F) :
  forall q q' k,
    table_filter_loop q items = Ok q' ->
    ~ In k (map fst items) -> get k q' = get k q.
Proof.
  induction items as [| [key v] items IH]; intros q q' k H Hnot; simpl in *.
  - now inversion H.
  - apply rbind_ok in H. destruct H as (q1 & H1 & H2).
    rewrite (IH q1 q' k H2) by tauto.
    apply (table_filter_step_other _ _ _ _ _ H1). intuition congruence.
Qed.

Lemma table_filter_loop_app (pre post : doc F) :
  forall q,
    table_filter_loop q (pre ++ post)%list
    = rbind (table_filter_loop q pre) (fun q' => table_filter_loop q' post).
Proof.
  induction pre as [| [key v] pre IH]; intros q; simpl.
  - reflexivity.
  - destruct (table_filter_step q key v) as [q1 | e]; simpl.
    + apply IH.
    + reflexivity.
Qed.

Lemma to_number_value_error s :
  not_a_number s -> to_number (VStr s) = Raise ValueError.
Proof.
  unfold to_number, contains_dot, py_float, py_int. simpl.
  intros [[-> ->] | [-> ->]]; reflexivity.
Qed.

Lemma table_filter_step_dropped (q : doc F) key d s :
  get "data_type" d = Some (VStr "number") ->
  get "search_by" d = Some (VStr s) ->
  not_a_number s ->
  table_filter_step q key (VDict d) = Ok q.
Proof.
  intros Ht Hs Hn. unfold table_filter_step.
  destruct (str_in key table_reserved); [reflexivity |].
  unfold get_default. rewrite Ht, Hs.
  change (eq_str (VStr "number") "text") with false.
  change (eq_str (F := F) (VStr "number") "number") with true.
  cbv iota. now rewrite to_number_value_error.
Qed.

(** C7, for a string.  A structured predicate of type [number] whose
    [search_by] is a string that is not the text of a number is dropped
    without an error: the query is the one built from the other filters
    alone and, the keys of a filter specification being distinct, has no
    clause for the field. *)
Theorem numeric_predicate_dropped :
  forall (pre post : doc F) (key : string) (d : doc F) (s : string),
    get "data_type" d = Some (VStr "number") ->
    get "search_by" d = Some (VStr s) ->
    not_a_number s ->
    ~ In key (map fst (pre ++ post)%list) ->
    table_query (VDict (pre ++ (key, VDict d) :: post)%list)
    = table_query (VDict (pre ++ post)%list)
    /\ (forall q,
          table_query (VDict (pre ++ (key, VDict d) :: post)%list) = Ok q ->
          get key q = None).
Proof.
  intros pre post key d s Ht Hs Hn Hnot.
  assert (E : table_query (VDict (pre ++ (key, VDict d) :: post)%list)
              = table_query (VDict (pre ++ post)%list)).
  { simpl. rewrite !table_filter_loop_app.
    destruct (table_filter_loop [] pre) as [q1 | e]; simpl; [| reflexivity].
    now rewrite (table_filter_step_dropped q1 key d s Ht Hs Hn). }
  split; [exact E |].
  intros q Hq. rewrite E in Hq. simpl in Hq.
  now rewrite (table_filter_loop_other _ _ _ _ Hq Hnot).
Qed.

End NumericPredicate.

Lemma numeric_predicate_dropped_witness :
  table_query (F := Sample.dec)
    (VDict ([("productName", VStr "Test")]
            ++ ("price", VDict [("data_type", VStr "number");
                                ("search_by", VStr "abc")]) :: [])%list)
  = table_query (VDict ([("productName", VStr "Test")] ++ [])%list)
  /\ (forall q,
        table_query (F := Sample.dec)
          (VDict ([("productName", VStr "Test")]
                  ++ ("price", VDict [("data_type", VStr "number");
                                      ("search_by", VStr "abc")]) :: [])%list)
        = Ok q ->
        get "price" q = None).
Proof.
  apply (numeric_predicate_dropped
           [("productName", VStr "Test")] [] "price"
           [("data_type", VStr "number"); ("search_by", VStr "abc")] "abc").
  - reflexivity.
  - reflexivity.
  - right. split; reflexivity.
  - simpl. intros [H | H]; [discriminate H | exact H].
Defined.

(** The counterexample to C7: a [search_by] that is a list is not the
    text of a number either, and the request ends in the 500 response:
    [int] raises [TypeError], which [except ValueError] lets through. *)
Lemma numeric_predicate_list_fails :
  get_table_data
    (VDict [("database", VStr "ecommercedb"); ("collection", VStr "products");
            ("price", VDict [("data_type", VStr "number");
                             ("search_by", VList [VStr "abc"])])])
    Sample.shop
  = ((PExn TypeError, 500), Sample.shop).
Proof. reflexivity. Qed.

(** ** The journal of the store *)

Section Journal.
Context {F : Type} {rt : runtime F} {env : environment F} {drv : driver}.

Lemma record_op_ok (op : write_op (F := F)) w u w' :
  record_op op w = (Ok u, w') ->
  journal w' = (journal w ++ [op])%list /\ colls w' = colls w.
Proof. unfold record_op. intros H. inversion H. split; reflexivity. Qed.

Lemma insert_doc_journal c (d : doc F) w w' :
  insert_doc c d w = (Ok tt, w') -> journal w' = journal w.
Proof.
  unfold insert_doc. intros H.
  apply bind_ok in H as ([id d'] & w1 & Hid & Hins).
  assert (J : journal w1 = journal w).
  { destruct (get "_id" d).
    - apply ret_ok in Hid as [_ ->]. reflexivity.
    - apply bind_ok in Hid as (o & w2 & Ho & Hr).
      apply ret_ok in Hr as [_ ->]. unfold fresh_oid in Ho.
      inversion Ho. reflexivity. }
  simpl in Hins.
  destruct (existsb (cond_matches "_id" id) (docs_of w1 c));
    inversion Hins; subst; simpl. exact J.
Qed.

Lemma insert_docs_journal c (ds : list (doc F)) :
  forall w w', insert_docs c ds w = (Ok tt, w') -> journal w' = journal w.
Proof.
  induction ds as [| d ds IH]; intros w w' H; simpl in H.
  - apply ret_ok in H as [_ ->]. reflexivity.
  - apply bind_ok in H as ([] & w1 & Hd & Hds).
    rewrite (IH _ _ Hds). now apply insert_doc_journal in Hd.
Qed.

Lemma insert_many_journal c (ds : list (pydict F)) w w' :
  insert_many c ds w = (Ok tt, w') ->
  journal w' = (journal w ++ [WInsertMany c ds])%list.
Proof.
  unfold insert_many. intros H.
  apply bind_ok in H as (u & w1 & Hrec & H).
  apply record_op_ok in Hrec as [J _].
  destruct ds as [| d ds]; [discriminate H |].
  apply bind_ok in H as (enc & w2 & Henc & H).
  apply lift_ok in Henc as [_ ->].
  apply insert_docs_journal in H. now rewrite H.
Qed.

Lemma insert_one_journal c (d : pydict F) w w' :
  insert_one c d w = (Ok tt, w') ->
  journal w' = (journal w ++ [WInsertOne c d])%list.
Proof.
  unfold insert_one. intros H.
  apply bind_ok in H as (u & w1 & Hrec & H).
  apply record_op_ok in Hrec as [J _].
  apply bind_ok in H as (enc & w2 & Henc & H).
  apply lift_ok in Henc as [_ ->].
  apply insert_doc_journal in H. now rewrite H.
Qed.

Lemma update_one_journal c (q : doc F) (sets : pydict F) w w' :
  update_one c q sets w = (Ok tt, w') ->
  journal w' = (journal w ++ [WUpdateOne c q sets])%list.
Proof.
  unfold update_one. intros H.
  apply bind_ok in H as (u & w1 & Hrec & H).
  apply record_op_ok in Hrec as [J _].
  apply bind_ok in H as (u' & w2 & Hq & H).
  unfold check_query in Hq.
  destruct (query_error q); [discriminate Hq |].
  apply ret_ok in Hq as [_ ->].
  apply bind_ok in H as (enc & w3 & Henc & H).
  apply lift_ok in Henc as [_ ->].
  destruct (existsb (matches q) (docs_of w1 c)); inversion H; subst;
    simpl; exact J.
Qed.

End Journal.

(** ** The ingestion loop *)

Section Ingestion.
Context {F : Type} {rt : runtime F} {env : environment F} {drv : driver}.
Variable validate : pydict F -> string.
Variable file_id : string.
Variable headers : list (value F).
Variable dc ec : coll_ref.

Local Abbreviation append_row' := (append_row validate file_id headers).
Local Abbreviation steps_of := (row_steps validate file_id headers dc ec).

Lemma len_app {A} (l : list A) (x : A) : len (l ++ [x]) = len l + 1.
Proof. unfold len. rewrite length_app. simpl. lia. Qed.

Lemma len_cons {A} (x : A) (l : list A) : len (x :: l) = len l + 1.
Proof. unfold len. cbn [List.length]. lia. Qed.

Lemma len_nonneg {A} (l : list A) : 0 <= len l.
Proof. unfold len. lia. Qed.

(** Appending a row cannot fail; it counts the row once and grows one
    buffer by one entry. *)
Lemma append_row_ok i row st w :
  exists st',
    append_row' i row st w = (Ok st', advance w)
    /\ total st' = total st + 1
    /\ (if row_invalid validate headers row
        then valid st' = valid st /\ invalid st' = invalid st + 1
             /\ data_buffer st' = data_buffer st
             /\ exists e, error_buffer st' = (error_buffer st ++ [e])%list
        else valid st' = valid st + 1 /\ invalid st' = invalid st
             /\ error_buffer st' = error_buffer st
             /\ exists d, data_buffer st' = (data_buffer st ++ [d])%list).
Proof.
  unfold append_row, row_invalid, row_error.
  destruct (negb (String.eqb (validate _) "")); unfold bind, utcnow, ret;
    eexists; (split; [reflexivity |]); simpl; repeat split; eauto.
Qed.

Lemma flush_data_ok st w st' w' :
  flush_data dc st w = (Ok st', w') ->
  total st' = total st /\ valid st' = valid st /\ invalid st' = invalid st
  /\ error_buffer st' = error_buffer st
  /\ ((batch_size <= len (data_buffer st) /\ data_buffer st' = []
       /\ journal w' = (journal w ++ [WInsertMany dc (data_buffer st)])%list)
      \/ (len (data_buffer st) < batch_size /\ st' = st /\ w' = w)).
Proof.
  unfold flush_data.
  destruct (len (data_buffer st) >=? batch_size) eqn:E; intros H.
  - apply bind_ok in H as ([] & w1 & Hins & H).
    apply ret_ok in H as [-> ->]. simpl. repeat split.
    left. repeat split; [lia | now apply insert_many_journal].
  - apply ret_ok in H as [-> ->]. repeat split. right. repeat split. lia.
Qed.

Lemma flush_errors_ok st w st' w' :
  flush_errors ec st w = (Ok st', w') ->
  total st' = total st /\ valid st' = valid st /\ invalid st' = invalid st
  /\ data_buffer st' = data_buffer st
  /\ ((batch_size <= len (error_buffer st) /\ error_buffer st' = []
       /\ journal w' = (journal w ++ [WInsertMany ec (error_buffer st)])%list)
      \/ (len (error_buffer st) < batch_size /\ st' = st /\ w' = w)).
Proof.
  unfold flush_errors.
  destruct (len (error_buffer st) >=? batch_size) eqn:E; intros H.
  - apply bind_ok in H as ([] & w1 & Hins & H).
    apply ret_ok in H as [-> ->]. simpl. repeat split.
    left. repeat split; [lia | now apply insert_many_journal].
  - apply ret_ok in H as [-> ->]. repeat split. right. repeat split. lia.
Qed.

(** The three statements of one iteration. *)
Lemma exec_row i row rest st w st1 :
  append_row' i row st w = (Ok st1, advance w) ->
  exec (steps_of (i, row) ++ rest) st w
  = match flush_data dc st1 (advance w) with
    | (Ok st2, w2) =>
        match flush_errors ec st2 w2 with
        | (Ok st3, w3) =>
            let (seen, r) := exec rest st3 w3 in (st1 :: st2 :: st3 :: seen, r)
        | (Raise e, w3) => ([st1; st2], (Raise e, w3))
        end
    | (Raise e, w2) => ([st1], (Raise e, w2))
    end.
Proof.
  intros H. simpl. rewrite H.
  destruct (flush_data dc st1 (advance w)) as [[st2 | e] w2]; [| reflexivity].
  destruct (flush_errors ec st2 w2) as [[st3 | e] w3]; [| reflexivity].
  destruct (exec rest st3 w3). reflexivity.
Qed.

Lemma append_row_within i row st w st1 :
  append_row' i row st w = (Ok st1, advance w) ->
  below_batch st -> within_batch st1.
Proof.
  intros H [Hd He].
  destruct (append_row_ok i row st w) as (st' & H' & _ & Hcase).
  rewrite H in H'. inversion H'; subst st'. clear H'.
  unfold within_batch.
  destruct (row_invalid validate headers row).
  - destruct Hcase as (_ & _ & -> & e & ->). rewrite len_app. lia.
  - destruct Hcase as (_ & _ & -> & d & ->). rewrite len_app. lia.
Qed.

(** The bound.  Started below the batch size, the loop never shows a
    buffer above it, and leaves every iteration with both buffers below
    it. *)
Lemma loop_within_batch rows :
  forall i st w,
    below_batch st ->
    Forall within_batch
      (fst (exec (flat_map steps_of (enumerate i rows)) st w))
    /\ (forall st' w',
          snd (exec (flat_map steps_of (enumerate i rows)) st w)
          = (Ok st', w') ->
          below_batch st').
Proof.
  induction rows as [| row rows IH]; intros i st w Hst.
  - simpl. split; [constructor |]. intros st' w' H.
    inversion H; subst. exact Hst.
  - destruct (append_row_ok i row st w) as (st1 & H1 & _).
    pose proof (append_row_within _ _ _ _ _ H1 Hst) as [Hd1 He1].
    cbn [enumerate flat_map]. rewrite (exec_row _ _ _ _ _ _ H1).
    destruct (flush_data dc st1 (advance w)) as [[st2 | e] w2] eqn:E2.
    + apply flush_data_ok in E2 as (_ & _ & _ & Hb2 & Hcase2).
      assert (B2 : len (data_buffer st2) < batch_size
                   /\ len (error_buffer st2) <= batch_size).
      { rewrite Hb2. split; [| exact He1].
        destruct Hcase2 as [(_ & -> & _) | (Hlt & -> & _)];
          [reflexivity | exact Hlt]. }
      destruct (flush_errors ec st2 w2) as [[st3 | e] w3] eqn:E3.
      * apply flush_errors_ok in E3 as (_ & _ & _ & Hb3 & Hcase3).
        assert (B3 : below_batch st3).
        { unfold below_batch. rewrite Hb3. split; [apply B2 |].
          destruct Hcase3 as [(_ & -> & _) | (Hlt & -> & _)];
            [reflexivity | exact Hlt]. }
        destruct (IH (i + 1) st3 w3 B3) as [IHseen IHend].
        destruct (exec (flat_map steps_of (enumerate (i + 1) rows)) st3 w3)
          as [seen r].
        simpl in *. split; [| exact IHend].
        destruct B2, B3.
        repeat (constructor; [unfold within_batch; lia |]). exact IHseen.
      * simpl. split; [| intros st' w' H; discriminate H].
        destruct B2.
        repeat (constructor; [unfold within_batch; lia |]). constructor.
    + simpl. split; [| intros st' w' H; discriminate H].
      repeat (constructor; [unfold within_batch; lia |]). constructor.
Qed.

(** The counters.  Every row adds one to [total] and one to exactly
    one of [valid] and [invalid]. *)
Lemma loop_counters rows :
  forall i st w st' w',
    snd (exec (flat_map steps_of (enumerate i rows)) st w) = (Ok st', w') ->
    total st' = total st + len rows
    /\ invalid st' = invalid st + len (filter (row_invalid validate headers) rows)
    /\ valid st' = valid st + len (filter (row_valid validate headers) rows).
Proof.
  induction rows as [| row rows IH]; intros i st w st' w' H.
  - simpl in H. inversion H. unfold len. simpl. lia.
  - destruct (append_row_ok i row st w) as (st1 & H1 & Ht1 & Hcase1).
    cbn [enumerate flat_map] in H. rewrite (exec_row _ _ _ _ _ _ H1) in H.
    destruct (flush_data dc st1 (advance w)) as [[st2 | e] w2] eqn:E2;
      [| discriminate H].
    apply flush_data_ok in E2 as (Ht2 & Hv2 & Hi2 & _).
    destruct (flush_errors ec st2 w2) as [[st3 | e] w3] eqn:E3;
      [| discriminate H].
    apply flush_errors_ok in E3 as (Ht3 & Hv3 & Hi3 & _).
    destruct (exec (flat_map steps_of (enumerate (i + 1) rows)) st3 w3)
      as [seen r] eqn:E.
    simpl in H. subst r.
    specialize (IH (i + 1) st3 w3 st' w'). rewrite E in IH.
    destruct (IH eq_refl) as (IHt & IHi & IHv).
    rewrite IHt, IHi, IHv, Ht3, Hv3, Hi3, Ht2, Hv2, Hi2, Ht1.
    cbn [filter]. unfold row_valid, row_invalid in *.
    destruct (String.eqb (row_error validate headers row) ""); simpl in *;
      destruct Hcase1 as (-> & -> & _); rewrite !len_cons; lia.
Qed.

Lemma flush_sizes_app (a b : list (write_op (F := F))) :
  flush_sizes (a ++ b) = (flush_sizes a ++ flush_sizes b)%list.
Proof. unfold flush_sizes. apply flat_map_app. Qed.

(** The batches.  When every row is valid, the loop hands the data
    buffer to [insert_many] each time it holds [batch_size] rows, and
    keeps the remainder. *)
Lemma loop_flushes rows :
  forall i st w st' w',
    (forall row, In row rows -> row_invalid validate headers row = false) ->
    error_buffer st = [] ->
    len (data_buffer st) < batch_size ->
    snd (exec (flat_map steps_of (enumerate i rows)) st w) = (Ok st', w') ->
    error_buffer st' = []
    /\ len (data_buffer st') = (len (data_buffer st) + len rows) mod batch_size
    /\ exists ops,
         journal w' = (journal w ++ ops)%list
         /\ flush_sizes ops
            = repeat batch_size
                (Z.to_nat ((len (data_buffer st) + len rows) / batch_size)).
Proof.
  induction rows as [| row rows IH]; intros i st w st' w' Hvalid He Hb H.
  - simpl in H. inversion H; subst. split; [exact He |].
    pose proof (len_nonneg (data_buffer st')).
    change (len (@nil (list (value F)))) with 0. rewrite Z.add_0_r.
    unfold batch_size in *.
    rewrite Z.mod_small, Z.div_small by lia.
    split; [reflexivity |]. exists []. split; [| reflexivity].
    now rewrite app_nil_r.
  - destruct (append_row_ok i row st w) as (st1 & H1 & _ & Hcase1).
    rewrite (Hvalid row (or_introl eq_refl)) in Hcase1.
    destruct Hcase1 as (_ & _ & He1 & d & Hd1).
    cbn [enumerate flat_map] in H. rewrite (exec_row _ _ _ _ _ _ H1) in H.
    destruct (flush_data dc st1 (advance w)) as [[st2 | e] w2] eqn:E2;
      [| discriminate H].
    apply flush_data_ok in E2 as (_ & _ & _ & He2 & Hcase2).
    destruct (flush_errors ec st2 w2) as [[st3 | e] w3] eqn:E3;
      [| discriminate H].
    apply flush_errors_ok in E3 as (_ & _ & _ & Hd3 & Hcase3).
    assert (E0 : error_buffer st2 = []) by (now rewrite He2, He1).
    destruct Hcase3 as [(Hge & _) | (_ & -> & ->)].
    { rewrite E0 in Hge. unfold batch_size, len in Hge. simpl in Hge. lia. }
    clear Hd3.
    destruct (exec (flat_map steps_of (enumerate (i + 1) rows)) st2 w2)
      as [seen r] eqn:E.
    simpl in H. subst r.
    assert (Hrest : forall row', In row' rows ->
                                 row_invalid validate headers row' = false).
    { intros row' Hin. apply Hvalid. now right. }
    pose proof (len_nonneg (data_buffer st)) as Hb0.
    pose proof (len_nonneg rows) as Hn0.
    assert (L1 : len (data_buffer st1) = len (data_buffer st) + 1).
    { rewrite Hd1. apply len_app. }
    rewrite len_cons.
    destruct Hcase2 as [(Hge & Hd2 & J2) | (Hlt & -> & ->)].
    + assert (B2 : len (data_buffer st2) < batch_size).
      { rewrite Hd2. reflexivity. }
      specialize (IH (i + 1) st2 w2 st' w' Hrest E0 B2).
      rewrite E in IH. destruct (IH eq_refl) as (IHe & IHb & ops & IHj & IHf).
      rewrite Hd2 in IHb, IHf. change (len (@nil (pydict F))) with 0 in *.
      rewrite Z.add_0_l in *.
      assert (Hfull : len (data_buffer st) + 1 = batch_size) by lia.
      replace (len (data_buffer st) + (len rows + 1))
        with (len rows + 1 * batch_size) by lia.
      unfold batch_size in *.
      rewrite Z_mod_plus_full, Z_div_plus_full by lia.
      split; [exact IHe |]. split; [exact IHb |].
      exists (WInsertMany dc (data_buffer st1) :: ops). split.
      * rewrite IHj, J2. simpl. now rewrite <- app_assoc.
      * change (flush_sizes (WInsertMany dc (data_buffer st1) :: ops))
          with (len (data_buffer st1) :: flush_sizes ops).
        rewrite IHf, L1, Hfull.
        replace (Z.to_nat (len rows / 500 + 1))
          with (S (Z.to_nat (len rows / 500))).
        -- reflexivity.
        -- pose proof (Z.div_pos (len rows) 500). lia.
    + specialize (IH (i + 1) st1 (advance w) st' w' Hrest).
      rewrite He1 in IH. specialize (IH He Hlt).
      rewrite E in IH. destruct (IH eq_refl) as (IHe & IHb & ops & IHj & IHf).
      rewrite L1 in IHb, IHf.
      replace (len (data_buffer st) + (len rows + 1))
        with (len (data_buffer st) + 1 + len rows) by lia.
      split; [exact IHe |]. split; [exact IHb |].
      exists ops. split; [exact IHj | exact IHf].
Qed.

(** Lines 179-183 with an empty error buffer: the remainder of the data
    buffer goes out in one batch, if there is one. *)
Lemma flush_rest_ok st w w' :
  error_buffer st = [] ->
  flush_rest dc ec st w = (Ok tt, w') ->
  journal w'
  = (journal w ++ match data_buffer st with
                  | [] => []
                  | _ => [WInsertMany dc (data_buffer st)]
                  end)%list.
Proof.
  intros He H. unfold flush_rest in H. rewrite He in H.
  apply bind_ok in H as ([] & w1 & Hd & H).
  apply ret_ok in H as [_ ->].
  destruct (data_buffer st) as [| d ds].
  - apply ret_ok in Hd as [_ ->]. now rewrite app_nil_r.
  - now apply insert_many_journal in Hd.
Qed.

(** *** Both buffers *)

Lemma ref_eqb_other (a b : coll_ref) : a <> b -> ref_eqb a b = false.
Proof.
  intros Hne. destruct (ref_eqb a b) eqn:E; [| reflexivity].
  apply ref_eqb_eq in E. contradiction.
Qed.

Lemma batches_to_app c (a b : list (write_op (F := F))) :
  batches_to c (a ++ b) = (batches_to c a ++ batches_to c b)%list.
Proof. unfold batches_to. apply flat_map_app. Qed.

Lemma batches_to_same c (ds : list (pydict F)) :
  batches_to c [WInsertMany c ds] = [ds].
Proof. unfold batches_to. cbn. now rewrite ref_eqb_refl. Qed.

Lemma batches_to_other c c' (ds : list (pydict F)) :
  c' <> c -> batches_to c [WInsertMany c' ds] = [].
Proof. intros Hne. unfold batches_to. cbn. now rewrite ref_eqb_other. Qed.

Lemma repeat_succ_div (a n : Z) :
  0 <= n -> a + 1 = batch_size ->
  repeat batch_size (Z.to_nat ((a + (n + 1)) / batch_size))
  = batch_size :: repeat batch_size (Z.to_nat (n / batch_size)).
Proof.
  intros Hn Ha. replace (a + (n + 1)) with (n + 1 * batch_size) by lia.
  unfold batch_size. rewrite Z_div_plus_full by lia.
  pose proof (Z.div_pos n 500).
  replace (Z.to_nat (n / 500 + 1)) with (S (Z.to_nat (n / 500))) by lia.
  reflexivity.
Qed.

Lemma mod_succ_full (a n : Z) :
  a + 1 = batch_size -> (a + (n + 1)) mod batch_size = n mod batch_size.
Proof.
  intros Ha. replace (a + (n + 1)) with (n + 1 * batch_size) by lia.
  unfold batch_size. now rewrite Z_mod_plus_full.
Qed.

(** The batches of both buffers, for any validator.  Each buffer is
    handed to [insert_many] on its own collection each time it holds
    [batch_size] entries, and keeps the remainder. *)
Lemma loop_batches rows :
  forall i st w st' w',
    dc <> ec ->
    below_batch st ->
    snd (exec (flat_map steps_of (enumerate i rows)) st w) = (Ok st', w') ->
    let accepted := len (data_buffer st)
                    + len (filter (row_valid validate headers) rows) in
    let rejected := len (error_buffer st)
                    + len (filter (row_invalid validate headers) rows) in
    len (data_buffer st') = accepted mod batch_size
    /\ len (error_buffer st') = rejected mod batch_size
    /\ exists ops,
         journal w' = (journal w ++ ops)%list
         /\ map len (batches_to dc ops)
            = repeat batch_size (Z.to_nat (accepted / batch_size))
         /\ map len (batches_to ec ops)
            = repeat batch_size (Z.to_nat (rejected / batch_size)).
Proof.
  induction rows as [| row rows IH]; intros i st w st' w' Hne Hst H.
  - cbn in H. injection H as <- <-. destruct Hst as [Hd He].
    pose proof (len_nonneg (data_buffer st)).
    pose proof (len_nonneg (error_buffer st)).
    cbn [filter]. change (len (@nil (list (value F)))) with 0.
    rewrite !Z.add_0_r. unfold batch_size in *.
    rewrite !Z.mod_small, !Z.div_small by lia.
    split; [reflexivity |]. split; [reflexivity |].
    exists []. rewrite app_nil_r. repeat split.
  - destruct (append_row_ok i row st w) as (st1 & H1 & _ & Hcase1).
    cbn [enumerate flat_map] in H. rewrite (exec_row _ _ _ _ _ _ H1) in H.
    destruct (flush_data dc st1 (advance w)) as [[st2 | e] w2] eqn:E2;
      [| discriminate H].
    apply flush_data_ok in E2 as (_ & _ & _ & He2 & Hcase2).
    destruct (flush_errors ec st2 w2) as [[st3 | e] w3] eqn:E3;
      [| discriminate H].
    apply flush_errors_ok in E3 as (_ & _ & _ & Hd3 & Hcase3).
    destruct (exec (flat_map steps_of (enumerate (i + 1) rows)) st3 w3)
      as [seen r] eqn:E.
    cbn [snd] in H. subst r.
    pose proof (len_nonneg (data_buffer st)) as Hd0.
    pose proof (len_nonneg (error_buffer st)) as He0.
    pose proof (len_nonneg (filter (row_valid validate headers) rows)) as Hv0.
    pose proof (len_nonneg (filter (row_invalid validate headers) rows))
      as Hi0.
    destruct Hst as [Hd He].
    cbv zeta. cbn [filter].
    change (row_valid validate headers row)
      with (String.eqb (row_error validate headers row) "").
    change (row_invalid validate headers row)
      with (negb (String.eqb (row_error validate headers row) "")) in *.
    destruct (String.eqb (row_error validate headers row) "") eqn:Erow;
      cbn [negb] in *.
    + (* the row is accepted *)
      destruct Hcase1 as (_ & _ & He1 & d & Hd1).
      assert (L1 : len (data_buffer st1) = len (data_buffer st) + 1)
        by (rewrite Hd1; apply len_app).
      rewrite len_cons.
      destruct Hcase3 as [(Hge & _) | (_ & -> & ->)];
        [rewrite He2, He1 in Hge; lia |].
      destruct Hcase2 as [(Hge & Hd2 & J2) | (Hlt & -> & ->)].
      * assert (B2 : below_batch st2).
        { split; [rewrite Hd2; reflexivity | now rewrite He2, He1]. }
        specialize (IH (i + 1) st2 w2 st' w' Hne B2).
        rewrite E in IH. destruct (IH eq_refl) as (IHd & IHe & ops & IHj & IHa & IHr).
        rewrite Hd2 in IHd, IHa. change (len (@nil (pydict F))) with 0 in *.
        rewrite Z.add_0_l in IHd, IHa. rewrite He2, He1 in IHe, IHr.
        assert (Hfull : len (data_buffer st) + 1 = batch_size) by lia.
        rewrite (mod_succ_full _ _ Hfull).
        split; [exact IHd |]. split; [exact IHe |].
        exists (WInsertMany dc (data_buffer st1) :: ops). split; [| split].
        -- rewrite IHj, J2. cbn [journal advance]. now rewrite <- app_assoc.
        -- change (WInsertMany dc (data_buffer st1) :: ops)
             with ([WInsertMany dc (data_buffer st1)] ++ ops)%list.
           rewrite batches_to_app, batches_to_same. cbn [app map].
           rewrite IHa, L1, Hfull. symmetry. now apply repeat_succ_div.
        -- change (WInsertMany dc (data_buffer st1) :: ops)
             with ([WInsertMany dc (data_buffer st1)] ++ ops)%list.
           rewrite batches_to_app, (batches_to_other ec dc _ Hne).
           exact IHr.
      * assert (B1 : below_batch st1) by (split; [exact Hlt | now rewrite He1]).
        specialize (IH (i + 1) st1 (advance w) st' w' Hne B1).
        rewrite E in IH. destruct (IH eq_refl) as (IHd & IHe & ops & IHj & IHa & IHr).
        rewrite L1 in IHd, IHa. rewrite He1 in IHe, IHr.
        replace (len (data_buffer st)
                 + (len (filter (row_valid validate headers) rows) + 1))
          with (len (data_buffer st) + 1
                + len (filter (row_valid validate headers) rows)) by lia.
        split; [exact IHd |]. split; [exact IHe |].
        exists ops. split; [exact IHj |]. split; [exact IHa | exact IHr].
    + (* the row is rejected *)
      destruct Hcase1 as (_ & _ & Hd1 & e & He1).
      assert (L1 : len (error_buffer st1) = len (error_buffer st) + 1)
        by (rewrite He1; apply len_app).
      rewrite len_cons.
      destruct Hcase2 as [(Hge & _) | (_ & -> & ->)];
        [rewrite Hd1 in Hge; lia |].
      destruct Hcase3 as [(Hge & He3 & J3) | (Hlt & -> & ->)].
      * assert (B3 : below_batch st3).
        { split; [now rewrite Hd3, Hd1 | rewrite He3; reflexivity]. }
        specialize (IH (i + 1) st3 w3 st' w' Hne B3).
        rewrite E in IH. destruct (IH eq_refl) as (IHd & IHe & ops & IHj & IHa & IHr).
        rewrite He3 in IHe, IHr. change (len (@nil (pydict F))) with 0 in *.
        rewrite Z.add_0_l in IHe, IHr. rewrite Hd3, Hd1 in IHd, IHa.
        assert (Hfull : len (error_buffer st) + 1 = batch_size) by lia.
        rewrite (mod_succ_full _ _ Hfull).
        split; [exact IHd |]. split; [exact IHe |].
        exists (WInsertMany ec (error_buffer st1) :: ops). split; [| split].
        -- rewrite IHj, J3. cbn [journal advance]. now rewrite <- app_assoc.
        -- change (WInsertMany ec (error_buffer st1) :: ops)
             with ([WInsertMany ec (error_buffer st1)] ++ ops)%list.
           rewrite batches_to_app, (batches_to_other dc ec _ (not_eq_sym Hne)).
           exact IHa.
        -- change (WInsertMany ec (error_buffer st1) :: ops)
             with ([WInsertMany ec (error_buffer st1)] ++ ops)%list.
           rewrite batches_to_app, batches_to_same. cbn [app map].
           rewrite IHr, L1, Hfull. symmetry. now apply repeat_succ_div.
      * assert (B1 : below_batch st1) by (split; [now rewrite Hd1 | exact Hlt]).
        specialize (IH (i + 1) st1 (advance w) st' w' Hne B1).
        rewrite E in IH. destruct (IH eq_refl) as (IHd & IHe & ops & IHj & IHa & IHr).
        rewrite L1 in IHe, IHr. rewrite Hd1 in IHd, IHa.
        replace (len (error_buffer st)
                 + (len (filter (row_invalid validate headers) rows) + 1))
          with (len (error_buffer st) + 1
                + len (filter (row_invalid validate headers) rows)) by lia.
        split; [exact IHd |]. split; [exact IHe |].
        exists ops. split; [exact IHj |]. split; [exact IHa | exact IHr].
Qed.

(** Lines 179-183: what is left in each buffer goes out in one batch. *)
Lemma flush_rest_both st w w' :
  flush_rest dc ec st w = (Ok tt, w') ->
  journal w'
  = (journal w
     ++ match data_buffer st with
        | [] => []
        | _ => [WInsertMany dc (data_buffer st)]
        end
     ++ match error_buffer st with
        | [] => []
        | _ => [WInsertMany ec (error_buffer st)]
        end)%list.
Proof.
  intros H. unfold flush_rest in H.
  apply bind_ok in H as ([] & w1 & Hd & H).
  assert (J1 : journal w1
               = (journal w ++ match data_buffer st with
                               | [] => []
                               | _ => [WInsertMany dc (data_buffer st)]
                               end)%list).
  { destruct (data_buffer st) as [| d ds].
    - apply ret_ok in Hd as [_ ->]. now rewrite app_nil_r.
    - now apply insert_many_journal in Hd. }
  rewrite app_assoc, <- J1.
  destruct (error_buffer st) as [| e es].
  - apply ret_ok in H as [_ ->]. now rewrite app_nil_r.
  - now apply insert_many_journal in H.
Qed.

(** The sizes of the batches of one buffer: the full batches of the
    loop, then the remainder. *)
Lemma batch_sizes_of (n : Z) (buffer : list (pydict F))
      (written : list (list (pydict F))) :
  len buffer = n mod batch_size ->
  map len written = repeat batch_size (Z.to_nat (n / batch_size)) ->
  map len (written ++ match buffer with
                      | [] => []
                      | _ => [buffer]
                      end)
  = batch_sizes n.
Proof.
  intros Hb Hw. unfold batch_sizes. rewrite map_app, Hw. f_equal.
  rewrite <- Hb. destruct buffer as [| d ds]; [reflexivity |].
  cbn [map]. rewrite len_cons. pose proof (len_nonneg ds).
  destruct (len ds + 1 =? 0) eqn:E; [lia | reflexivity].
Qed.

End Ingestion.

(** ** The upload operation *)

Section Upload.
Context {F : Type} {rt : runtime F} {env : environment F} {drv : driver}.

Lemma jsonify_not_200 (v : value F) status w p w' :
  status <> 200 -> jsonify v status w <> (Ok (p, 200), w').
Proof.
  intros Hs H. apply jsonify_ok in H as (E & _). inversion E. congruence.
Qed.

(** A run of the upload that answers 200: the job record is inserted
    under the string of a fresh UUID, the rows go through the loop, the
    remainders are flushed and the job record is updated once. *)
Lemma upload_with_200 validate req w p w' :
  upload_with validate req w = (Ok (p, 200), w') ->
  exists file headers rows job w1 st w2 w3,
    let db := form_field "database" (req_form req) in
    let coll := form_field "data_collection" (req_form req) in
    let file_id := Ident.str_of_uuid (uuid_at (moment w)) in
    let update :=
      [(VStr "status", VStr (final_status (invalid st)));
       (VStr "totalRows", VInt (total st));
       (VStr "validRows", VInt (valid st));
       (VStr "invalidRows", VInt (invalid st))] in
    req_file req = Some file
    /\ sheet file = Some (headers :: rows)
    /\ journal w1
       = (journal w
          ++ [WInsertOne (db, "file_uploads")
                ((VStr "_id", VStr file_id) :: job)])%list
    /\ snd (exec (loop_steps validate file_id headers (db, coll)
                    (db, "validation_errors") rows) start_state w1)
       = (Ok st, w2)
    /\ flush_rest (db, coll) (db, "validation_errors") st w2 = (Ok tt, w3)
    /\ journal w'
       = (journal w3
          ++ [WUpdateOne (db, "file_uploads") [("_id", VStr file_id)] update])%list
    /\ p = PJson (VDict [("fileId", VStr file_id);
                         ("database", VStr db);
                         ("collection", VStr coll);
                         ("filename", VStr (filename file));
                         ("status", VStr (final_status (invalid st)));
                         ("totalRows", VInt (total st));
                         ("validRows", VInt (valid st));
                         ("invalidRows", VInt (invalid st))]).
Proof.
  unfold upload_with. intros H.
  destruct (req_file req) as [file |];
    [| now apply jsonify_not_200 in H].
  destruct (_ || _) in H; [now apply jsonify_not_200 in H |].
  destruct (negb _) in H; [now apply jsonify_not_200 in H |].
  destruct (filename_groups (filename file))
    as [[[[[g1 year] creater] reviewer] date_str] |];
    [| now apply jsonify_not_200 in H].
  apply bind_ok in H as (dcoll & wn & Hn & H).
  apply lift_ok in Hn as [Hn ->]. apply named_collection_ok in Hn as [-> _].
  apply bind_ok in H as (u & wu & Hu & H).
  unfold uuid4 in Hu. inversion Hu; subst u wu. clear Hu.
  apply bind_ok in H as (year_number & wy & Hy & H).
  apply lift_ok in Hy as [_ ->].
  apply bind_ok in H as (upload_date & wt & Ht & H).
  unfold utcnow in Ht. inversion Ht; subst upload_date wt. clear Ht.
  apply bind_ok in H as ([] & w1 & Hjob & H).
  apply insert_one_journal in Hjob.
  apply bind_ok in H as (rows & wr & Hrows & H).
  apply lift_ok in Hrows as [Hsheet ->].
  destruct (sheet file) as [sheet_rows |] eqn:Esheet; [| discriminate Hsheet].
  inversion Hsheet; subst sheet_rows. clear Hsheet.
  destruct rows as [| headers rows]; [discriminate H |].
  apply bind_ok in H as (st & w2 & Hloop & H).
  apply bind_ok in H as ([] & w3 & Hrest & H).
  apply bind_ok in H as ([] & w4 & Hupd & H).
  apply update_one_journal in Hupd.
  apply jsonify_ok in H as (Hp & -> & _).
  inversion Hp; subst p. clear Hp.
  exists file, headers, rows. eexists. exists w1, st, w2, w3.
  cbv zeta. repeat split; try reflexivity; try assumption.
  exact Hjob.
Qed.

Lemma no_row_invalid headers (rows : list (list (value F))) :
  filter (row_invalid (fun _ => "") headers) rows = [].
Proof. induction rows as [| row rows IH]; [reflexivity | exact IH]. Qed.

(** C4.  When an upload reaches the terminal update of the job record,
    the counters written there satisfy [total = valid + invalid]:
    [total] is the number of data rows (the header row is not one of
    them), [valid] the number of rows the validator accepts and
    [invalid] the number of rows it rejects. *)
Theorem upload_counters_add_up :
  forall validate (req : upload_request F) (w w' : world F) (p : payload F),
    handle (upload_with validate req) w = ((p, 200), w') ->
    exists file headers rows before c q status,
      req_file req = Some file
      /\ sheet file = Some (headers :: rows)
      /\ journal w'
         = (before
            ++ [WUpdateOne c q
                  [(VStr "status", status);
                   (VStr "totalRows", VInt (len rows));
                   (VStr "validRows",
                    VInt (len (filter (row_valid validate headers) rows)));
                   (VStr "invalidRows",
                    VInt (len (filter (row_invalid validate headers) rows)))]])%list
      /\ len rows
         = len (filter (row_valid validate headers) rows)
           + len (filter (row_invalid validate headers) rows).
Proof.
  intros validate req w w' p H. apply handle_200 in H.
  apply upload_with_200 in H
    as (file & headers & rows & job & w1 & st & w2 & w3
        & Hfile & Hsheet & _ & Hloop & _ & Hj & _).
  apply loop_counters in Hloop as (Ht & Hi & Hv). simpl in Ht, Hi, Hv.
  exists file, headers, rows, (journal w3). do 3 eexists.
  split; [exact Hfile |]. split; [exact Hsheet |].
  split; [rewrite Hj, Ht, Hi, Hv; reflexivity |].
  clear. induction rows as [| row rows IH]; [reflexivity |].
  cbn [filter]. unfold row_valid, row_invalid in *.
  destruct (String.eqb (row_error validate headers row) ""); simpl negb;
    cbv iota; rewrite !len_cons; lia.
Qed.

Lemma final_status_not_completed i : final_status i <> "completed".
Proof. unfold final_status. destruct (i >? 0); discriminate. Qed.

(** C1, on the code.  An upload that reaches the terminal update writes
    the status "compeleted" to the job record and reports it in the
    summary: with the validator switched off no row is invalid, and the
    status for that case is misspelt. *)
Theorem upload_status_written :
  forall (req : upload_request F) (w w' : world F) (p : payload F),
    upload_excel_file req w = ((p, 200), w') ->
    exists before c q t v summary,
      journal w'
      = (before
         ++ [WUpdateOne c q
               [(VStr "status", VStr "compeleted");
                (VStr "totalRows", VInt t);
                (VStr "validRows", VInt v);
                (VStr "invalidRows", VInt 0)]])%list
      /\ p = PJson (VDict summary)
      /\ get "status" summary = Some (VStr "compeleted")
      /\ "compeleted" <> "completed".
Proof.
  intros req w w' p H. unfold upload_excel_file in H. apply handle_200 in H.
  apply upload_with_200 in H
    as (file & headers & rows & job & w1 & st & w2 & w3
        & _ & _ & _ & Hloop & _ & Hj & Hp).
  apply loop_counters in Hloop as (_ & Hi & _).
  rewrite no_row_invalid in Hi. simpl in Hi.
  rewrite Hi in Hj, Hp. simpl in Hj, Hp.
  exists (journal w3). do 5 eexists.
  split; [exact Hj |]. split; [exact Hp |].
  split; [reflexivity | discriminate].
Qed.

End Upload.

Lemma upload_counters_add_up_witness :
  exists file headers rows before c q status,
    req_file (Sample.budget_upload [Sample.budget_row; Sample.budget_row])
    = Some file
    /\ sheet file = Some (headers :: rows)
    /\ journal
         (snd (upload_excel_file
                 (Sample.budget_upload [Sample.budget_row; Sample.budget_row])
                 Sample.empty_world))
       = (before
          ++ [WUpdateOne c q
                [(VStr "status", status);
                 (VStr "totalRows", VInt (len rows));
                 (VStr "validRows",
                  VInt (len (filter (row_valid (fun _ => "") headers) rows)));
                 (VStr "invalidRows",
                  VInt (len (filter (row_invalid (fun _ => "") headers) rows)))]])%list
    /\ len rows
       = len (filter (row_valid (fun _ => "") headers) rows)
         + len (filter (row_invalid (fun _ => "") headers) rows).
Proof.
  eapply (upload_counters_add_up (fun _ => "")
            (Sample.budget_upload [Sample.budget_row; Sample.budget_row])
            Sample.empty_world).
  vm_compute. reflexivity.
Defined.

Lemma upload_status_written_witness :
  exists before c q t v summary,
    journal
      (snd (upload_excel_file
              (Sample.budget_upload [Sample.budget_row; Sample.budget_row])
              Sample.empty_world))
    = (before
       ++ [WUpdateOne c q
             [(VStr "status", VStr "compeleted");
              (VStr "totalRows", VInt t);
              (VStr "validRows", VInt v);
              (VStr "invalidRows", VInt 0)]])%list
    /\ fst (fst (upload_excel_file
                   (Sample.budget_upload [Sample.budget_row; Sample.budget_row])
                   Sample.empty_world))
       = PJson (VDict summary)
    /\ get "status" summary = Some (VStr "compeleted")
    /\ "compeleted" <> "completed".
Proof.
  eapply (upload_status_written
            (Sample.budget_upload [Sample.budget_row; Sample.budget_row])
            Sample.empty_world).
  vm_compute. reflexivity.
Defined.

(** ** Batches *)

Section Batches.
Context {F : Type} {rt : runtime F} {env : environment F} {drv : driver}.

Lemma start_below_batch : below_batch (F := F) start_state.
Proof. split; reflexivity. Qed.

(** C8.  During the row loop neither buffer ever holds more than
    [batch_size] = 500 entries, whatever statement of the loop has just
    run, and after every iteration both hold fewer: a buffer is handed to
    [insert_many] in the iteration in which it reaches 500.  When all
    [n] rows are valid, the batches written by the loop and by the final
    flush are [n / 500] batches of 500 followed, if [n mod 500] is not
    zero, by one batch of [n mod 500].  Whatever the validator, when the
    rows and the errors go to different collections, the accepted rows
    are written to the data collection and the rejected rows to the error
    collection in this way, each buffer on its own count: nothing that
    entered a buffer stays unwritten. *)
Theorem batch_flush_invariant :
  forall validate file_id headers dc ec (rows : list (list (value F)))
         (w : world F),
    let run := exec (loop_steps validate file_id headers dc ec rows)
                 start_state w in
    Forall within_batch (fst run)
    /\ (forall st w1, snd run = (Ok st, w1) -> below_batch st)
    /\ (forall st w1 w2,
          snd run = (Ok st, w1) ->
          (forall row, In row rows -> row_invalid validate headers row = false) ->
          flush_rest dc ec st w1 = (Ok tt, w2) ->
          exists ops,
            journal w2 = (journal w ++ ops)%list
            /\ flush_sizes ops
               = (repeat batch_size (Z.to_nat (len rows / batch_size))
                  ++ (if len rows mod batch_size =? 0 then []
                      else [len rows mod batch_size]))%list)
    /\ (forall st w1 w2,
          snd run = (Ok st, w1) ->
          dc <> ec ->
          flush_rest dc ec st w1 = (Ok tt, w2) ->
          exists ops,
            journal w2 = (journal w ++ ops)%list
            /\ map len (batches_to dc ops)
               = batch_sizes (len (filter (row_valid validate headers) rows))
            /\ map len (batches_to ec ops)
               = batch_sizes
                   (len (filter (row_invalid validate headers) rows))).
Proof.
  intros validate file_id headers dc ec rows w run. subst run.
  unfold loop_steps.
  destruct (loop_within_batch validate file_id headers dc ec rows 2
              start_state w start_below_batch) as [Hseen Hend].
  split; [exact Hseen |]. split; [exact Hend |]. split.
  - intros st w1 w2 Hrun Hvalid Hrest.
    apply (loop_flushes validate file_id headers dc ec rows 2 start_state w
             st w1 Hvalid eq_refl) in Hrun; [| reflexivity].
    destruct Hrun as (He & Hb & ops & Hj & Hf).
    change (len (data_buffer (F := F) start_state)) with 0 in Hb, Hf.
    rewrite Z.add_0_l in Hb, Hf.
    apply (flush_rest_ok _ _ _ _ _ He) in Hrest.
    rewrite Hrest, Hj, <- app_assoc. eexists. split; [reflexivity |].
    rewrite flush_sizes_app, Hf. f_equal. rewrite <- Hb.
    destruct (data_buffer st) as [| d ds]; [reflexivity |].
    change (flush_sizes [WInsertMany dc (d :: ds)]) with [len (d :: ds)].
    rewrite len_cons. pose proof (len_nonneg ds).
    destruct (len ds + 1 =? 0) eqn:E; [lia | reflexivity].
  - intros st w1 w2 Hrun Hne Hrest.
    apply (loop_batches validate file_id headers dc ec rows 2 start_state w
             st w1 Hne start_below_batch) in Hrun.
    cbv zeta in Hrun. destruct Hrun as (Hd & He & ops & Hj & Ha & Hr).
    change (len (data_buffer (F := F) start_state)) with 0 in Hd, Ha.
    change (len (error_buffer (F := F) start_state)) with 0 in He, Hr.
    rewrite Z.add_0_l in Hd, Ha, He, Hr.
    apply flush_rest_both in Hrest.
    rewrite Hrest, Hj, <- app_assoc. eexists. split; [reflexivity |].
    rewrite !batches_to_app. split.
    + replace (batches_to dc match error_buffer st with
                             | [] => []
                             | _ => [WInsertMany ec (error_buffer st)]
                             end) with (@nil (list (pydict F)))
        by (destruct (error_buffer st);
            [reflexivity | symmetry; now apply batches_to_other]).
      rewrite app_nil_r.
      replace (batches_to dc match data_buffer st with
                             | [] => []
                             | _ => [WInsertMany dc (data_buffer st)]
                             end)
        with (match data_buffer st with
              | [] => []
              | _ => [data_buffer st]
              end)
        by (destruct (data_buffer st);
            [reflexivity | symmetry; apply batches_to_same]).
      now apply batch_sizes_of.
    + replace (batches_to ec match data_buffer st with
                             | [] => []
                             | _ => [WInsertMany dc (data_buffer st)]
                             end) with (@nil (list (pydict F)))
        by (destruct (data_buffer st);
            [reflexivity
            | symmetry; apply batches_to_other; now apply not_eq_sym]).
      cbn [app].
      replace (batches_to ec match error_buffer st with
                             | [] => []
                             | _ => [WInsertMany ec (error_buffer st)]
                             end)
        with (match error_buffer st with
              | [] => []
              | _ => [error_buffer st]
              end)
        by (destruct (error_buffer st);
            [reflexivity | symmetry; apply batches_to_same]).
      now apply batch_sizes_of.
Qed.

End Batches.

Lemma batch_flush_invariant_witness :
  let headers : list (value Sample.dec) := [VStr "department"; VStr "amount"] in
  let dc := ("upload_db", "excel_data") in
  let ec := ("upload_db", "validation_errors") in
  let valid_rows := [Sample.budget_row; Sample.budget_row; Sample.budget_row] in
  let mixed_rows := [Sample.budget_row; Sample.unnamed_row; Sample.budget_row] in
  let run := exec (loop_steps (fun _ => "") "job" headers dc ec valid_rows)
               start_state Sample.empty_world in
  let mixed := exec (loop_steps Sample.department_required "job" headers
                       dc ec mixed_rows)
                 start_state Sample.empty_world in
  Forall within_batch (fst run)
  /\ (forall st w1, snd run = (Ok st, w1) -> below_batch st)
  /\ (exists st w1 w2 ops,
        snd run = (Ok st, w1)
        /\ flush_rest dc ec st w1 = (Ok tt, w2)
        /\ journal w2 = ops
        /\ flush_sizes ops = [3])
  /\ (exists st w1 w2 ops,
        snd mixed = (Ok st, w1)
        /\ flush_rest dc ec st w1 = (Ok tt, w2)
        /\ journal w2 = ops
        /\ map len (batches_to dc ops) = [2]
        /\ map len (batches_to ec ops) = [1]).
Proof.
  intros headers dc ec valid_rows mixed_rows run mixed.
  pose proof (batch_flush_invariant (fun _ => "") "job" headers dc ec
                valid_rows Sample.empty_world) as (Hseen & Hend & Hflush & _).
  pose proof (batch_flush_invariant Sample.department_required "job" headers
                dc ec mixed_rows Sample.empty_world) as (_ & _ & _ & Hboth).
  split; [exact Hseen |]. split; [exact Hend |]. split.
  - match eval vm_compute in (snd run) with
    | (Ok ?st, ?w1) =>
        match eval vm_compute in (flush_rest dc ec st w1) with
        | (Ok tt, ?w2) =>
            destruct (Hflush st w1 w2) as (ops & Hj & Hf);
            [ vm_compute; reflexivity
            | intros row _; reflexivity
            | vm_compute; reflexivity
            | exists st, w1, w2, ops;
              split; [vm_compute; reflexivity |];
              split; [vm_compute; reflexivity |];
              split; [exact Hj |];
              rewrite Hf; vm_compute; reflexivity ]
        end
    end.
  - match eval vm_compute in (snd mixed) with
    | (Ok ?st, ?w1) =>
        match eval vm_compute in (flush_rest dc ec st w1) with
        | (Ok tt, ?w2) =>
            destruct (Hboth st w1 w2) as (ops & Hj & Ha & Hr);
            [ vm_compute; reflexivity
            | discriminate
            | vm_compute; reflexivity
            | exists st, w1, w2, ops;
              split; [vm_compute; reflexivity |];
              split; [vm_compute; reflexivity |];
              split; [exact Hj |];
              split; [rewrite Ha | rewrite Hr]; vm_compute; reflexivity ]
        end
    end.
Defined.

(** The scenario of C8: an upload of 1200 rows writes its data in
    batches of 500, 500 and 200 rows. *)
Lemma upload_1200_rows_three_batches :
  flush_sizes
    (journal (snd (upload_excel_file
                     (Sample.budget_upload (repeat Sample.budget_row 1200))
                     Sample.empty_world)))
  = [500; 500; 200].
Proof. vm_compute. reflexivity. Qed.

(** An upload checked by a validator: of 1100 rows, 600 without a
    department, the data collection receives one batch of 500 rows and
    the error collection a batch of 500 errors and one of 100. *)
Lemma rejected_rows_two_error_batches :
  let ops :=
    journal
      (snd (upload_with Sample.department_required
              (Sample.budget_upload
                 (repeat Sample.unnamed_row 600 ++ repeat Sample.budget_row 500))
              Sample.empty_world)) in
  map len (batches_to ("upload_db", "excel_data") ops) = [500]
  /\ map len (batches_to ("upload_db", "validation_errors") ops) = [500; 100].
Proof. vm_compute. split; reflexivity. Qed.

(** ** Deleting an uploaded file *)

Section Delete.
Context {F : Type} {rt : runtime F} {env : environment F} {drv : driver}.

Lemma object_id_of_uuid u :
  object_id (F := F) (VStr (Ident.str_of_uuid u)) = Raise InvalidId.
Proof.
  unfold object_id. now rewrite str_of_uuid_length.
Qed.

Lemma uuid_truthy u : truthy (F := F) (VStr (Ident.str_of_uuid u)) = true.
Proof.
  simpl. destruct (String.eqb (Ident.str_of_uuid u) "") eqn:E; [| reflexivity].
  apply String.eqb_eq in E. pose proof (str_of_uuid_length u) as L.
  rewrite E in L. discriminate L.
Qed.

(** A delete request that names a job by the string of a UUID stops at
    [ObjectId(file_id)], unless the driver has already refused one of
    the names: the answer is the 500 response and the store is as
    before. *)
Lemma delete_by_uuid_fails (data : doc F) u db fc dcoll w :
  get "fileId" data = Some (VStr (Ident.str_of_uuid u)) ->
  py_strip (get_default "database" (VStr "") data) = Ok db -> db <> "" ->
  py_strip (get_default "file_collection" (VStr "") data) = Ok fc -> fc <> "" ->
  py_strip (get_default "data_collection" (VStr "") data) = Ok dcoll ->
  dcoll <> "" ->
  exists e,
    delete_uploaded_file (VDict data) w = ((PExn e, 500), w)
    /\ (invalid_name db fc = None -> invalid_name db dcoll = None ->
        e = InvalidId).
Proof.
  intros Hid Hdb Ndb Hfc Nfc Hdc Ndc.
  unfold delete_uploaded_file, handle, delete_uploaded_file_body, bind, lift,
    as_dict.
  rewrite Hdb, Hfc, Hdc. unfold get_default at 1. rewrite Hid.
  rewrite (eqb_empty_false db Ndb), (eqb_empty_false fc Nfc),
    (eqb_empty_false dcoll Ndc), uuid_truthy.
  cbn [negb andb]. unfold get_default. rewrite Hid.
  unfold named_collection.
  destruct (invalid_name db fc) as [e1 |].
  { exists e1. split; [reflexivity | intros H; discriminate H]. }
  destruct (invalid_name db dcoll) as [e2 |].
  { exists e2. split; [reflexivity | intros _ H; discriminate H]. }
  rewrite object_id_of_uuid. exists InvalidId. split; reflexivity.
Qed.

(** C10.  The identifier that a completed upload reports for its job, the
    [_id] under which the job record was inserted, cannot be used to
    delete the job: every delete request carrying it (with the database
    and the two collection names given) ends in the 500 response, and
    neither the job record nor any row record is removed: the store is
    unchanged.  The exception is the [InvalidId] of [ObjectId(file_id)]
    whenever the driver accepts the names of the request, as it does for
    the names of the job itself. *)
Theorem uploaded_job_cannot_be_deleted :
  forall (req : upload_request F) (w0 w1 : world F) (summary : doc F)
         (file_id : value F) (data : doc F) (db fc dcoll : string)
         (w : world F),
    upload_excel_file req w0 = ((PJson (VDict summary), 200), w1) ->
    get "fileId" summary = Some file_id ->
    get "fileId" data = Some file_id ->
    py_strip (get_default "database" (VStr "") data) = Ok db -> db <> "" ->
    py_strip (get_default "file_collection" (VStr "") data) = Ok fc ->
    fc <> "" ->
    py_strip (get_default "data_collection" (VStr "") data) = Ok dcoll ->
    dcoll <> "" ->
    (exists job before after,
        journal w1
        = (before ++ WInsertOne (form_field "database" (req_form req),
                                 "file_uploads")
                       ((VStr "_id", file_id) :: job) :: after)%list)
    /\ exists e,
         delete_uploaded_file (VDict data) w = ((PExn e, 500), w)
         /\ (invalid_name db fc = None -> invalid_name db dcoll = None ->
             e = InvalidId).
Proof.
  intros req w0 w1 summary file_id data db fc dcoll w Hup Hsum Hid
    Hdb Ndb Hfc Nfc Hdc Ndc.
  unfold upload_excel_file in Hup. apply handle_200 in Hup.
  apply upload_with_200 in Hup
    as (file & headers & rows & job & wj & st & w2 & w3
        & _ & _ & Hjob & Hloop & Hrest & Hj & Hp).
  inversion Hp; subst summary. clear Hp.
  cbn in Hsum. inversion Hsum; subst file_id. clear Hsum.
  split.
  - apply loop_flushes in Hloop as (He & _ & ops & Hops & _);
      [| intros row _; reflexivity | reflexivity | reflexivity].
    apply (flush_rest_ok _ _ _ _ _ He) in Hrest.
    rewrite Hj, Hrest, Hops, Hjob.
    exists job, (journal w0). eexists.
    rewrite <- !app_assoc. reflexivity.
  - now apply (delete_by_uuid_fails data (uuid_at (moment w0)) db fc dcoll).
Qed.

End Delete.

Lemma uploaded_job_cannot_be_deleted_witness :
  let up := upload_excel_file
              (Sample.budget_upload [Sample.budget_row; Sample.budget_row])
              Sample.empty_world in
  let request : doc Sample.dec :=
    [("database", VStr "upload_db"); ("file_collection", VStr "file_uploads");
     ("data_collection", VStr "excel_data");
     ("fileId", VStr "00000010-0000-0000-0000-000000000000")] in
  (exists job before after,
      journal (snd up)
      = (before ++ WInsertOne ("upload_db", "file_uploads")
                     ((VStr "_id", VStr "00000010-0000-0000-0000-000000000000")
                      :: job) :: after)%list)
  /\ exists e,
       delete_uploaded_file (VDict request) (snd up) = ((PExn e, 500), snd up)
       /\ (invalid_name "upload_db" "file_uploads" = None ->
           invalid_name "upload_db" "excel_data" = None ->
           e = InvalidId).
Proof.
  intros up request.
  eapply (uploaded_job_cannot_be_deleted
            (Sample.budget_upload [Sample.budget_row; Sample.budget_row])
            Sample.empty_world (snd up) _
            (VStr "00000010-0000-0000-0000-000000000000") request
            "upload_db" "file_uploads" "excel_data" (snd up)).
  - vm_compute. reflexivity.
  - reflexivity.
  - reflexivity.
  - reflexivity.
  - discriminate.
  - reflexivity.
  - discriminate.
  - reflexivity.
  - discriminate.
Defined.

(** ** Pages and counts *)

Section Query.
Context {F : Type} {rt : runtime F} {env : environment F} {drv : driver}.

Lemma find_ok c (q : doc F) proj s skip limit w found w' :
  find c q proj s skip limit w = (Ok found, w') ->
  w' = w /\ 0 <= skip
  /\ exists p,
       encode_projection proj = Ok p
       /\ found = map (project p)
                    (cursor_limit limit
                       (skipn (Z.to_nat skip) (cursor_docs w c q s))).
Proof.
  unfold find, cursor_skip, cursor_docs. intros H. inversion H as [[Hr Hw]].
  subst w'. split; [reflexivity |]. clear H.
  destruct (skip <? 0) eqn:E; [discriminate Hr |].
  simpl in Hr. split; [lia |].
  destruct (encode_projection proj) as [p | e] eqn:Ep; [| discriminate Hr].
  simpl in Hr. destruct (query_error q); [discriminate Hr |].
  injection Hr as <-. exists p. split; reflexivity.
Qed.

Lemma cursor_limit_slice limit skip (ds : list (doc F)) :
  1 <= limit ->
  cursor_limit limit (skipn (Z.to_nat skip) ds) = page_slice skip limit ds.
Proof.
  intros H. unfold cursor_limit, page_slice.
  destruct (limit =? 0) eqn:E; [lia |]. now rewrite Z.abs_eq by lia.
Qed.

Lemma page_slice_length skip limit (ds : list (doc F)) :
  0 <= limit -> len (page_slice skip limit ds) <= limit.
Proof.
  intros H. unfold len, page_slice. rewrite length_firstn. lia.
Qed.

Lemma stringify_ids_length (ds rs : list (doc F)) :
  stringify_ids ds = Ok rs -> len rs = len ds.
Proof.
  revert rs. induction ds as [| d ds IH]; intros rs H; simpl in H.
  - now inversion H.
  - apply rbind_ok in H as (r & _ & H).
    apply rbind_ok in H as (rs' & Hrs & H). inversion H; subst.
    rewrite !len_cons. now rewrite (IH rs').
Qed.

Lemma count_documents_ok c (q : doc F) w n w' :
  count_documents c q w = (Ok n, w') ->
  w' = w /\ n = len (filter (matches q) (docs_of w c)).
Proof.
  unfold count_documents, check_query. intros H.
  apply bind_ok in H as ([] & w1 & Hq & H).
  destruct (query_error q); [discriminate Hq |].
  apply ret_ok in Hq as [_ ->]. inversion H. split; reflexivity.
Qed.

(** A page found by [find] and shown under [field]. *)
Lemma found_page c (q : doc F) proj s skip limit w found w' results d field :
  1 <= limit ->
  find c q proj s skip limit w = (Ok found, w') ->
  stringify_ids found = Ok results ->
  get field d = Some (VList (map VDict results)) ->
  w' = w /\ shows_page (VDict d) field skip limit (cursor_docs w c q s).
Proof.
  intros Hl Hfind Hres Hget.
  apply find_ok in Hfind as (-> & Hskip & p & _ & ->).
  split; [reflexivity |].
  rewrite cursor_limit_slice in Hres by exact Hl.
  exists p, results. split; [exact Hres |]. split; [now exists d |].
  rewrite (stringify_ids_length _ _ Hres).
  unfold len. rewrite length_map. apply page_slice_length. lia.
Qed.

(** The table-data operation answering 200. *)
Lemma get_table_data_200 (data : doc F) w p w' :
  get_table_data (VDict data) w = ((p, 200), w') ->
  exists db coll page page_records q proj s found results,
    py_strip (get_default "database" (VStr "") data) = Ok db
    /\ py_strip (get_default "collection" (VStr "") data) = Ok coll
    /\ py_int (get_default "page" (VInt 1) data) = Ok page
    /\ py_int (get_default "page_records" (VInt 10) data) = Ok page_records
    /\ table_query (get_default "filters" (VDict data) data) = Ok q
    /\ projection_of (get_default "fields" (VList []) data) = Ok proj
    /\ table_sort_clause (get_default "sort" (VDict []) data) = Ok s
    /\ find (db, coll) q proj s ((page - 1) * page_records) page_records w
       = (Ok found, w)
    /\ stringify_ids found = Ok results
    /\ p = PJson (count_data
                    (len (filter (matches q) (docs_of w (db, coll)))) results)
    /\ w' = w.
Proof.
  unfold get_table_data. intros H. apply handle_200 in H.
  unfold get_table_data_body in H.
  apply bind_ok in H as (data' & w0 & Hd & H).
  apply lift_ok in Hd as [Hd ->]. inversion Hd; subst data'. clear Hd.
  apply bind_ok in H as (db & w0 & Hdb & H). apply lift_ok in Hdb as [Hdb ->].
  apply bind_ok in H as (coll & w0 & Hc & H). apply lift_ok in Hc as [Hc ->].
  destruct (_ || _) in H; [now apply jsonify_not_200 in H |].
  apply bind_ok in H as (page & w0 & Hp & H). apply lift_ok in Hp as [Hp ->].
  apply bind_ok in H as (pr & w0 & Hpr & H). apply lift_ok in Hpr as [Hpr ->].
  apply bind_ok in H as (q & w0 & Hq & H). apply lift_ok in Hq as [Hq ->].
  apply bind_ok in H as (c & w0 & Hnc & H). apply lift_ok in Hnc as [Hnc ->].
  apply named_collection_ok in Hnc as [-> _].
  apply bind_ok in H as (names & w0 & Hn & H).
  unfold list_collection_names in Hn. inversion Hn; subst names w0. clear Hn.
  destruct (negb _) in H; [now apply jsonify_not_200 in H |].
  apply bind_ok in H as (proj & w0 & Hproj & H).
  apply lift_ok in Hproj as [Hproj ->].
  apply bind_ok in H as (s & w0 & Hs & H). apply lift_ok in Hs as [Hs ->].
  apply bind_ok in H as (found & w1 & Hfind & H).
  pose proof (find_ok _ _ _ _ _ _ _ _ _ Hfind) as (-> & _).
  apply bind_ok in H as (results & w0 & Hr & H). apply lift_ok in Hr as [Hr ->].
  apply bind_ok in H as (n & w1 & Hcount & H).
  apply count_documents_ok in Hcount as (-> & ->).
  apply jsonify_ok in H as (Hp' & -> & _). inversion Hp'; subst p.
  exists db, coll, page, pr, q, proj, s, found, results.
  repeat split; assumption.
Qed.

End Query.

Section Paging.
Context {F : Type} {rt : runtime F} {env : environment F} {drv : driver}.

(** The uploaded-files operation answering 200. *)
Lemma get_uploaded_files_200 (data : doc F) w p w' :
  get_uploaded_files (VDict data) w = ((p, 200), w') ->
  exists db coll page page_records found files,
    py_strip (get_default "database" (VStr "") data) = Ok db
    /\ py_strip (get_default "collection" (VStr "") data) = Ok coll
    /\ py_int (get_default "page" (VInt 1) data) = Ok page
    /\ py_int (get_default "page_records" (VInt 20) data) = Ok page_records
    /\ find (db, coll) (files_query data) None [("createdAt", -1)]
         ((page - 1) * page_records) page_records w
       = (Ok found, w)
    /\ stringify_ids found = Ok files
    /\ p = PJson (VDict [("count",
                          VInt (len (filter (matches (files_query data))
                                       (docs_of w (db, coll)))));
                         ("page", VInt page);
                         ("page_records", VInt page_records);
                         ("data", VList (map VDict files))])
    /\ w' = w.
Proof.
  unfold get_uploaded_files. intros H. apply handle_200 in H.
  unfold get_uploaded_files_body in H.
  apply bind_ok in H as (data' & w0 & Hd & H).
  apply lift_ok in Hd as [Hd ->]. inversion Hd; subst data'. clear Hd.
  apply bind_ok in H as (db & w0 & Hdb & H). apply lift_ok in Hdb as [Hdb ->].
  apply bind_ok in H as (coll & w0 & Hc & H). apply lift_ok in Hc as [Hc ->].
  apply bind_ok in H as (page & w0 & Hp & H). apply lift_ok in Hp as [Hp ->].
  apply bind_ok in H as (pr & w0 & Hpr & H). apply lift_ok in Hpr as [Hpr ->].
  destruct (_ || _) in H; [now apply jsonify_not_200 in H |].
  apply bind_ok in H as (c & w0 & Hnc & H). apply lift_ok in Hnc as [Hnc ->].
  apply named_collection_ok in Hnc as [-> _].
  apply bind_ok in H as (found & w1 & Hfind & H).
  pose proof (find_ok _ _ _ _ _ _ _ _ _ Hfind) as (-> & _).
  apply bind_ok in H as (n & w1 & Hcount & H).
  apply count_documents_ok in Hcount as (-> & ->).
  apply bind_ok in H as (files & w0 & Hr & H). apply lift_ok in Hr as [Hr ->].
  apply jsonify_ok in H as (Hp' & -> & _). inversion Hp'; subst p.
  exists db, coll, page, pr, found, files.
  repeat split; assumption.
Qed.

(** The product-list operation answering 200. *)
Lemma get_products_200 (data : doc F) w p w' :
  get_products (VDict data) w = ((p, 200), w') ->
  exists db page page_records proj found products,
    default_db = Some db
    /\ py_int (get_default "page" (VInt 0) data) = Ok page
    /\ py_int (get_default "page_records" (VInt 100) data) = Ok page_records
    /\ find (db, "products") [] proj [] (page * page_records) page_records w
       = (Ok found, w)
    /\ stringify_ids found = Ok products
    /\ p = PJson (VDict [("count", VInt (len products));
                         ("products", VList (map VDict products))])
    /\ w' = w.
Proof.
  unfold get_products. intros H. apply handle_200 in H.
  unfold get_products_body in H.
  apply bind_ok in H as (data' & w0 & Hd & H).
  apply lift_ok in Hd as [Hd ->]. inversion Hd; subst data'. clear Hd.
  apply bind_ok in H as (page & w0 & Hp & H). apply lift_ok in Hp as [Hp ->].
  apply bind_ok in H as (pr & w0 & Hpr & H). apply lift_ok in Hpr as [Hpr ->].
  apply bind_ok in H as (c & w0 & Hc & H).
  unfold get_collection in Hc.
  destruct default_db as [db |] eqn:Edb; [| discriminate Hc].
  apply ret_ok in Hc as [-> ->].
  apply bind_ok in H as (proj & w0 & Hproj & H).
  apply lift_ok in Hproj as [Hproj ->].
  apply bind_ok in H as (found & w1 & Hfind & H).
  pose proof (find_ok _ _ _ _ _ _ _ _ _ Hfind) as (-> & _).
  apply bind_ok in H as (products & w0 & Hr & H).
  apply lift_ok in Hr as [Hr ->].
  apply jsonify_ok in H as (Hp' & -> & _). inversion Hp'; subst p.
  exists db, page, pr, proj, found, products.
  repeat split; assumption.
Qed.

(** C5, as the code has it.  For [page >= 1] and [page_records >= 1]:
    the table-data and the uploaded-files operations count pages from 1,
    skip [(page - 1) * page_records] documents of the cursor and return
    at most [page_records] items; the product-list operation counts
    pages from 0, skips [page * page_records] documents and returns at
    most [page_records] items. *)
Theorem pages_skip_and_limit :
  forall (data : doc F) (w : world F) (page page_records : Z),
    1 <= page -> 1 <= page_records ->
    (forall v w',
        py_int (get_default "page" (VInt 1) data) = Ok page ->
        py_int (get_default "page_records" (VInt 10) data) = Ok page_records ->
        get_table_data (VDict data) w = ((PJson v, 200), w') ->
        exists db coll q s,
          py_strip (get_default "database" (VStr "") data) = Ok db
          /\ py_strip (get_default "collection" (VStr "") data) = Ok coll
          /\ table_query (get_default "filters" (VDict data) data) = Ok q
          /\ table_sort_clause (get_default "sort" (VDict []) data) = Ok s
          /\ shows_page v "data" ((page - 1) * page_records) page_records
               (cursor_docs w (db, coll) q s))
    /\ (forall v w',
          py_int (get_default "page" (VInt 1) data) = Ok page ->
          py_int (get_default "page_records" (VInt 20) data) = Ok page_records ->
          get_uploaded_files (VDict data) w = ((PJson v, 200), w') ->
          exists db coll,
            py_strip (get_default "database" (VStr "") data) = Ok db
            /\ py_strip (get_default "collection" (VStr "") data) = Ok coll
            /\ shows_page v "data" ((page - 1) * page_records) page_records
                 (cursor_docs w (db, coll) (files_query data)
                    [("createdAt", -1)]))
    /\ (forall v w',
          py_int (get_default "page" (VInt 0) data) = Ok page ->
          py_int (get_default "page_records" (VInt 100) data) = Ok page_records ->
          get_products (VDict data) w = ((PJson v, 200), w') ->
          exists db,
            default_db = Some db
            /\ shows_page v "products" (page * page_records) page_records
                 (cursor_docs w (db, "products") [] [])).
Proof.
  intros data w page page_records Hpage Hrecords.
  split; [| split]; intros v w' Hp Hr H.
  - apply get_table_data_200 in H
      as (db & coll & page' & pr' & q & proj & s & found & results
          & Hdb & Hcoll & Hp' & Hr' & Hq & _ & Hs & Hfind & Hres & Hv & _).
    rewrite Hp in Hp'. rewrite Hr in Hr'.
    injection Hp' as <-. injection Hr' as <-. injection Hv as ->.
    exists db, coll, q, s. repeat (split; [assumption |]).
    eapply found_page; eauto.
  - apply get_uploaded_files_200 in H
      as (db & coll & page' & pr' & found & files
          & Hdb & Hcoll & Hp' & Hr' & Hfind & Hres & Hv & _).
    rewrite Hp in Hp'. rewrite Hr in Hr'.
    injection Hp' as <-. injection Hr' as <-. injection Hv as ->.
    exists db, coll. repeat (split; [assumption |]).
    eapply found_page; eauto.
  - apply get_products_200 in H
      as (db & page' & pr' & proj & found & products
          & Hdb & Hp' & Hr' & Hfind & Hres & Hv & _).
    rewrite Hp in Hp'. rewrite Hr in Hr'.
    injection Hp' as <-. injection Hr' as <-. injection Hv as ->.
    exists db. split; [assumption |].
    eapply found_page; eauto.
Qed.

(** The product-list operation reports the length of the page as its
    count. *)
Lemma get_products_count (data : doc F) w v w' :
  get_products (VDict data) w = ((PJson v, 200), w') ->
  exists products,
    v = VDict [("count", VInt (len products));
               ("products", VList (map VDict products))].
Proof.
  intros H. apply get_products_200 in H
    as (db & page & pr & proj & found & products & _ & _ & _ & _ & _ & Hv & _).
  injection Hv as ->. now exists products.
Qed.

Lemma get_without_paging k (data : doc F) :
  str_in k ["page"; "page_records"; "fields"] = false ->
  get k (without_paging data) = get k data.
Proof.
  intros Hk. unfold get, without_paging.
  induction data as [| [k0 v0] data IH]; [reflexivity |].
  cbn [filter fst dict_get].
  destruct (str_in k0 ["page"; "page_records"; "fields"]) eqn:E0; cbn [negb].
  - destruct (String.eqb k k0) eqn:E; [| exact IH].
    apply String.eqb_eq in E. subst k0. congruence.
  - cbn [dict_get]. destruct (String.eqb k k0); [reflexivity | exact IH].
Qed.

Lemma paging_keys_reserved k :
  str_in k ["page"; "page_records"; "fields"] = true ->
  str_in k table_reserved = true.
Proof.
  unfold str_in, table_reserved. cbn [existsb].
  destruct (String.eqb k "page"), (String.eqb k "page_records"),
    (String.eqb k "fields"), (String.eqb k "database"),
    (String.eqb k "collection"), (String.eqb k "sort");
    cbn; intros H; first [reflexivity | discriminate H].
Qed.

(** The filter loop passes over the paging and projection parameters. *)
Lemma table_filter_loop_without_paging (data : doc F) :
  forall q, table_filter_loop q (without_paging data) = table_filter_loop q data.
Proof.
  induction data as [| [k v] data IH]; intros q; [reflexivity |].
  unfold without_paging in *. cbn [filter fst table_filter_loop].
  destruct (str_in k ["page"; "page_records"; "fields"]) eqn:E; cbn [negb].
  - unfold table_filter_step. rewrite (paging_keys_reserved k E).
    cbn [rbind]. apply IH.
  - cbn [table_filter_loop]. destruct (table_filter_step q k v); cbn [rbind];
      [apply IH | reflexivity].
Qed.

Lemma table_query_without_paging (data : doc F) :
  table_query (get_default "filters" (VDict (without_paging data))
                 (without_paging data))
  = table_query (get_default "filters" (VDict data) data).
Proof.
  unfold get_default. rewrite get_without_paging by reflexivity.
  destruct (get "filters" data); [reflexivity |].
  cbn [table_query]. apply table_filter_loop_without_paging.
Qed.

(** C2, for the table-data operation.  The [count] it returns is the
    number of documents of the collection that match the query built
    from the filters, and two requests that differ only in [page],
    [page_records] and [fields] get the same count. *)
Theorem table_count_ignores_paging :
  forall (d1 d2 : doc F) (w w1 w2 : world F) (v1 v2 : value F),
    without_paging d1 = without_paging d2 ->
    get_table_data (VDict d1) w = ((PJson v1, 200), w1) ->
    get_table_data (VDict d2) w = ((PJson v2, 200), w2) ->
    (exists db coll q,
        py_strip (get_default "database" (VStr "") d1) = Ok db
        /\ py_strip (get_default "collection" (VStr "") d1) = Ok coll
        /\ table_query (get_default "filters" (VDict d1) d1) = Ok q
        /\ count_of v1
           = Some (VInt (len (filter (matches q) (docs_of w (db, coll))))))
    /\ count_of v2 = count_of v1.
Proof.
  intros d1 d2 w w1 w2 v1 v2 Hsame H1 H2.
  apply get_table_data_200 in H1
    as (db & coll & page & pr & q & proj & s & found & results
        & Hdb & Hcoll & _ & _ & Hq & _ & _ & _ & _ & Hv & _).
  apply get_table_data_200 in H2
    as (db' & coll' & page' & pr' & q' & proj' & s' & found' & results'
        & Hdb' & Hcoll' & _ & _ & Hq' & _ & _ & _ & _ & Hv' & _).
  injection Hv as ->. injection Hv' as ->.
  split.
  - exists db, coll, q. repeat split; assumption.
  - unfold get_default in Hdb, Hdb', Hcoll, Hcoll'.
    rewrite <- (get_without_paging "database" d1) in Hdb by reflexivity.
    rewrite <- (get_without_paging "database" d2) in Hdb' by reflexivity.
    rewrite <- (get_without_paging "collection" d1) in Hcoll by reflexivity.
    rewrite <- (get_without_paging "collection" d2) in Hcoll' by reflexivity.
    rewrite <- table_query_without_paging in Hq, Hq'.
    rewrite Hsame in Hdb, Hcoll, Hq.
    rewrite Hdb in Hdb'. rewrite Hcoll in Hcoll'. rewrite Hq in Hq'.
    injection Hdb' as <-. injection Hcoll' as <-. injection Hq' as <-.
    reflexivity.
Qed.

End Paging.

Lemma pages_skip_and_limit_witness :
  let request : doc Sample.dec :=
    [("database", VStr "ecommercedb"); ("collection", VStr "products");
     ("page", VInt 2); ("page_records", VInt 1)] in
  (exists db coll q s,
      py_strip (get_default "database" (VStr "") request) = Ok db
      /\ py_strip (get_default "collection" (VStr "") request) = Ok coll
      /\ table_query (get_default "filters" (VDict request) request) = Ok q
      /\ table_sort_clause (get_default "sort" (VDict []) request) = Ok s
      /\ shows_page (answer (get_table_data (VDict request) Sample.shop))
           "data" ((2 - 1) * 1) 1 (cursor_docs Sample.shop (db, coll) q s))
  /\ (exists db,
        default_db = Some db
        /\ shows_page (answer (get_products (VDict request) Sample.shop))
             "products" (2 * 1) 1
             (cursor_docs Sample.shop (db, "products") [] [])).
Proof.
  intros request.
  destruct (pages_skip_and_limit request Sample.shop 2 1
              ltac:(lia) ltac:(lia)) as (Htable & _ & Hproducts).
  split.
  - eapply Htable; vm_compute; reflexivity.
  - eapply Hproducts; vm_compute; reflexivity.
Defined.

Lemma table_count_ignores_paging_witness :
  let d1 : doc Sample.dec :=
    [("database", VStr "ecommercedb"); ("collection", VStr "products");
     ("productName", VStr "Test"); ("page", VInt 1); ("page_records", VInt 1)] in
  let d2 : doc Sample.dec :=
    [("database", VStr "ecommercedb"); ("collection", VStr "products");
     ("productName", VStr "Test"); ("page", VInt 2); ("page_records", VInt 5);
     ("fields", VList [VStr "productName"])] in
  (exists db coll q,
      py_strip (get_default "database" (VStr "") d1) = Ok db
      /\ py_strip (get_default "collection" (VStr "") d1) = Ok coll
      /\ table_query (get_default "filters" (VDict d1) d1) = Ok q
      /\ count_of (answer (get_table_data (VDict d1) Sample.shop))
         = Some (VInt (len (filter (matches q) (docs_of Sample.shop (db, coll))))))
  /\ count_of (answer (get_table_data (VDict d2) Sample.shop))
     = count_of (answer (get_table_data (VDict d1) Sample.shop)).
Proof.
  intros d1 d2.
  eapply (table_count_ignores_paging d1 d2 Sample.shop).
  - reflexivity.
  - vm_compute. reflexivity.
  - vm_compute. reflexivity.
Defined.

(** The counterexample to C2: for the same collection and the same
    (empty) filter, the product list of three products reports count 2
    for a page of two and count 3 for a page of three. *)
Lemma products_count_follows_page_size :
  count_of (answer (get_products (VDict [("page_records", VInt 2)]) Sample.shop))
  = Some (VInt 2)
  /\ count_of (answer (get_products (VDict [("page_records", VInt 3)]) Sample.shop))
     = Some (VInt 3)
  /\ len (filter (matches []) (docs_of Sample.shop ("ecommercedb", "products")))
     = 3.
Proof. repeat split; vm_compute; reflexivity. Qed.

(** The counterexample to C5: with [page = 1] and [page_records = 2] the
    product list skips two documents, not [(1 - 1) * 2 = 0], and shows
    the third product. *)
Lemma products_page_one_skips_a_page :
  fst (get_products (VDict [("page", VInt 1); ("page_records", VInt 2)])
         Sample.shop)
  = (PJson (VDict [("count", VInt 1);
                   ("products",
                    VList [VDict [("_id", VStr "000000000000000000000003");
                                  ("productName", VStr "Lamp")]])]), 200)
  /\ page_slice ((1 - 1) * 2) 2
       (cursor_docs Sample.shop ("ecommercedb", "products") [] [])
     = [Sample.product 1 "My Test Product"; Sample.product 2 "Test Kit"].
Proof. split; vm_compute; reflexivity. Qed.

(** ** Collections of the store *)

Section StoreFacts.
Context {F : Type} {rt : runtime F} {env : environment F} {drv : driver}.

Lemma docs_of_set_docs_same c (ds : list (doc F)) w :
  docs_of (set_docs c ds w) c = ds.
Proof.
  unfold docs_of, set_docs. cbn [colls].
  induction (colls w) as [| [c0 ds0] cs IH]; cbn [dict_set dict_get].
  - now rewrite ref_eqb_refl.
  - destruct (ref_eqb c c0) eqn:E; cbn [dict_get]; rewrite E;
      [reflexivity | exact IH].
Qed.

Lemma docs_of_set_docs_other c c' (ds : list (doc F)) w :
  c' <> c -> docs_of (set_docs c ds w) c' = docs_of w c'.
Proof.
  intros Hne. unfold docs_of, set_docs. cbn [colls].
  induction (colls w) as [| [c0 ds0] cs IH]; cbn [dict_set dict_get].
  - destruct (ref_eqb c' c) eqn:E; [| reflexivity].
    apply ref_eqb_eq in E. contradiction.
  - destruct (ref_eqb c c0) eqn:E; cbn [dict_get].
    + apply ref_eqb_eq in E. subst c0.
      destruct (ref_eqb c' c) eqn:E'; [| reflexivity].
      apply ref_eqb_eq in E'. contradiction.
    + destruct (ref_eqb c' c0); [reflexivity | exact IH].
Qed.

Lemma coll_ref_eq_dec (a b : coll_ref) : a = b \/ a <> b.
Proof.
  destruct (ref_eqb a b) eqn:E.
  - left. now apply ref_eqb_eq.
  - right. intros H. apply ref_eqb_eq in H. congruence.
Qed.

Lemma docs_of_colls (w1 w2 : world F) c :
  colls w1 = colls w2 -> docs_of w1 c = docs_of w2 c.
Proof. intros H. unfold docs_of. now rewrite H. Qed.

Lemma docs_of_advance (w : world F) c : docs_of (advance w) c = docs_of w c.
Proof. reflexivity. Qed.

End StoreFacts.

(** ** Handlers that only read *)

Section ReadOnly.
Context {F : Type} {rt : runtime F} {env : environment F} {drv : driver}.

Lemma reads_ret {A} (a : A) : reads_only (F := F) (ret a).
Proof. intros w. reflexivity. Qed.

Lemma reads_raise {A} e : reads_only (F := F) (A := A) (raise e).
Proof. intros w. reflexivity. Qed.

Lemma reads_lift {A} (r : result A) : reads_only (F := F) (lift r).
Proof. intros w. reflexivity. Qed.

Lemma reads_bind {A B} (m : M F A) (k : A -> M F B) :
  reads_only m -> (forall a, reads_only (k a)) -> reads_only (bind m k).
Proof.
  intros Hm Hk w. unfold bind. specialize (Hm w).
  destruct (m w) as [[a | e] w1]; simpl in Hm; subst w1.
  - apply Hk.
  - reflexivity.
Qed.

Lemma reads_jsonify (v : value F) status : reads_only (jsonify v status).
Proof. intros w. unfold jsonify. destruct (jsonable v); reflexivity. Qed.

Lemma reads_find c (q : doc F) proj s skip limit :
  reads_only (find c q proj s skip limit).
Proof. intros w. reflexivity. Qed.

Lemma reads_check_query (q : doc F) : reads_only (check_query q).
Proof. intros w. unfold check_query. destruct (query_error q); reflexivity. Qed.

Lemma reads_count_documents c (q : doc F) : reads_only (count_documents c q).
Proof.
  unfold count_documents. apply reads_bind; [apply reads_check_query |].
  intros _ w. reflexivity.
Qed.

Lemma reads_find_one c (q : doc F) : reads_only (find_one c q).
Proof.
  unfold find_one. apply reads_bind; [apply reads_check_query |].
  intros _ w. reflexivity.
Qed.

Lemma reads_list_collection_names db :
  reads_only (F := F) (list_collection_names db).
Proof. intros w. reflexivity. Qed.

Lemma reads_get_collection : reads_only get_collection.
Proof.
  unfold get_collection. destruct default_db;
    [apply reads_ret | apply reads_raise].
Qed.

Lemma reads_handle (body : M F (response F)) w :
  reads_only body -> snd (handle body w) = w.
Proof.
  intros H. unfold handle. specialize (H w).
  destruct (body w) as [[r | e] w1]; exact H.
Qed.

End ReadOnly.

(** Establishing [reads_only] for a handler body, statement by
    statement. *)
Ltac reads :=
  repeat
    first
      [ apply reads_ret | apply reads_raise | apply reads_lift
      | apply reads_jsonify | apply reads_find | apply reads_count_documents
      | apply reads_find_one | apply reads_list_collection_names
      | apply reads_get_collection
      | apply reads_bind; [| intros ?]
      | match goal with
        | |- reads_only (if ?b then _ else _) => destruct b
        | |- reads_only (match ?x with _ => _ end) => destruct x
        end ].

Section ReadHandlers.
Context {F : Type} {rt : runtime F} {env : environment F} {drv : driver}.

(** X1.  The table-data, uploaded-files, product-list and search-for-name
    operations never change the store: whatever the request and whatever
    the answer (a page, a client error or the 500 of the catch-all), the
    store after the request is the store before it. *)
Theorem read_handlers_leave_store :
  forall (body : value F) (w : world F),
    snd (get_table_data body w) = w
    /\ snd (get_uploaded_files body w) = w
    /\ snd (get_products body w) = w
    /\ snd (search_for_name body w) = w.
Proof.
  intros body w. repeat split.
  - apply reads_handle. unfold get_table_data_body. reads.
  - apply reads_handle. unfold get_uploaded_files_body. reads.
  - apply reads_handle. unfold get_products_body. reads.
  - unfold search_for_name, handle, search_for_name_in, bind, lift.
    destruct (as_dict body) as [data | e]; [| reflexivity].
    destruct (py_strip (get_default "database" (VStr "") data));
      [| reflexivity].
    destruct (py_strip (get_default "collection" (VStr "") data));
      [| reflexivity].
    destruct (py_int (get_default "page" (VInt 1) data)); [| reflexivity].
    destruct (py_int (get_default "page_records" (VInt 1000) data));
      [| reflexivity].
    destruct (_ || _); [| reflexivity].
    unfold jsonify. simpl. reflexivity.
Qed.

End ReadHandlers.

(** ** Answers of the table-data operation *)

Section TableAnswers.
Context {F : Type} {rt : runtime F} {env : environment F} {drv : driver}.



(** Names the driver refuses stop the table-data operation at
    [mongo.cx[database_name]] or [db[collection_name]], after the filters
    were translated and before the store is read: the answer is the 500
    response with the exception of the driver. *)
Lemma table_data_refused_name (data : doc F) (db coll : string)
      (page page_records : Z) (q : doc F) (e : exn) (w : world F) :
  py_strip (get_default "database" (VStr "") data) = Ok db -> db <> "" ->
  py_strip (get_default "collection" (VStr "") data) = Ok coll ->
  coll <> "" ->
  py_int (get_default "page" (VInt 1) data) = Ok page ->
  py_int (get_default "page_records" (VInt 10) data) = Ok page_records ->
  table_query (get_default "filters" (VDict data) data) = Ok q ->
  invalid_name db coll = Some e ->
  get_table_data (VDict data) w = ((PExn e, 500), w).
Proof.
  intros Hdb Ndb Hcoll Ncoll Hp Hr Hq Hname.
  unfold get_table_data, handle, get_table_data_body, bind, lift, as_dict.
  rewrite Hdb, Hcoll, (eqb_empty_false db Ndb), (eqb_empty_false coll Ncoll).
  cbn [orb]. rewrite Hp, Hr, Hq. unfold named_collection. rewrite Hname.
  reflexivity.
Qed.

(** X3.  The table-data operation checks the names first: a missing or blank
    database or collection answers 400 whatever else the request holds.
    The uploaded-files operation converts [page] first: with a [page]
    that is not a number it answers 500 even when the names are
    missing. *)
Theorem names_checked_before_or_after_page :
  forall (data : doc F) (db coll : string) (w : world F),
    py_strip (get_default "database" (VStr "") data) = Ok db ->
    py_strip (get_default "collection" (VStr "") data) = Ok coll ->
    db = "" \/ coll = "" ->
    get_table_data (VDict data) w
    = ((PJson (VDict [("error", VStr "Database and collection are required")]),
        400), w)
    /\ (forall e,
          py_int (get_default "page" (VInt 1) data) = Raise e ->
          get_uploaded_files (VDict data) w = ((PExn e, 500), w)).
Proof.
  intros data db coll w Hdb Hcoll Hblank. split.
  - unfold get_table_data, handle, get_table_data_body, bind, lift, as_dict.
    rewrite Hdb, Hcoll.
    assert (E : String.eqb db "" || String.eqb coll "" = true).
    { destruct Hblank as [-> | ->]; [reflexivity |].
      now rewrite orb_true_r. }
    rewrite E. reflexivity.
  - intros e He.
    unfold get_uploaded_files, handle, get_uploaded_files_body, bind, lift,
      as_dict.
    now rewrite Hdb, Hcoll, He.
Qed.

Lemma get_dict_set_same (k : string) (v : value F) (d : doc F) :
  get k (dict_set String.eqb k v d) = Some v.
Proof.
  unfold get. induction d as [| [k0 v0] d IH]; simpl.
  - now rewrite String.eqb_refl.
  - destruct (String.eqb k k0) eqn:E; simpl; rewrite E; [reflexivity | exact IH].
Qed.

Lemma stringify_ids_string_id (ds rs : list (doc F)) :
  stringify_ids ds = Ok rs -> Forall has_string_id (map VDict rs).
Proof.
  revert rs. induction ds as [| d ds IH]; intros rs H; simpl in H.
  - injection H as <-. constructor.
  - apply rbind_ok in H as (r & Hr & H).
    apply rbind_ok in H as (rs' & Hrs & H). injection H as <-.
    cbn [map]. constructor; [| now apply IH].
    unfold stringify_id in Hr. destruct (get "_id" d) as [v |];
      [| discriminate Hr].
    injection Hr as <-. eexists _, _. split; [reflexivity |].
    apply get_dict_set_same.
Qed.

(** X4.  Every document that the table-data, uploaded-files and product-list
    operations return carries its identifier as a string. *)
Theorem returned_identifiers_are_strings :
  forall (data : doc F) (w w' : world F) (v : value F),
    (get_table_data (VDict data) w = ((PJson v, 200), w') ->
     Forall has_string_id (items_of v "data"))
    /\ (get_uploaded_files (VDict data) w = ((PJson v, 200), w') ->
        Forall has_string_id (items_of v "data"))
    /\ (get_products (VDict data) w = ((PJson v, 200), w') ->
        Forall has_string_id (items_of v "products")).
Proof.
  intros data w w' v. repeat split; intros H.
  - apply get_table_data_200 in H
      as (db & coll & page & pr & q & proj & s & found & results
          & _ & _ & _ & _ & _ & _ & _ & _ & Hres & Hv & _).
    injection Hv as ->. now apply stringify_ids_string_id in Hres.
  - apply get_uploaded_files_200 in H
      as (db & coll & page & pr & found & files
          & _ & _ & _ & _ & _ & Hres & Hv & _).
    injection Hv as ->. now apply stringify_ids_string_id in Hres.
  - apply get_products_200 in H
      as (db & page & pr & proj & found & products
          & _ & _ & _ & _ & Hres & Hv & _).
    injection Hv as ->. now apply stringify_ids_string_id in Hres.
Qed.

End TableAnswers.


Lemma names_checked_before_or_after_page_witness :
  let request : doc Sample.dec :=
    [("database", VStr "  "); ("page", VStr "first")] in
  get_table_data (VDict request) Sample.shop
  = ((PJson (VDict [("error", VStr "Database and collection are required")]),
      400), Sample.shop)
  /\ (forall e,
        py_int (get_default "page" (VInt 1) request) = Raise e ->
        get_uploaded_files (VDict request) Sample.shop
        = ((PExn e, 500), Sample.shop)).
Proof.
  intros request.
  apply (names_checked_before_or_after_page request "" "" Sample.shop).
  - reflexivity.
  - reflexivity.
  - now left.
Defined.

Lemma returned_identifiers_are_strings_witness :
  Forall has_string_id
    (items_of
       (answer (get_table_data
                  (VDict [("database", VStr "ecommercedb");
                          ("collection", VStr "products")]) Sample.shop))
       "data")
  /\ List.length
       (items_of
          (answer (get_table_data
                     (VDict [("database", VStr "ecommercedb");
                             ("collection", VStr "products")]) Sample.shop))
          "data") = 3%nat.
Proof.
  split; [| reflexivity].
  eapply (proj1 (returned_identifiers_are_strings
                   [("database", VStr "ecommercedb");
                    ("collection", VStr "products")] Sample.shop _ _)).
  vm_compute. reflexivity.
Defined.

(** ** The query translator *)

Section Translator.
Context {F : Type} {rt : runtime F}.

Lemma table_filter_step_reserved (q : doc F) key v :
  str_in key table_reserved = true -> table_filter_step q key v = Ok q.
Proof. intros H. unfold table_filter_step. now rewrite H. Qed.

Lemma table_filter_step_keys (q q' : doc F) key v k x :
  table_filter_step q key v = Ok q' ->
  get k q' = Some x ->
  (exists x', get k q = Some x')
  \/ (k = key /\ str_in key table_reserved = false).
Proof.
  intros H Hk. destruct (String.eqb k key) eqn:E.
  - apply String.eqb_eq in E. subst k.
    destruct (str_in key table_reserved) eqn:R; [| now right].
    rewrite (table_filter_step_reserved q key v R) in H.
    injection H as <-. left. now exists x.
  - apply String.eqb_neq in E.
    rewrite (table_filter_step_other _ _ _ _ _ H E) in Hk.
    left. now exists x.
Qed.

Lemma table_filter_loop_keys (items : doc F) :
  forall q q' k x,
    table_filter_loop q items = Ok q' ->
    get k q' = Some x ->
    (exists x', get k q = Some x')
    \/ (In k (map fst items) /\ str_in k table_reserved = false).
Proof.
  induction items as [| [key v] items IH]; intros q q' k x H Hk;
    cbn [table_filter_loop] in H.
  - injection H as <-. left. now exists x.
  - apply rbind_ok in H as (q1 & H1 & H2).
    destruct (IH _ _ _ _ H2 Hk) as [[x1 Hx1] | [Hin Hr]].
    + destruct (table_filter_step_keys _ _ _ _ _ _ H1 Hx1)
        as [Hq | [-> Hr]]; [now left |].
      right. split; [now left | exact Hr].
    + right. split; [now right | exact Hr].
Qed.

(** X5.  Every clause of the query built by the table-data operation is for
    a key of the filter specification, and never for one of the control
    names [database], [collection], [page], [page_records], [fields] and
    [sort]; a filter specification that is not an object gives the empty
    query. *)
Theorem table_query_keys :
  forall (filters : value F) (q : doc F),
    table_query filters = Ok q ->
    (forall k x,
        get k q = Some x ->
        str_in k table_reserved = false
        /\ exists items, filters = VDict items /\ In k (map fst items))
    /\ ((forall items, filters <> VDict items) -> q = []).
Proof.
  intros filters q H. split.
  - intros k x Hk. destruct filters; cbn [table_query] in H;
      try (injection H as <-; discriminate Hk).
    destruct (table_filter_loop_keys _ _ _ _ _ H Hk) as [[x' Hx'] | [Hin Hr]];
      [discriminate Hx' |].
    split; [exact Hr |]. now exists d.
  - intros Hno. destruct filters; cbn [table_query] in H;
      try (now injection H as <-).
    now destruct (Hno d).
Qed.

Lemma table_query_item (pre post : doc F) key v q1 :
  table_filter_loop [] pre = Ok q1 ->
  table_query (VDict (pre ++ (key, v) :: post)%list)
  = rbind (table_filter_step q1 key v) (fun q2 => table_filter_loop q2 post).
Proof.
  intros H. cbn [table_query]. rewrite table_filter_loop_app, H. reflexivity.
Qed.

Lemma table_filter_step_passed_over (q : doc F) key v :
  passed_over v -> table_filter_step q key v = Ok q.
Proof.
  intros Hv. unfold table_filter_step.
  destruct (str_in key table_reserved); [reflexivity |].
  destruct Hv as [-> | (d & -> & [Hs | Ht])]; [reflexivity | |].
  - now rewrite Hs.
  - unfold known_data_type in Ht.
    apply orb_false_elim in Ht as [Ht He].
    apply orb_false_elim in Ht as [Ht Hn].
    rewrite Ht, Hn, He. now destruct (get_default "search_by" VNone d).
Qed.

(** X6.  A filter whose value is null, a structured predicate without
    [search_by] (or with a null one), and a structured predicate whose
    [data_type] is none of [text], [number] and [exact] are passed over
    without an error: the query is the one built from the other filters
    alone. *)
Theorem passed_over_filters_ignored :
  forall (pre post : doc F) (key : string) (v : value F),
    passed_over v ->
    table_query (VDict (pre ++ (key, v) :: post)%list)
    = table_query (VDict (pre ++ post)%list).
Proof.
  intros pre post key v Hv. cbn [table_query].
  rewrite !table_filter_loop_app.
  destruct (table_filter_loop [] pre) as [q1 | e]; cbn [rbind];
    [| reflexivity].
  cbn [table_filter_loop].
  now rewrite (table_filter_step_passed_over q1 key v Hv).
Qed.

(** X7.  A bare string and a structured predicate of type [text] (the type
    assumed when [data_type] is absent) on the same string are the same
    filter: both give the contains pattern with option [i]. *)
Theorem text_predicate_is_default :
  forall (pre post : doc F) (key : string) (d : doc F) (s : string),
    get "search_by" d = Some (VStr s) ->
    get "data_type" d = None \/ get "data_type" d = Some (VStr "text") ->
    table_query (VDict (pre ++ (key, VDict d) :: post)%list)
    = table_query (VDict (pre ++ (key, VStr s) :: post)%list).
Proof.
  intros pre post key d s Hs Ht. cbn [table_query].
  rewrite !table_filter_loop_app.
  destruct (table_filter_loop [] pre) as [q1 | e]; cbn [rbind];
    [| reflexivity].
  cbn [table_filter_loop]. f_equal.
  unfold table_filter_step, get_default. rewrite Hs.
  destruct (str_in key table_reserved); [reflexivity |].
  destruct Ht as [-> | ->]; reflexivity.
Qed.


Lemma dict_set_fresh (k : string) (v : value F) (acc : doc F) :
  ~ In k (map fst acc) ->
  dict_set String.eqb k v acc = (acc ++ [(k, v)])%list.
Proof.
  induction acc as [| [k0 v0] acc IH]; intros Hk; [reflexivity |].
  cbn [dict_set]. cbn [map fst In] in Hk.
  destruct (String.eqb k k0) eqn:E.
  - apply String.eqb_eq in E. subst k0. tauto.
  - cbn [app]. f_equal. apply IH. tauto.
Qed.

Lemma dict_update_nodup (kvs : doc F) :
  forall acc,
    NoDup (map fst (acc ++ kvs)%list) ->
    dict_update String.eqb acc kvs = (acc ++ kvs)%list.
Proof.
  unfold dict_update.
  induction kvs as [| [k v] kvs IH]; intros acc Hnd; cbn [fold_left].
  - now rewrite app_nil_r.
  - cbn [fst snd]. rewrite dict_set_fresh.
    + rewrite IH; rewrite <- app_assoc; [reflexivity | exact Hnd].
    + rewrite map_app in Hnd. cbn [map fst] in Hnd.
      apply NoDup_remove_2 in Hnd. intros Hin. apply Hnd.
      apply in_or_app. now left.
Qed.

Lemma get_mapped_filter (p : string * value F -> bool)
      (g : value F -> value F) (data : doc F) k :
  NoDup (map fst data) ->
  get k (map (fun kv => (fst kv, g (snd kv))) (filter p data))
  = match get k data with
    | Some v => if p (k, v) then Some (g v) else None
    | None => None
    end.
Proof.
  unfold get. induction data as [| [k0 v0] data IH]; intros Hnd;
    [reflexivity |].
  cbn [map fst] in Hnd. inversion Hnd as [| ? ? Hnotin Hnd']; subst.
  cbn [filter dict_get]. destruct (String.eqb k k0) eqn:E.
  - apply String.eqb_eq in E. subst k0.
    destruct (p (k, v0)) eqn:Ep.
    + cbn [map fst snd dict_get]. now rewrite String.eqb_refl.
    + rewrite (IH Hnd').
      destruct (dict_get String.eqb k data) as [v |] eqn:Eg; [| reflexivity].
      exfalso. apply Hnotin. clear - Eg.
      induction data as [| [k1 v1] data IH]; [discriminate Eg |].
      cbn [dict_get] in Eg. cbn [map fst In].
      destruct (String.eqb k k1) eqn:E1.
      * apply String.eqb_eq in E1. now left.
      * right. now apply IH.
  - destruct (p (k0, v0)).
    + cbn [map fst snd dict_get]. rewrite E. exact (IH Hnd').
    + exact (IH Hnd').
Qed.

Lemma map_fst_mapped_filter (p : string * value F -> bool)
      (g : value F -> value F) (data : doc F) :
  NoDup (map fst data) ->
  NoDup (map fst (map (fun kv => (fst kv, g (snd kv))) (filter p data))).
Proof.
  induction data as [| [k0 v0] data IH]; intros Hnd; [constructor |].
  cbn [map fst] in Hnd. inversion Hnd as [| ? ? Hnotin Hnd']; subst.
  cbn [filter]. destruct (p (k0, v0)); [| exact (IH Hnd')].
  cbn [map fst snd]. constructor; [| exact (IH Hnd')].
  intros Hin. apply Hnotin. rewrite map_map in Hin. cbn [fst] in Hin.
  apply in_map_iff in Hin as (kv & <- & Hkv).
  apply filter_In in Hkv as [Hkv _]. now apply in_map.
Qed.

(** X9.  The query of the uploaded-files operation, key by key (the keys of a
    request are distinct): a key is filtered on exactly when its value is
    truthy and it is none of [database], [collection], [page] and
    [page_records], and its clause is the case-insensitive pattern made
    of the value as it came.  So an empty string, [0], [false] and null
    filter nothing, and [fields] and [sort] are filters like any other
    key. *)
Theorem files_query_clauses :
  forall (data : doc F) (k : string),
    NoDup (map fst data) ->
    get k (files_query data)
    = match get k data with
      | Some v => files_clause k v
      | None => None
      end.
Proof.
  intros data k Hnd. unfold files_query, dict_of_pairs.
  rewrite dict_update_nodup
    by (cbn [app]; now apply map_fst_mapped_filter).
  cbn [app].
  rewrite (get_mapped_filter
             (fun kv => truthy (snd kv) && negb (str_in (fst kv) files_reserved))
             regex_cond data k Hnd).
  reflexivity.
Qed.

End Translator.

(** ** Uploads that stop early *)

Section UploadEdges.
Context {F : Type} {rt : runtime F} {env : environment F} {drv : driver}.

Lemma upload_with_status validate (req : upload_request F) w p s w' :
  upload_malformed req = false ->
  upload_with validate req w = (Ok (p, s), w') -> s = 200.
Proof.
  unfold upload_malformed, upload_with. intros Hm H.
  destruct (req_file req) as [file |]; [| discriminate Hm].
  apply orb_false_elim in Hm as [Hm Hg].
  apply orb_false_elim in Hm as [Hm Hx].
  rewrite Hm, Hx in H.
  destruct (filename_groups (filename file))
    as [[[[[g1 year] creater] reviewer] date_str] |]; [| discriminate Hg].
  apply bind_ok in H as (dcoll & wn & _ & H).
  apply bind_ok in H as (u & wu & _ & H).
  apply bind_ok in H as (year_number & wy & _ & H).
  apply bind_ok in H as (upload_date & wt & _ & H).
  apply bind_ok in H as ([] & w1 & _ & H).
  apply bind_ok in H as (rows & wr & _ & H).
  destruct rows as [| headers rows]; [discriminate H |].
  apply bind_ok in H as (st & w2 & _ & H).
  apply bind_ok in H as ([] & w3 & _ & H).
  apply bind_ok in H as ([] & w4 & _ & H).
  apply jsonify_ok in H as (Hp & _). now injection Hp.
Qed.

(** X10.  An upload is answered 400 exactly when it fails one of the checks
    made before the store is touched (no file or a file without a name, a
    blank [database], [data_collection] or [uploadedBy], a name that
    does not end in [.xlsx] or does not follow the pattern), and then
    nothing is written: no job record, no identifier drawn, the store is
    as before. *)
Theorem upload_rejected_before_store :
  forall (req : upload_request F) (w : world F),
    (upload_malformed req = true ->
     status_of (upload_excel_file req w) = 400
     /\ snd (upload_excel_file req w) = w)
    /\ (upload_malformed req = false ->
        status_of (upload_excel_file req w) <> 400).
Proof.
  intros req w. split.
  - unfold upload_malformed, upload_excel_file, handle, upload_with, status_of.
    intros Hm. destruct (req_file req) as [file |]; [| split; reflexivity].
    set (blank := String.eqb (filename file) ""
                  || String.eqb (form_field "database" (req_form req)) ""
                  || String.eqb (form_field "data_collection" (req_form req)) ""
                  || String.eqb (form_field "uploadedBy" (req_form req)) "")
      in *.
    destruct blank; [split; reflexivity |].
    cbn [orb] in Hm.
    destruct (negb (str_endswith (filename file) ".xlsx"));
      [split; reflexivity |].
    cbn [orb] in Hm.
    destruct (filename_groups (filename file)); [discriminate Hm |].
    split; reflexivity.
  - intros Hm. unfold upload_excel_file, handle, status_of.
    destruct (upload_with (fun _ => "") req w) as [[[p s] | e] w'] eqn:E;
      cbn [fst snd]; [| lia].
    rewrite (upload_with_status _ _ _ _ _ _ Hm E). lia.
Qed.

(** The job record as [insert_one] stores it. *)
Lemma insert_one_string_id c (d : list (value F * value F)) id w w' :
  insert_one c ((VStr "_id", VStr id) :: d) w = (Ok tt, w') ->
  exists rest,
    encode d = Ok rest
    /\ id_unused w c (VStr id)
    /\ colls w' = colls (set_docs c (docs_of w c ++ [("_id", VStr id) :: rest]) w)
    /\ moment w' = moment w
    /\ journal w'
       = (journal w ++ [WInsertOne c ((VStr "_id", VStr id) :: d)])%list.
Proof.
  unfold insert_one. intros H.
  apply bind_ok in H as ([] & w1 & Hrec & H).
  unfold record_op in Hrec. injection Hrec as <-.
  apply bind_ok in H as (enc & w2 & Henc & H).
  apply lift_ok in Henc as [Henc ->]. cbn [encode] in Henc.
  apply rbind_ok in Henc as (rest & Hrest & Henc). injection Henc as <-.
  exists rest. split; [exact Hrest |].
  unfold insert_doc in H.
  change (get "_id" (("_id", VStr id) :: rest)) with (Some (VStr (F := F) id)) in H.
  unfold bind, ret in H. cbn [fst snd] in H. unfold id_unused.
  match type of H with
  | (if ?b then _ else _) = _ => change b with
      (existsb (cond_matches "_id" (VStr id)) (docs_of w c)) in H
  end.
  destruct (existsb (cond_matches "_id" (VStr id)) (docs_of w c));
    [discriminate H |].
  injection H as <-. repeat split.
Qed.

Lemma insert_one_string_id_ok c (d : list (value F * value F)) rest id w :
  encode d = Ok rest ->
  id_unused w c (VStr id) ->
  exists w', insert_one c ((VStr "_id", VStr id) :: d) w = (Ok tt, w').
Proof.
  intros Hrest Hfresh. unfold insert_one, bind, record_op, lift.
  cbn [encode]. rewrite Hrest. cbn [rbind]. unfold insert_doc.
  change (get "_id" (("_id", VStr id) :: rest)) with (Some (VStr (F := F) id)).
  unfold bind, ret. cbn [fst snd]. unfold id_unused in Hfresh.
  match goal with
  | |- exists _, (if ?b then _ else _) = _ =>
      change b with (existsb (cond_matches "_id" (VStr id)) (docs_of w c))
  end.
  rewrite Hfresh. eexists. reflexivity.
Qed.

(** Names the driver refuses stop the upload at lines 100-104, before
    the identifier is drawn and before the job record is inserted: the
    answer is the 500 response and nothing is written. *)
Lemma upload_refused_name (req : upload_request F) (file : file_storage F)
      (e : exn) (w : world F) :
  upload_malformed req = false ->
  req_file req = Some file ->
  invalid_name (form_field "database" (req_form req))
    (form_field "data_collection" (req_form req)) = Some e ->
  upload_excel_file req w = ((PExn e, 500), w).
Proof.
  intros Hm Hfile Hname.
  unfold upload_malformed in Hm. rewrite Hfile in Hm.
  apply orb_false_elim in Hm as [Hm Hg].
  apply orb_false_elim in Hm as [Hm Hx].
  unfold upload_excel_file, handle, upload_with.
  rewrite Hfile, Hm, Hx.
  destruct (filename_groups (filename file))
    as [[[[[g1 year] creater] reviewer] date_str] |]; [| discriminate Hg].
  unfold bind at 1. unfold lift at 1. unfold named_collection.
  rewrite Hname. reflexivity.
Qed.

(** X11.  When the uploaded file passes the checks and the driver accepts
    the names, but the file is not a workbook, or is a workbook without a
    single row, the upload answers 500 after the job record was written:
    the record stays in the store with status "uploading" and is never
    updated. *)
Theorem unreadable_upload_leaves_job_uploading :
  forall (req : upload_request F) (file : file_storage F)
         (g1 year creater reviewer date_str : string) (y : Z) (w : world F),
    let db := form_field "database" (req_form req) in
    let file_id := Ident.str_of_uuid (uuid_at (moment w)) in
    upload_malformed req = false ->
    req_file req = Some file ->
    filename_groups (filename file)
    = Some (g1, year, creater, reviewer, date_str) ->
    int_of_str year = Some y ->
    invalid_name db (form_field "data_collection" (req_form req)) = None ->
    id_unused w (db, "file_uploads") (VStr file_id) ->
    sheet file = None \/ sheet file = Some [] ->
    exists e job w',
      upload_excel_file req w = ((PExn e, 500), w')
      /\ (e = InvalidFile \/ e = StopIteration)
      /\ docs_of w' (db, "file_uploads")
         = (docs_of w (db, "file_uploads") ++ [job])%list
      /\ get "_id" job = Some (VStr file_id)
      /\ get "status" job = Some (VStr "uploading")
      /\ (exists op, journal w' = (journal w ++ [op])%list).
Proof.
  intros req file g1 year creater reviewer date_str y w db file_id
    Hm Hfile Hg Hy Hname Hfresh Hsheet.
  unfold upload_malformed in Hm. rewrite Hfile, Hg in Hm.
  apply orb_false_elim in Hm as [Hm _].
  apply orb_false_elim in Hm as [Hm Hx].
  unfold upload_excel_file, handle, upload_with.
  rewrite Hfile, Hm, Hx, Hg.
  unfold bind at 1. unfold lift at 1. unfold named_collection.
  fold db. rewrite Hname.
  unfold bind at 1. unfold uuid4 at 1.
  unfold bind at 1. unfold lift at 1. rewrite Hy.
  unfold bind at 1. unfold utcnow at 1.
  unfold bind at 1.
  match goal with
  | |- context [insert_one ?c ((VStr "_id", VStr ?i) :: ?d) ?w0] =>
      destruct (insert_one_string_id_ok c d _ i w0 eq_refl Hfresh)
        as [w1 Eins];
      rewrite Eins
  end.
  apply insert_one_string_id in Eins
    as (rest & Hrest & _ & Hcolls & _ & Hj).
  cbn [encode rbind] in Hrest. injection Hrest as <-.
  pose proof (docs_of_colls _ _ (db, "file_uploads") Hcolls) as Hdocs.
  rewrite docs_of_set_docs_same in Hdocs.
  destruct Hsheet as [Hs | Hs]; rewrite Hs; unfold bind, lift, raise.
  - exists InvalidFile. eexists. exists w1.
    split; [reflexivity |]. split; [now left |].
    split; [exact Hdocs |].
    split; [reflexivity |]. split; [reflexivity |].
    eexists. exact Hj.
  - exists StopIteration. eexists. exists w1.
    split; [reflexivity |]. split; [now right |].
    split; [exact Hdocs |].
    split; [reflexivity |]. split; [reflexivity |].
    eexists. exact Hj.
Qed.

End UploadEdges.

(** ** The job record in the store *)

Section JobRecord.
Context {F : Type} {rt : runtime F} {env : environment F} {drv : driver}.

Lemma grows_refl (w : world F) : store_grows w w.
Proof. intros c. exists []. now rewrite app_nil_r. Qed.

Lemma grows_trans (w1 w2 w3 : world F) :
  store_grows w1 w2 -> store_grows w2 w3 -> store_grows w1 w3.
Proof.
  intros H12 H23 c. destruct (H12 c) as [a Ha], (H23 c) as [b Hb].
  exists (a ++ b)%list. now rewrite Hb, Ha, app_assoc.
Qed.

Lemma grows_colls (w w' : world F) : colls w' = colls w -> store_grows w w'.
Proof.
  intros H c. exists []. rewrite app_nil_r. now apply docs_of_colls.
Qed.

Lemma grows_set_docs c (d : doc F) (w : world F) :
  store_grows w (set_docs c (docs_of w c ++ [d]) w).
Proof.
  intros c'. destruct (coll_ref_eq_dec c' c) as [-> | Hne].
  - exists [d]. apply docs_of_set_docs_same.
  - exists []. rewrite app_nil_r. now apply docs_of_set_docs_other.
Qed.

Lemma insert_doc_grows c (d : doc F) w w' :
  insert_doc c d w = (Ok tt, w') -> store_grows w w'.
Proof.
  unfold insert_doc. intros H.
  apply bind_ok in H as ([id d'] & w1 & Hid & Hins).
  assert (G1 : store_grows w w1).
  { destruct (get "_id" d).
    - apply ret_ok in Hid as [_ ->]. apply grows_refl.
    - apply bind_ok in Hid as (o & w2 & Ho & Hr).
      apply ret_ok in Hr as [_ ->]. unfold fresh_oid in Ho.
      injection Ho as _ <-. now apply grows_colls. }
  cbn [fst snd] in Hins.
  destruct (existsb (cond_matches "_id" id) (docs_of w1 c));
    [discriminate Hins |].
  injection Hins as <-.
  exact (grows_trans _ _ _ G1 (grows_set_docs c d' w1)).
Qed.

Lemma insert_docs_grows c (ds : list (doc F)) :
  forall w w', insert_docs c ds w = (Ok tt, w') -> store_grows w w'.
Proof.
  induction ds as [| d ds IH]; intros w w' H; cbn [insert_docs] in H.
  - apply ret_ok in H as [_ ->]. apply grows_refl.
  - apply bind_ok in H as ([] & w1 & Hd & Hds).
    exact (grows_trans _ _ _ (insert_doc_grows _ _ _ _ Hd) (IH _ _ Hds)).
Qed.

Lemma insert_many_grows c (ds : list (pydict F)) w w' :
  insert_many c ds w = (Ok tt, w') -> store_grows w w'.
Proof.
  unfold insert_many. intros H.
  apply bind_ok in H as (u & w1 & Hrec & H).
  unfold record_op in Hrec. injection Hrec as _ <-.
  destruct ds as [| d ds]; [discriminate H |].
  apply bind_ok in H as (enc & w2 & Henc & H).
  apply lift_ok in Henc as [_ ->].
  apply insert_docs_grows in H.
  refine (grows_trans _ _ _ _ H). now apply grows_colls.
Qed.

Lemma flush_data_grows dc (st st' : loop_state F) w w' :
  flush_data dc st w = (Ok st', w') -> store_grows w w'.
Proof.
  unfold flush_data. destruct (len (data_buffer st) >=? batch_size); intros H.
  - apply bind_ok in H as ([] & w1 & Hins & H).
    apply ret_ok in H as [_ ->]. now apply insert_many_grows in Hins.
  - apply ret_ok in H as [_ ->]. apply grows_refl.
Qed.

Lemma flush_errors_grows ec (st st' : loop_state F) w w' :
  flush_errors ec st w = (Ok st', w') -> store_grows w w'.
Proof.
  unfold flush_errors. destruct (len (error_buffer st) >=? batch_size);
    intros H.
  - apply bind_ok in H as ([] & w1 & Hins & H).
    apply ret_ok in H as [_ ->]. now apply insert_many_grows in Hins.
  - apply ret_ok in H as [_ ->]. apply grows_refl.
Qed.

Lemma flush_rest_grows dc ec (st : loop_state F) w w' :
  flush_rest dc ec st w = (Ok tt, w') -> store_grows w w'.
Proof.
  unfold flush_rest. intros H.
  apply bind_ok in H as ([] & w1 & Hd & He).
  assert (G1 : store_grows w w1).
  { destruct (data_buffer st).
    - apply ret_ok in Hd as [_ ->]. apply grows_refl.
    - now apply insert_many_grows in Hd. }
  refine (grows_trans _ _ _ G1 _).
  destruct (error_buffer st).
  - apply ret_ok in He as [_ ->]. apply grows_refl.
  - now apply insert_many_grows in He.
Qed.

(** The row loop only adds documents. *)
Lemma loop_grows validate file_id headers dc ec (rows : list (list (value F))) :
  forall i st w st' w',
    snd (exec (flat_map (row_steps validate file_id headers dc ec)
                 (enumerate i rows)) st w) = (Ok st', w') ->
    store_grows w w'.
Proof.
  induction rows as [| row rows IH]; intros i st w st' w' H.
  - cbn in H. injection H as _ <-. apply grows_refl.
  - destruct (append_row_ok validate file_id headers i row st w)
      as (st1 & H1 & _).
    cbn [enumerate flat_map] in H.
    rewrite (exec_row validate file_id headers dc ec _ _ _ _ _ _ H1) in H.
    destruct (flush_data dc st1 (advance w)) as [[st2 | e] w2] eqn:E2;
      [| discriminate H].
    destruct (flush_errors ec st2 w2) as [[st3 | e] w3] eqn:E3;
      [| discriminate H].
    destruct (exec (flat_map (row_steps validate file_id headers dc ec)
                      (enumerate (i + 1) rows)) st3 w3) as [seen r] eqn:E.
    cbn [snd] in H. subst r.
    specialize (IH (i + 1) st3 w3 st' w'). rewrite E in IH.
    apply flush_data_grows in E2. apply flush_errors_grows in E3.
    refine (grows_trans _ _ _ _ (IH eq_refl)).
    refine (grows_trans _ _ _ _ E3).
    refine (grows_trans _ _ _ _ E2). now apply grows_colls.
Qed.

Lemma update_first_at (q sets : doc F) (before after : list (doc F)) d :
  existsb (matches q) before = false ->
  matches q d = true ->
  update_first q sets (before ++ d :: after)
  = (before ++ dict_update String.eqb d sets :: after)%list.
Proof.
  induction before as [| b before IH]; intros Hb Hd; cbn [app update_first].
  - now rewrite Hd.
  - cbn [existsb] in Hb. apply orb_false_elim in Hb as [Hb1 Hb2].
    rewrite Hb1. f_equal. now apply IH.
Qed.

Lemma matches_string_id id (d : doc F) :
  matches [("_id", VStr id)] d = cond_matches "_id" (VStr id) d.
Proof. unfold matches. cbn. now rewrite andb_true_r. Qed.

Lemma existsb_matches_string_id id (ds : list (doc F)) :
  existsb (matches [("_id", VStr id)]) ds
  = existsb (cond_matches "_id" (VStr id)) ds.
Proof.
  induction ds as [| d ds IH]; [reflexivity |].
  cbn [existsb]. now rewrite matches_string_id, IH.
Qed.

Lemma cond_matches_own_string_id id (rest : doc F) :
  cond_matches "_id" (VStr id) (("_id", VStr id) :: rest) = true.
Proof. unfold cond_matches. cbn. apply String.eqb_refl. Qed.

(** Updating by a string identifier a collection in which the record
    was inserted under that identifier. *)
Lemma update_one_string_id c id (rest : doc F) (sets : pydict F) s
      (before after : list (doc F)) w w' :
  encode sets = Ok s ->
  docs_of w c = (before ++ (("_id", VStr id) :: rest) :: after)%list ->
  existsb (cond_matches "_id" (VStr id)) before = false ->
  update_one c [("_id", VStr id)] sets w = (Ok tt, w') ->
  docs_of w' c
  = (before ++ dict_update String.eqb (("_id", VStr id) :: rest) s :: after)%list.
Proof.
  intros Hs Hdocs Hbefore H. unfold update_one in H.
  apply bind_ok in H as (u & w1 & Hrec & H).
  unfold record_op in Hrec. injection Hrec as _ <-.
  apply bind_ok in H as (u' & w2 & Hq & H).
  unfold check_query in Hq.
  destruct (query_error [("_id", VStr id)]); [discriminate Hq |].
  apply ret_ok in Hq as [_ ->].
  apply bind_ok in H as (enc & w3 & Henc & H).
  apply lift_ok in Henc as [Henc ->]. rewrite Hs in Henc.
  injection Henc as <-.
  match type of H with
  | (if existsb _ (docs_of ?w0 c) then _ else _) = _ =>
      change (docs_of w0 c) with (docs_of w c) in H
  end.
  rewrite Hdocs in H.
  rewrite existsb_app in H. cbn [existsb] in H.
  rewrite matches_string_id, cond_matches_own_string_id in H.
  rewrite orb_true_r in H. cbn [orb] in H. injection H as <-.
  rewrite docs_of_set_docs_same. apply update_first_at.
  - now rewrite existsb_matches_string_id.
  - now rewrite matches_string_id, cond_matches_own_string_id.
Qed.

Lemma every_row_valid headers (rows : list (list (value F))) :
  filter (row_valid (fun _ => "") headers) rows = rows.
Proof.
  induction rows as [| row rows IH]; [reflexivity |].
  cbn. now rewrite IH.
Qed.

(** The statements of an upload that answers 200, one by one. *)
Lemma upload_with_200_steps validate (req : upload_request F) w p w' :
  upload_with validate req w = (Ok (p, 200), w') ->
  exists file headers rows creater reviewer y st w1 w2 w3,
    let db := form_field "database" (req_form req) in
    let coll := form_field "data_collection" (req_form req) in
    let file_id := Ident.str_of_uuid (uuid_at (moment w)) in
    req_file req = Some file
    /\ sheet file = Some (headers :: rows)
    /\ insert_one (db, "file_uploads")
         [(VStr "_id", VStr file_id);
          (VStr "filename", VStr (filename file));
          (VStr "createdBy", VStr creater);
          (VStr "uploadedBy", VStr (form_field "uploadedBy" (req_form req)));
          (VStr "reviewedBy", VStr reviewer);
          (VStr "year", VInt y);
          (VStr "uploadDate", VDatetime (time_at (S (moment w))));
          (VStr "status", VStr "uploading");
          (VStr "totalRows", VInt 0);
          (VStr "validRows", VInt 0);
          (VStr "invalidRows", VInt 0)] (advance (advance w))
       = (Ok tt, w1)
    /\ snd (exec (loop_steps validate file_id headers (db, coll)
                    (db, "validation_errors") rows) start_state w1)
       = (Ok st, w2)
    /\ flush_rest (db, coll) (db, "validation_errors") st w2 = (Ok tt, w3)
    /\ update_one (db, "file_uploads") [("_id", VStr file_id)]
         [(VStr "status", VStr (final_status (invalid st)));
          (VStr "totalRows", VInt (total st));
          (VStr "validRows", VInt (valid st));
          (VStr "invalidRows", VInt (invalid st))] w3
       = (Ok tt, w')
    /\ p = PJson (VDict [("fileId", VStr file_id);
                         ("database", VStr db);
                         ("collection", VStr coll);
                         ("filename", VStr (filename file));
                         ("status", VStr (final_status (invalid st)));
                         ("totalRows", VInt (total st));
                         ("validRows", VInt (valid st));
                         ("invalidRows", VInt (invalid st))]).
Proof.
  unfold upload_with. intros H.
  destruct (req_file req) as [file |];
    [| now apply jsonify_not_200 in H].
  destruct (_ || _) in H; [now apply jsonify_not_200 in H |].
  destruct (negb _) in H; [now apply jsonify_not_200 in H |].
  destruct (filename_groups (filename file))
    as [[[[[g1 year] creater] reviewer] date_str] |];
    [| now apply jsonify_not_200 in H].
  apply bind_ok in H as (dcoll & wn & Hn & H).
  apply lift_ok in Hn as [Hn ->]. apply named_collection_ok in Hn as [-> _].
  apply bind_ok in H as (u & wu & Hu & H).
  unfold uuid4 in Hu. injection Hu as <- <-.
  apply bind_ok in H as (y & wy & Hy & H).
  apply lift_ok in Hy as [_ ->].
  apply bind_ok in H as (upload_date & wt & Ht & H).
  unfold utcnow in Ht. injection Ht as <- <-.
  apply bind_ok in H as ([] & w1 & Hjob & H).
  apply bind_ok in H as (rows & wr & Hrows & H).
  apply lift_ok in Hrows as [Hsheet ->].
  destruct (sheet file) as [sheet_rows |] eqn:Esheet; [| discriminate Hsheet].
  injection Hsheet as ->.
  destruct rows as [| headers rows]; [discriminate H |].
  apply bind_ok in H as (st & w2 & Hloop & H).
  apply bind_ok in H as ([] & w3 & Hrest & H).
  apply bind_ok in H as ([] & w4 & Hupd & H).
  apply jsonify_ok in H as (Hp & -> & _).
  injection Hp as ->.
  exists file, headers, rows, creater, reviewer, y, st, w1, w2, w3.
  cbv zeta. repeat split; try reflexivity; assumption.
Qed.

(** X12.  After an upload that answers 200, the job record is in the
    [file_uploads] collection of the database under the identifier the
    summary reports, with the name of the file, the status of the summary
    and the number of data rows as [totalRows] and [validRows]. *)
Theorem upload_job_record_stored :
  forall (req : upload_request F) (w w' : world F) (p : payload F),
    upload_excel_file req w = ((p, 200), w') ->
    exists file headers rows job summary,
      req_file req = Some file
      /\ sheet file = Some (headers :: rows)
      /\ p = PJson (VDict summary)
      /\ In job (docs_of w' (form_field "database" (req_form req),
                             "file_uploads"))
      /\ get "_id" job = get "fileId" summary
      /\ get "_id" job
         = Some (VStr (Ident.str_of_uuid (uuid_at (moment w))))
      /\ get "filename" job = Some (VStr (filename file))
      /\ get "status" job = get "status" summary
      /\ get "totalRows" job = Some (VInt (len rows))
      /\ get "validRows" job = Some (VInt (len rows))
      /\ get "invalidRows" job = Some (VInt 0).
Proof.
  intros req w w' p H. unfold upload_excel_file in H. apply handle_200 in H.
  apply upload_with_200_steps in H
    as (file & headers & rows & creater & reviewer & y & st & w1 & w2 & w3
        & Hfile & Hsheet & Hins & Hloop & Hrest & Hupd & Hp).
  cbv zeta in *.
  apply insert_one_string_id in Hins
    as (rest & Hrest' & Hfresh & Hcolls & _ & _).
  cbn [encode rbind] in Hrest'. injection Hrest' as <-.
  pose proof (docs_of_colls _ _ (form_field "database" (req_form req),
                                 "file_uploads") Hcolls) as Hdocs1.
  rewrite docs_of_set_docs_same in Hdocs1.
  pose proof Hloop as Hcount.
  apply loop_counters in Hcount as (Ht & Hi & Hv).
  rewrite no_row_invalid in Hi. rewrite every_row_valid in Hv.
  cbn in Ht, Hi, Hv.
  unfold loop_steps in Hloop. apply loop_grows in Hloop.
  apply flush_rest_grows in Hrest.
  destruct (grows_trans _ _ _ Hloop Hrest
              (form_field "database" (req_form req), "file_uploads"))
    as [added Hdocs3].
  rewrite Hdocs1, <- app_assoc in Hdocs3. cbn [app] in Hdocs3.
  eapply update_one_string_id in Hupd;
    [| reflexivity | exact Hdocs3 | exact Hfresh].
  eexists file, headers, rows, _, _.
  split; [exact Hfile |]. split; [exact Hsheet |]. split; [exact Hp |].
  split; [rewrite Hupd; apply in_or_app; right; left; reflexivity |].
  rewrite Ht, Hi, Hv. repeat split; reflexivity.
Qed.

End JobRecord.

Lemma upload_job_record_stored_witness :
  let up := upload_excel_file
              (Sample.budget_upload [Sample.budget_row; Sample.budget_row])
              Sample.empty_world in
  exists file headers rows job summary,
    req_file (Sample.budget_upload [Sample.budget_row; Sample.budget_row])
    = Some file
    /\ sheet file = Some (headers :: rows)
    /\ fst (fst up) = PJson (VDict summary)
    /\ In job (docs_of (snd up) ("upload_db", "file_uploads"))
    /\ get "_id" job = get "fileId" summary
    /\ get "_id" job
       = Some (VStr (Ident.str_of_uuid
                       (uuid_at (moment Sample.empty_world))))
    /\ get "filename" job = Some (VStr (filename file))
    /\ get "status" job = get "status" summary
    /\ get "totalRows" job = Some (VInt (len rows))
    /\ get "validRows" job = Some (VInt (len rows))
    /\ get "invalidRows" job = Some (VInt 0).
Proof.
  intros up.
  eapply (upload_job_record_stored
            (Sample.budget_upload [Sample.budget_row; Sample.budget_row])
            Sample.empty_world).
  vm_compute. reflexivity.
Defined.

(** ** The rows in the store *)

Section RowsStored.
Context {F : Type} {rt : runtime F} {env : environment F} {drv : driver}.

(** The number of documents of a collection. *)
Lemma insert_doc_adds c (d : doc F) w w' :
  insert_doc c d w = (Ok tt, w') ->
  len (docs_of w' c) = len (docs_of w c) + 1
  /\ forall c', c' <> c -> docs_of w' c' = docs_of w c'.
Proof.
  unfold insert_doc. intros H.
  apply bind_ok in H as ([id d'] & w1 & Hid & Hins).
  assert (E1 : colls w1 = colls w).
  { destruct (get "_id" d).
    - apply ret_ok in Hid as [_ ->]. reflexivity.
    - apply bind_ok in Hid as (o & w2 & Ho & Hr).
      apply ret_ok in Hr as [_ ->]. unfold fresh_oid in Ho.
      injection Ho as _ <-. reflexivity. }
  cbn [fst snd] in Hins.
  destruct (existsb (cond_matches "_id" id) (docs_of w1 c));
    [discriminate Hins |].
  injection Hins as <-. split.
  - rewrite docs_of_set_docs_same, len_app.
    now rewrite (docs_of_colls _ _ c E1).
  - intros c' Hne. rewrite docs_of_set_docs_other by exact Hne.
    now apply docs_of_colls.
Qed.

Lemma insert_docs_adds c (ds : list (doc F)) :
  forall w w',
    insert_docs c ds w = (Ok tt, w') ->
    len (docs_of w' c) = len (docs_of w c) + len ds
    /\ forall c', c' <> c -> docs_of w' c' = docs_of w c'.
Proof.
  induction ds as [| d ds IH]; intros w w' H; cbn [insert_docs] in H.
  - apply ret_ok in H as [_ ->]. split; [| reflexivity].
    change (len (@nil (doc F))) with 0. lia.
  - apply bind_ok in H as ([] & w1 & Hd & Hds).
    apply insert_doc_adds in Hd as [Hd1 Hd2].
    apply IH in Hds as [Hs1 Hs2]. split.
    + rewrite Hs1, Hd1, len_cons. lia.
    + intros c' Hne. now rewrite Hs2, Hd2.
Qed.

Lemma encode_all_length (ds : list (pydict F)) enc :
  encode_all ds = Ok enc -> len enc = len ds.
Proof.
  revert enc. induction ds as [| d ds IH]; intros enc H; cbn [encode_all] in H.
  - now injection H as <-.
  - apply rbind_ok in H as (r & _ & H).
    apply rbind_ok in H as (rs & Hrs & H). injection H as <-.
    rewrite !len_cons. now rewrite (IH rs).
Qed.

(** A bulk insert that succeeds adds as many documents as it was given,
    to its collection only. *)
Lemma insert_many_adds c (ds : list (pydict F)) w w' :
  insert_many c ds w = (Ok tt, w') ->
  len (docs_of w' c) = len (docs_of w c) + len ds
  /\ forall c', c' <> c -> docs_of w' c' = docs_of w c'.
Proof.
  unfold insert_many. intros H.
  apply bind_ok in H as (u & w1 & Hrec & H).
  unfold record_op in Hrec. injection Hrec as _ <-.
  destruct ds as [| d ds]; [discriminate H |].
  apply bind_ok in H as (enc & w2 & Henc & H).
  apply lift_ok in Henc as [Henc ->].
  apply insert_docs_adds in H as [H1 H2].
  rewrite (encode_all_length _ _ Henc) in H1. split; assumption.
Qed.

(** While every row is valid, the documents written to the data
    collection and the rows still in the buffer add up to the rows read
    so far. *)
Lemma loop_rows_accounted file_id headers dc ec (rows : list (list (value F))) :
  forall i st w st' w',
    error_buffer st = [] ->
    snd (exec (flat_map (row_steps (fun _ => "") file_id headers dc ec)
                 (enumerate i rows)) st w) = (Ok st', w') ->
    error_buffer st' = []
    /\ len (docs_of w' dc) + len (data_buffer st')
       = len (docs_of w dc) + len (data_buffer st) + len rows.
Proof.
  induction rows as [| row rows IH]; intros i st w st' w' He H.
  - cbn in H. injection H as <- <-. split; [exact He |].
    change (len (@nil (list (value F)))) with 0. lia.
  - destruct (append_row_ok (fun _ => "") file_id headers i row st w)
      as (st1 & H1 & _ & Hcase1).
    change (row_invalid (fun _ => "") headers row) with false in Hcase1.
    destruct Hcase1 as (_ & _ & He1 & d & Hd1).
    cbn [enumerate flat_map] in H.
    rewrite (exec_row (fun _ => "") file_id headers dc ec _ _ _ _ _ _ H1) in H.
    destruct (flush_data dc st1 (advance w)) as [[st2 | e] w2] eqn:E2;
      [| discriminate H].
    destruct (flush_errors ec st2 w2) as [[st3 | e] w3] eqn:E3;
      [| discriminate H].
    destruct (exec (flat_map (row_steps (fun _ => "") file_id headers dc ec)
                      (enumerate (i + 1) rows)) st3 w3) as [seen r] eqn:E.
    cbn [snd] in H. subst r.
    assert (A2 : error_buffer st2 = []
                 /\ len (docs_of w2 dc) + len (data_buffer st2)
                    = len (docs_of w dc) + len (data_buffer st1)).
    { unfold flush_data in E2.
      destruct (len (data_buffer st1) >=? batch_size).
      - apply bind_ok in E2 as ([] & wi & Hins & E2).
        apply ret_ok in E2 as [-> ->]. cbn [error_buffer data_buffer].
        apply insert_many_adds in Hins as [Hins _].
        split; [now rewrite He1 |].
        rewrite Hins. change (len (@nil (pydict F))) with 0.
        change (docs_of (advance w) dc) with (docs_of w dc). lia.
      - apply ret_ok in E2 as [-> ->]. split; [now rewrite He1 |].
        reflexivity. }
    destruct A2 as [He2 A2].
    assert (A3 : st3 = st2 /\ w3 = w2).
    { unfold flush_errors in E3. rewrite He2 in E3.
      change (len (@nil (pydict F)) >=? batch_size) with false in E3.
      apply ret_ok in E3 as [-> ->]. split; reflexivity. }
    destruct A3 as [-> ->].
    specialize (IH (i + 1) st2 w2 st' w' He2). rewrite E in IH.
    destruct (IH eq_refl) as [IHe IHn]. split; [exact IHe |].
    rewrite IHn, A2, Hd1, len_app, len_cons. lia.
Qed.

(** X13.  After an upload that answers 200, the data collection holds one
    more document for every data row of the sheet (the header row is not
    one of them), provided the rows do not go to the collection of the
    job records: no row is lost or written twice by the batching. *)
Theorem upload_stores_every_row :
  forall (req : upload_request F) (w w' : world F) (p : payload F),
    form_field "data_collection" (req_form req) <> "file_uploads" ->
    upload_excel_file req w = ((p, 200), w') ->
    exists file headers rows,
      req_file req = Some file
      /\ sheet file = Some (headers :: rows)
      /\ len (docs_of w' (form_field "database" (req_form req),
                          form_field "data_collection" (req_form req)))
         = len (docs_of w (form_field "database" (req_form req),
                           form_field "data_collection" (req_form req)))
           + len rows.
Proof.
  intros req w w' p Hne H. unfold upload_excel_file in H.
  apply handle_200 in H.
  apply upload_with_200_steps in H
    as (file & headers & rows & creater & reviewer & y & st & w1 & w2 & w3
        & Hfile & Hsheet & Hins & Hloop & Hrest & Hupd & Hp).
  cbv zeta in *.
  set (db := form_field "database" (req_form req)) in *.
  set (coll := form_field "data_collection" (req_form req)) in *.
  assert (Hc : (db, coll) <> (db, "file_uploads")) by congruence.
  exists file, headers, rows.
  split; [exact Hfile |]. split; [exact Hsheet |].
  (* the job record goes elsewhere *)
  apply insert_one_string_id in Hins as (rest & _ & _ & Hcolls & _ & _).
  pose proof (docs_of_colls _ _ (db, coll) Hcolls) as D1.
  rewrite docs_of_set_docs_other in D1 by exact Hc.
  change (docs_of (advance (advance w)) (db, coll))
    with (docs_of w (db, coll)) in D1.
  (* the loop and the last flush *)
  unfold loop_steps in Hloop.
  apply loop_rows_accounted in Hloop as [He Hn]; [| reflexivity].
  change (len (data_buffer (F := F) start_state)) with 0 in Hn.
  assert (D3 : len (docs_of w3 (db, coll))
               = len (docs_of w2 (db, coll)) + len (data_buffer st)).
  { unfold flush_rest in Hrest. rewrite He in Hrest.
    apply bind_ok in Hrest as ([] & wi & Hd & Hrest).
    apply ret_ok in Hrest as [_ ->].
    destruct (data_buffer st) as [| b bs] eqn:Eb.
    - apply ret_ok in Hd as [_ ->].
      change (len (@nil (pydict F))) with 0. lia.
    - now apply insert_many_adds in Hd as [Hd _]. }
  (* the update of the job record goes elsewhere too *)
  assert (D4 : docs_of w' (db, coll) = docs_of w3 (db, coll)).
  { unfold update_one in Hupd.
    apply bind_ok in Hupd as (u & wa & Hrec & Hupd).
    unfold record_op in Hrec. injection Hrec as _ <-.
    apply bind_ok in Hupd as (u' & wb & Hq & Hupd).
    unfold check_query in Hq.
    destruct (query_error _); [discriminate Hq |].
    apply ret_ok in Hq as [_ ->].
    apply bind_ok in Hupd as (enc & wc & Henc & Hupd).
    apply lift_ok in Henc as [_ ->].
    destruct (existsb _ _) in Hupd; injection Hupd as <-;
      [| reflexivity].
    now rewrite docs_of_set_docs_other by exact Hc. }
  rewrite D4, D3. rewrite D1 in Hn. lia.
Qed.

End RowsStored.

Lemma upload_stores_every_row_witness :
  let request := Sample.budget_upload [Sample.budget_row; Sample.budget_row] in
  exists file headers rows,
    req_file request = Some file
    /\ sheet file = Some (headers :: rows)
    /\ len (docs_of (snd (upload_excel_file request Sample.empty_world))
              (form_field "database" (req_form request),
               form_field "data_collection" (req_form request)))
       = len (docs_of Sample.empty_world
                (form_field "database" (req_form request),
                 form_field "data_collection" (req_form request)))
         + len rows.
Proof.
  intros request.
  eapply (upload_stores_every_row request Sample.empty_world).
  - vm_compute. discriminate.
  - vm_compute. reflexivity.
Defined.

(** ** What a delete removes *)

Section DeleteEffects.
Context {F : Type} {rt : runtime F} {env : environment F} {drv : driver}.

Lemma matches_single k (c : value F) (d : doc F) :
  matches [(k, c)] d = cond_matches k c d.
Proof. unfold matches. cbn. now rewrite andb_true_r. Qed.

Lemma query_error_id (o : N) : query_error (F := F) [("_id", VObjectId o)] = None.
Proof. reflexivity. Qed.

Lemma query_error_file_id (o : N) :
  query_error (F := F) [("fileId", VObjectId o)] = None.
Proof. reflexivity. Qed.

Lemma remove_first_length (q : doc F) (ds : list (doc F)) :
  existsb (matches q) ds = true ->
  len (remove_first q ds) = len ds - 1.
Proof.
  induction ds as [| d ds IH]; [discriminate |].
  cbn [existsb remove_first]. destruct (matches q d); cbn [orb]; intros H.
  - rewrite len_cons. lia.
  - rewrite !len_cons, (IH H). lia.
Qed.

Lemma remove_first_subset (q : doc F) (ds : list (doc F)) d :
  In d (remove_first q ds) -> In d ds.
Proof.
  induction ds as [| d0 ds IH]; [trivial |].
  cbn [remove_first]. destruct (matches q d0); cbn [In]; intuition.
Qed.

Lemma remove_first_keeps (q : doc F) (ds : list (doc F)) d :
  In d ds -> matches q d = false -> In d (remove_first q ds).
Proof.
  induction ds as [| d0 ds IH]; [trivial |].
  cbn [remove_first In]. intros [-> | Hin] Hd.
  - rewrite Hd. now left.
  - destruct (matches q d0); [exact Hin |]. right. now apply IH.
Qed.

(** The delete operation answering 200, statement by statement. *)
Lemma delete_ok_steps (data : doc F) w r w' :
  delete_uploaded_file_body (VDict data) w = (Ok r, w') ->
  snd r = 200 ->
  exists db fc dcoll o file_doc,
    py_strip (get_default "database" (VStr "") data) = Ok db
    /\ py_strip (get_default "file_collection" (VStr "") data) = Ok fc
    /\ py_strip (get_default "data_collection" (VStr "") data) = Ok dcoll
    /\ object_id (get_default "fileId" VNone data) = Ok o
    /\ List.find (matches [("_id", VObjectId o)]) (docs_of w (db, fc))
       = Some file_doc
    /\ exists n w1,
         delete_many (db, dcoll) [("fileId", VObjectId o)] w = (Ok n, w1)
         /\ delete_one (db, fc) [("_id", VObjectId o)] w1 = (Ok tt, w')
         /\ r = (PJson (VDict [("message", VStr "File deleted successfully");
                               ("rowsDeleted", VInt n)]), 200).
Proof.
  unfold delete_uploaded_file_body. intros H Hs.
  apply bind_ok in H as (data' & w0 & Hd & H).
  apply lift_ok in Hd as [Hd ->]. injection Hd as <-.
  apply bind_ok in H as (db & w0 & Hdb & H). apply lift_ok in Hdb as [Hdb ->].
  apply bind_ok in H as (fc & w0 & Hfc & H). apply lift_ok in Hfc as [Hfc ->].
  apply bind_ok in H as (dcoll & w0 & Hdc & H).
  apply lift_ok in Hdc as [Hdc ->].
  destruct (negb _) in H.
  { apply jsonify_ok in H as (-> & _). discriminate Hs. }
  apply bind_ok in H as (c1 & w0 & Hn1 & H). apply lift_ok in Hn1 as [Hn1 ->].
  apply named_collection_ok in Hn1 as [-> _].
  apply bind_ok in H as (c2 & w0 & Hn2 & H). apply lift_ok in Hn2 as [Hn2 ->].
  apply named_collection_ok in Hn2 as [-> _].
  apply bind_ok in H as (o & w0 & Ho & H). apply lift_ok in Ho as [Ho ->].
  apply bind_ok in H as (file_doc & w0 & Hfind & H).
  unfold find_one, check_query in Hfind. rewrite query_error_id in Hfind.
  apply bind_ok in Hfind as (u & wq & Hq & Hfind).
  apply ret_ok in Hq as [_ ->]. injection Hfind as <- <-.
  destruct (List.find _ _) as [fd |] eqn:Efind.
  2:{ apply jsonify_ok in H as (-> & _). discriminate Hs. }
  apply bind_ok in H as (n & w1 & Hmany & H).
  apply bind_ok in H as ([] & w2 & Hone & H).
  apply jsonify_ok in H as (-> & -> & _).
  exists db, fc, dcoll, o, fd. repeat (split; [assumption |]).
  exists n, w1. repeat split; assumption.
Qed.

Lemma delete_many_ok c (q : doc F) w n w' :
  delete_many c q w = (Ok n, w') ->
  n = len (filter (matches q) (docs_of w c))
  /\ docs_of w' c = filter (fun d => negb (matches q d)) (docs_of w c)
  /\ (forall c', c' <> c -> docs_of w' c' = docs_of w c')
  /\ journal w' = (journal w ++ [WDeleteMany c q])%list.
Proof.
  unfold delete_many. intros H.
  apply bind_ok in H as (u & w1 & Hrec & H).
  unfold record_op in Hrec. injection Hrec as _ <-.
  apply bind_ok in H as (u' & w2 & Hq & H).
  unfold check_query in Hq. destruct (query_error q); [discriminate Hq |].
  apply ret_ok in Hq as [_ ->].
  match type of H with
  | context [docs_of ?w0 c] => change (docs_of w0 c) with (docs_of w c) in H
  end.
  destruct (filter (matches q) (docs_of w c)) as [| h hs] eqn:Ef.
  - injection H as <- <-. split; [reflexivity |]. split; [| split].
    + change (docs_of _ c) with (docs_of w c).
      symmetry. apply forallb_filter_id.
      apply forallb_forall. intros x Hx.
      destruct (matches q x) eqn:Ex; [| reflexivity].
      assert (Hin : In x (filter (matches q) (docs_of w c)))
        by (apply filter_In; now split).
      rewrite Ef in Hin. contradiction.
    + reflexivity.
    + reflexivity.
  - injection H as <- <-. split; [reflexivity |]. split; [| split].
    + apply docs_of_set_docs_same.
    + intros c' Hne. now rewrite docs_of_set_docs_other.
    + reflexivity.
Qed.

Lemma delete_one_ok c (q : doc F) w w' :
  delete_one c q w = (Ok tt, w') ->
  docs_of w' c
  = (if existsb (matches q) (docs_of w c)
     then remove_first q (docs_of w c) else docs_of w c)
  /\ (forall c', c' <> c -> docs_of w' c' = docs_of w c')
  /\ journal w' = (journal w ++ [WDeleteOne c q])%list.
Proof.
  unfold delete_one. intros H.
  apply bind_ok in H as (u & w1 & Hrec & H).
  unfold record_op in Hrec. injection Hrec as _ <-.
  apply bind_ok in H as (u' & w2 & Hq & H).
  unfold check_query in Hq. destruct (query_error q); [discriminate Hq |].
  apply ret_ok in Hq as [_ ->].
  match type of H with
  | context [docs_of ?w0 c] => change (docs_of w0 c) with (docs_of w c) in H
  end.
  destruct (existsb (matches q) (docs_of w c)); injection H as <-.
  - split; [apply docs_of_set_docs_same |]. split; [| reflexivity].
    intros c' Hne. now rewrite docs_of_set_docs_other.
  - repeat split.
Qed.

Lemma bind_lift {A B} (r : result A) (k : A -> M F B) w :
  bind (lift r) k w
  = match r with
    | Ok a => k a w
    | Raise e => (Raise e, w)
    end.
Proof. destruct r; reflexivity. Qed.

Lemma bind_run {A B} (m : M F A) (k : A -> M F B) w a w1 :
  m w = (Ok a, w1) -> bind m k w = k a w1.
Proof. intros H. unfold bind. now rewrite H. Qed.

Lemma find_one_by_id c (o : N) (w : world F) :
  find_one c [("_id", VObjectId o)] w
  = (Ok (List.find (matches [("_id", VObjectId o)]) (docs_of w c)), w).
Proof. reflexivity. Qed.

Lemma delete_many_runs c (q : doc F) w :
  query_error q = None -> exists n w1, delete_many c q w = (Ok n, w1).
Proof.
  intros Hq. unfold delete_many, bind, record_op, check_query.
  rewrite Hq. unfold ret. destruct (filter _ _); eexists _, _; reflexivity.
Qed.

Lemma delete_one_runs c (q : doc F) w :
  query_error q = None -> exists w1, delete_one c q w = (Ok tt, w1).
Proof.
  intros Hq. unfold delete_one, bind, record_op, check_query.
  rewrite Hq. unfold ret. destruct (existsb _ _); eexists; reflexivity.
Qed.

(** Either the body of the delete leaves the store alone and does not
    answer 200, or it answers 200. *)
Lemma delete_body_cases (body : value F) (w : world F) :
  (snd (delete_uploaded_file_body body w) = w
   /\ forall r, fst (delete_uploaded_file_body body w) = Ok r -> snd r <> 200)
  \/ exists p, fst (delete_uploaded_file_body body w) = Ok (p, 200).
Proof.
  unfold delete_uploaded_file_body.
  rewrite bind_lift. destruct (as_dict body) as [data | e];
    [| left; split; [reflexivity | discriminate]].
  rewrite bind_lift.
  destruct (py_strip (get_default "database" (VStr "") data)) as [db | e];
    [| left; split; [reflexivity | discriminate]].
  rewrite bind_lift.
  destruct (py_strip (get_default "file_collection" (VStr "") data))
    as [fc | e]; [| left; split; [reflexivity | discriminate]].
  rewrite bind_lift.
  destruct (py_strip (get_default "data_collection" (VStr "") data))
    as [dcoll | e]; [| left; split; [reflexivity | discriminate]].
  destruct (negb _).
  { left. split; [reflexivity |]. intros r Hr. injection Hr as <-.
    cbn. lia. }
  rewrite bind_lift.
  destruct (named_collection db fc) as [c1 | e] eqn:Hn1;
    [| left; split; [reflexivity | discriminate]].
  apply named_collection_ok in Hn1 as [-> _].
  rewrite bind_lift.
  destruct (named_collection db dcoll) as [c2 | e] eqn:Hn2;
    [| left; split; [reflexivity | discriminate]].
  apply named_collection_ok in Hn2 as [-> _].
  rewrite bind_lift.
  destruct (object_id (get_default "fileId" VNone data)) as [o | e];
    [| left; split; [reflexivity | discriminate]].
  rewrite (bind_run _ _ _ _ _ (find_one_by_id _ o w)).
  destruct (List.find _ _).
  2:{ left. split; [reflexivity |]. intros r Hr. injection Hr as <-.
      cbn. lia. }
  right.
  destruct (delete_many_runs (db, dcoll) _ w (query_error_file_id o))
    as (n & w1 & Hmany).
  destruct (delete_one_runs (db, fc) _ w1 (query_error_id o)) as (w2 & Hone).
  rewrite (bind_run _ _ _ _ _ Hmany), (bind_run _ _ _ _ _ Hone).
  eexists. reflexivity.
Qed.

Lemma handle_snd (body : M F (response F)) (w : world F) :
  snd (handle body w) = snd (body w).
Proof. unfold handle. now destruct (body w) as [[r | e] w']. Qed.

(** X14.  A delete changes the store only when it answers 200: with any other
    answer (a missing field, an identifier that is not an ObjectId, a
    file that is not found) the store is as before. *)
Theorem delete_changes_only_on_success :
  forall (body : value F) (w : world F),
    status_of (delete_uploaded_file body w) <> 200 ->
    snd (delete_uploaded_file body w) = w.
Proof.
  intros body w.
  unfold delete_uploaded_file, handle, status_of.
  destruct (delete_body_cases body w) as [[Hw Hs] | [p Hp]].
  - destruct (delete_uploaded_file_body body w) as [[r | e] w'];
      cbn [fst snd] in *; intros _; exact Hw.
  - destruct (delete_uploaded_file_body body w) as [[r | e] w'];
      cbn [fst snd] in *; [| discriminate Hp].
    injection Hp as ->. cbn. intros H. now destruct H.
Qed.

(** X15.  A delete that answers 200 reports as [rowsDeleted] the number of
    documents of the data collection whose [fileId] is the ObjectId of
    the request, leaves none of them in the data collection, and issues
    two writes: the removal of the rows, then the removal of the file
    record. *)
Theorem delete_removes_rows_then_file :
  forall (data : doc F) (w w' : world F) (v : value F),
    delete_uploaded_file (VDict data) w = ((PJson v, 200), w') ->
    exists db fc dcoll o,
      py_strip (get_default "database" (VStr "") data) = Ok db
      /\ py_strip (get_default "file_collection" (VStr "") data) = Ok fc
      /\ py_strip (get_default "data_collection" (VStr "") data) = Ok dcoll
      /\ object_id (get_default "fileId" VNone data) = Ok o
      /\ v = VDict [("message", VStr "File deleted successfully");
                    ("rowsDeleted",
                     VInt (len (filter (matches [("fileId", VObjectId o)])
                                  (docs_of w (db, dcoll)))))]
      /\ (forall d, In d (docs_of w' (db, dcoll)) ->
                    matches [("fileId", VObjectId o)] d = false)
      /\ (fc <> dcoll ->
          len (docs_of w' (db, fc)) = len (docs_of w (db, fc)) - 1)
      /\ journal w'
         = (journal w ++ [WDeleteMany (db, dcoll) [("fileId", VObjectId o)];
                          WDeleteOne (db, fc) [("_id", VObjectId o)]])%list.
Proof.
  intros data w w' v H. unfold delete_uploaded_file in H.
  apply handle_200 in H.
  apply delete_ok_steps in H
    as (db & fc & dcoll & o & file_doc & Hdb & Hfc & Hdc & Ho & Hfind
        & n & w1 & Hmany & Hone & Hr); [| reflexivity].
  injection Hr as ->.
  apply delete_many_ok in Hmany as (-> & Dm & Dm' & Jm).
  apply delete_one_ok in Hone as (Do & Do' & Jo).
  exists db, fc, dcoll, o. repeat (split; [assumption |]).
  split; [reflexivity |]. split; [| split].
  - intros d Hin.
    assert (Hin1 : In d (docs_of w1 (db, dcoll))).
    { destruct (coll_ref_eq_dec (db, dcoll) (db, fc)) as [E | Hne].
      - rewrite E in *. rewrite Do in Hin.
        destruct (existsb _ _); [| exact Hin].
        now apply remove_first_subset in Hin.
      - now rewrite Do' in Hin. }
    rewrite Dm in Hin1. apply filter_In in Hin1 as [_ Hneg].
    now apply negb_true_iff in Hneg.
  - intros Hne. assert (Hc : (db, fc) <> (db, dcoll)) by congruence.
    rewrite Do, (Dm' _ Hc).
    apply find_some in Hfind as [Hin Hm].
    assert (E : existsb (matches [("_id", VObjectId o)]) (docs_of w (db, fc))
                = true).
    { apply existsb_exists. now exists file_doc. }
    rewrite E. now apply remove_first_length.
  - rewrite Jo, Jm, <- app_assoc. reflexivity.
Qed.

Lemma cond_matches_oid_plain k o (d : doc F) :
  str_has_char "."%char k || str_has_char "$"%char k = false ->
  plain_field k d ->
  cond_matches k (VObjectId o) d = false.
Proof.
  intros Hk Hp. unfold cond_matches, classify. rewrite Hk.
  unfold plain_field in Hp.
  destruct (get k d) as [[] |]; try reflexivity; contradiction.
Qed.

(** X16.  No delete request removes a document whose [_id] and [fileId] are
    neither ObjectIds nor arrays, in any collection: the job records and
    the row records written by an upload, whose [_id] and [fileId] are the
    string of a UUID, are out of the reach of the delete operation. *)
Theorem delete_keeps_string_keyed_documents :
  forall (body : value F) (w : world F) (c : coll_ref) (d : doc F),
    plain_field "_id" d ->
    plain_field "fileId" d ->
    In d (docs_of w c) ->
    In d (docs_of (snd (delete_uploaded_file body w)) c).
Proof.
  intros body w c d Pid Pfile Hin.
  unfold delete_uploaded_file. rewrite handle_snd.
  destruct (delete_body_cases body w) as [[Hw _] | [p Hp]].
  { now rewrite Hw. }
  destruct (delete_uploaded_file_body body w) as [[r | e] w'] eqn:Ed;
    cbn [fst snd] in *; [| discriminate Hp].
  injection Hp as ->.
  destruct body; try discriminate Ed.
  apply delete_ok_steps in Ed
    as (db & fc & dcoll & o & file_doc & _ & _ & _ & _ & _
        & n & w1 & Hmany & Hone & _); [| reflexivity].
  apply delete_many_ok in Hmany as (_ & Dm & Dm' & _).
  apply delete_one_ok in Hone as (Do & Do' & _).
  assert (M1 : matches [("fileId", VObjectId o)] d = false).
  { rewrite matches_single. now apply cond_matches_oid_plain. }
  assert (M2 : matches [("_id", VObjectId o)] d = false).
  { rewrite matches_single. now apply cond_matches_oid_plain. }
  assert (Hin1 : In d (docs_of w1 c)).
  { destruct (coll_ref_eq_dec c (db, dcoll)) as [-> | Hc].
    - rewrite Dm. apply filter_In. split; [exact Hin |]. now rewrite M1.
    - now rewrite Dm'. }
  destruct (coll_ref_eq_dec c (db, fc)) as [-> | Hc].
  - rewrite Do. destruct (existsb _ _); [| exact Hin1].
    now apply remove_first_keeps.
  - now rewrite Do'.
Qed.

End DeleteEffects.

(** ** The text of an ObjectId *)

Section ObjectIdText.
Context {F : Type}.

Lemma hex_digit_cases (d : N) :
  (d < 16)%N -> In d (map N.of_nat (seq 0 16)).
Proof.
  intros H. apply in_map_iff. exists (N.to_nat d). split; [lia |].
  apply in_seq. lia.
Qed.

Lemma hex_val_hex_char (d : N) :
  (d < 16)%N -> Ident.hex_val (Ident.hex_char d) = Some d.
Proof.
  intros H. pose proof (hex_digit_cases d H) as Hc. cbn in Hc.
  repeat (destruct Hc as [<- | Hc]; [reflexivity |]).
  contradiction.
Qed.

Lemma hex_char_not_space (d : N) :
  (d < 16)%N -> Ident.is_hex_space (Ident.hex_char d) = false.
Proof.
  intros H. pose proof (hex_digit_cases d H) as Hc. cbn in Hc.
  repeat (destruct Hc as [<- | Hc]; [reflexivity |]).
  contradiction.
Qed.

(** The digits from the most significant one. *)
Lemma hex_digits_front (k : nat) :
  forall (n : N) (acc : string),
    Ident.hex_digits (S k) n acc
    = String (Ident.hex_char ((n / 16 ^ N.of_nat k) mod 16)%N)
        (Ident.hex_digits k n acc).
Proof.
  induction k as [| k IH]; intros n acc.
  - cbn [Ident.hex_digits]. change (16 ^ N.of_nat 0)%N with 1%N.
    now rewrite N.div_1_r.
  - change (Ident.hex_digits (S (S k)) n acc)
      with (Ident.hex_digits (S k) (n / 16)%N
              (String (Ident.hex_char (n mod 16)%N) acc)).
    rewrite IH. cbn [Ident.hex_digits]. f_equal. f_equal. f_equal.
    rewrite Nat2N.inj_succ, N.pow_succ_r', N.Div0.div_div. reflexivity.
Qed.

Lemma pow_16_256 (k : nat) : (16 ^ N.of_nat (k + k) = 256 ^ N.of_nat k)%N.
Proof.
  rewrite Nat2N.inj_add.
  replace (N.of_nat k + N.of_nat k)%N with (2 * N.of_nat k)%N by lia.
  now rewrite N.pow_mul_r.
Qed.

(** An even number of digits of [n] is read back by [bytes.fromhex] as
    the bytes of [n]. *)
Lemma fromhex_hex_digits (k : nat) (n : N) :
  exists bs,
    Ident.fromhex (Ident.hex_digits (k + k) n "") = Some bs
    /\ List.length bs = k
    /\ Ident.be_value bs = (n mod 256 ^ N.of_nat k)%N.
Proof.
  induction k as [| k (bs & Hbs & Hlen & Hval)].
  - exists []. repeat split. cbn. now rewrite N.mod_1_r.
  - replace (S k + S k)%nat with (S (S (k + k))) by lia.
    rewrite hex_digits_front, hex_digits_front.
    cbn [Ident.fromhex].
    rewrite hex_char_not_space, !hex_val_hex_char
      by (apply N.mod_lt; lia).
    rewrite Hbs. cbn [option_map]. eexists. split; [reflexivity |].
    split; [cbn [List.length]; now rewrite Hlen |].
    cbn [Ident.be_value]. rewrite Hlen, Hval.
    rewrite Nat2N.inj_succ, N.pow_succ_r', pow_16_256.
    set (p := (256 ^ N.of_nat k)%N).
    assert (Hp : (p <> 0)%N) by (apply N.pow_nonzero; lia).
    replace (n / (16 * p))%N with (n / p / 16)%N
      by (rewrite N.Div0.div_div; f_equal; lia).
    assert (E : (256 ^ N.of_nat (S k) = p * 256)%N).
    { rewrite Nat2N.inj_succ, N.pow_succ_r'. subst p. lia. }
    rewrite E, (N.Div0.mod_mul_r n p 256).
    change 256%N with (16 * 16)%N.
    rewrite (N.Div0.mod_mul_r (n / p) 16 16). lia.
Qed.

Lemma object_id_of_text (o : N) :
  (o < 2 ^ 96)%N -> object_id (F := F) (VStr (Ident.str_of_oid o)) = Ok o.
Proof.
  intros H. unfold object_id, Ident.str_of_oid.
  rewrite (proj2 (N.ltb_lt _ _) H). unfold Ident.hex.
  rewrite hex_digits_length. cbn [String.length Nat.add Nat.eqb].
  destruct (fromhex_hex_digits 12 o) as (bs & Hbs & Hlen & Hval).
  change (12 + 12)%nat with 24%nat in Hbs. rewrite Hbs.
  unfold Ident.oid_of_bytes. rewrite Hlen. cbn [Nat.eqb].
  rewrite Hval, N.mod_small; [reflexivity |].
  change (256 ^ N.of_nat 12)%N with (2 ^ 96)%N. exact H.
Qed.

End ObjectIdText.

From Stdlib Require Import Permutation.

(** ** Creating, fetching and deleting products *)

Section ProductFacts.
Context {F : Type} {rt : runtime F} {env : environment F} {drv : driver}.

Lemma handle_ok (body : M F (response F)) w p s w' :
  s <> 500 -> handle body w = ((p, s), w') -> body w = (Ok (p, s), w').
Proof.
  intros Hs H. unfold handle in H.
  destruct (body w) as [[r | e] w1].
  - now inversion H.
  - inversion H. congruence.
Qed.

Lemma first_missing_none (fields : list string) (data : doc F) :
  first_missing fields data = None ->
  forall f, In f fields ->
    exists v, get f data = Some v /\ truthy v = true.
Proof.
  induction fields as [| g fields IH]; intros H f Hin; [contradiction |].
  cbn [first_missing] in H.
  destruct (truthy (get_default g VNone data)) eqn:Et; cbn [negb] in H;
    [| discriminate].
  destruct Hin as [<- | Hin]; [| now apply IH].
  unfold get_default in Et. destruct (get g data) as [v |].
  - now exists v.
  - discriminate.
Qed.

Lemma first_missing_found (pre post : list string) (f : string) (data : doc F) :
  Forall (fun g => truthy (get_default g VNone data) = true) pre ->
  truthy (get_default f VNone data) = false ->
  first_missing (pre ++ f :: post) data = Some f.
Proof.
  intros Hpre Hf. induction Hpre as [| g pre Hg _ IH]; cbn [app first_missing].
  - now rewrite Hf.
  - now rewrite Hg.
Qed.

(** The request as the handler reads it, once the required fields are
    there. *)
Lemma create_product_fields (data : doc F) :
  first_missing required_fields data = None ->
  exists category sku name active country,
    get "category" data = Some category
    /\ get "sku" data = Some sku
    /\ get "productName" data = Some name
    /\ get "active" data = Some active
    /\ get "country" data = Some country.
Proof.
  intros H.
  destruct (first_missing_none _ _ H "category") as (v1 & H1 & _);
    [cbn; tauto |].
  destruct (first_missing_none _ _ H "sku") as (v2 & H2 & _); [cbn; tauto |].
  destruct (first_missing_none _ _ H "productName") as (v3 & H3 & _);
    [cbn; tauto |].
  destruct (first_missing_none _ _ H "active") as (v4 & H4 & _);
    [cbn; tauto |].
  destruct (first_missing_none _ _ H "country") as (v5 & H5 & _);
    [cbn; tauto |].
  now exists v1, v2, v3, v4, v5.
Qed.

(** The body of [create_product] from the duplicate check on. *)
Lemma create_product_checked (data : doc F) db coll w
      category sku name active country :
  py_strip (get_default "database" (VStr "") data) = Ok db ->
  py_strip (get_default "collection" (VStr "") data) = Ok coll ->
  first_missing required_fields data = None ->
  get "category" data = Some category ->
  get "sku" data = Some sku ->
  get "productName" data = Some name ->
  get "active" data = Some active ->
  get "country" data = Some country ->
  create_product_body (VDict data) w
  = (collection <- lift (named_collection db coll) ;;
     existing <- find_one collection [("sku", sku)] ;;
     match existing with
     | Some (_ :: _) =>
         jsonify (VDict [("error", VStr "SKU must be unique")]) 400
     | _ =>
         inserted_id <- insert_one_id collection
           [(VStr "category", category);
            (VStr "sku", sku);
            (VStr "productName", name);
            (VStr "description", get_default "description" (VStr "") data);
            (VStr "active", active);
            (VStr "country", country);
            (VStr "productLabel", get_default "productLabel" VNone data);
            (VStr "createdAt", VDatetime (time_at (moment w)))] ;;
         jsonify (VDict [("message", VStr "Product created successfully");
                         ("inserted_id", VStr (py_str inserted_id))]) 201
     end) (advance w).
Proof.
  intros Hdb Hcoll Hmiss H1 H2 H3 H4 H5.
  unfold create_product_body. cbn [as_dict].
  rewrite bind_lift, bind_lift, Hdb, bind_lift, Hcoll, Hmiss.
  unfold subscript. rewrite H1, H2, H3, H4, H5.
  rewrite !bind_lift. reflexivity.
Qed.

(** X17.  [create_product] answers 400, naming the field, for the first
    required field that is missing or falsy, and leaves the store
    alone; a product whose [active] is [false] is refused this way. *)
Theorem create_product_requires_fields :
  forall (data : doc F) (pre post : list string) (f db coll : string)
         (w : world F),
    py_strip (get_default "database" (VStr "") data) = Ok db ->
    py_strip (get_default "collection" (VStr "") data) = Ok coll ->
    required_fields = (pre ++ f :: post)%list ->
    Forall (fun g => truthy (get_default g VNone data) = true) pre ->
    truthy (get_default f VNone data) = false ->
    create_product (VDict data) w
    = ((PJson (VDict [("error", VStr ("'" ++ f ++ "' is required"))]), 400), w).
Proof.
  intros data pre post f db coll w Hdb Hcoll Hreq Hpre Hf.
  unfold create_product, handle, create_product_body. cbn [as_dict].
  rewrite bind_lift, bind_lift, Hdb, bind_lift, Hcoll, Hreq.
  rewrite (first_missing_found pre post f data Hpre Hf).
  reflexivity.
Qed.

(** X18.  [create_product] answers 400 [SKU must be unique] when the
    collection already holds a document with the same text as [sku],
    and then no document is written. *)
Theorem create_product_duplicate_sku :
  forall (data : doc F) (db coll s : string) (d : doc F) (w : world F),
    py_strip (get_default "database" (VStr "") data) = Ok db ->
    py_strip (get_default "collection" (VStr "") data) = Ok coll ->
    first_missing required_fields data = None ->
    invalid_name db coll = None ->
    get "sku" data = Some (VStr s) ->
    In d (docs_of w (db, coll)) ->
    get "sku" d = Some (VStr s) ->
    fst (create_product (VDict data) w)
    = (PJson (VDict [("error", VStr "SKU must be unique")]), 400)
    /\ colls (snd (create_product (VDict data) w)) = colls w
    /\ journal (snd (create_product (VDict data) w)) = journal w.
Proof.
  intros data db coll s d w Hdb Hcoll Hmiss Hname Hsku Hin Hd.
  destruct (create_product_fields data Hmiss)
    as (v1 & v2 & v3 & v4 & v5 & H1 & H2 & H3 & H4 & H5).
  rewrite Hsku in H2. injection H2 as <-.
  unfold create_product, handle.
  rewrite (create_product_checked data db coll w _ _ _ _ _
             Hdb Hcoll Hmiss H1 Hsku H3 H4 H5).
  unfold named_collection. rewrite Hname, bind_lift.
  assert (Hfind : exists d', List.find (matches [("sku", VStr s)])
                               (docs_of (advance w) (db, coll)) = Some d'
                             /\ exists v, get "sku" d' = Some v).
  { rewrite docs_of_advance.
    destruct (List.find (matches [("sku", VStr s)]) (docs_of w (db, coll)))
      as [d' |] eqn:Ef.
    - exists d'. split; [reflexivity |].
      apply find_some in Ef as [_ Hm].
      unfold matches in Hm. cbn [forallb fst snd] in Hm.
      rewrite andb_true_r in Hm. unfold cond_matches in Hm.
      destruct (get "sku" d') as [v |]; [now exists v |].
      cbn in Hm. discriminate.
    - exfalso. apply (find_none _ _ Ef) in Hin.
      unfold matches in Hin. cbn [forallb fst snd] in Hin.
      rewrite andb_true_r in Hin. unfold cond_matches in Hin.
      rewrite Hd in Hin. cbn in Hin.
      rewrite String.eqb_refl in Hin. discriminate. }
  destruct Hfind as (d' & Hfind & v & Hv).
  assert (Hrun : find_one (db, coll) [("sku", VStr s)] (advance w)
                 = (Ok (Some d'), advance w)).
  { unfold find_one, bind, check_query. cbn. now rewrite Hfind. }
  rewrite (bind_run _ _ _ _ _ Hrun).
  destruct d' as [| kv rest]; [discriminate |].
  cbn. repeat split.
Qed.

Lemma insert_one_id_fresh c (pd : pydict F) (e : doc F) w id w' :
  encode pd = Ok e -> get "_id" e = None ->
  insert_one_id c pd w = (Ok id, w') ->
  id = VObjectId (oid_at (moment w))
  /\ existsb (cond_matches "_id" id) (docs_of w c) = false
  /\ w' = set_docs c (docs_of w c ++ [dict_set String.eqb "_id" id e])
            (advance {| colls := colls w; moment := moment w;
                        journal := journal w ++ [WInsertOne c pd] |}).
Proof.
  intros Henc Hnone H. unfold insert_one_id in H.
  apply bind_ok in H as ([] & w1 & Hrec & H).
  unfold record_op in Hrec. injection Hrec as <-.
  rewrite bind_lift, Henc, Hnone in H.
  apply bind_ok in H as ([id1 e1] & w2 & Hid & H).
  apply bind_ok in Hid as (id2 & w3 & Hfresh & Hid).
  unfold fresh_oid in Hfresh. injection Hfresh as <- <-.
  apply ret_ok in Hid as [Hid ->]. injection Hid as -> ->.
  cbn [fst snd moment] in *.
  apply bind_ok in H as ([] & w4 & Hins & H).
  apply ret_ok in H as [-> ->].
  unfold insert_doc in Hins. rewrite get_dict_set_same in Hins.
  unfold bind, ret in Hins. cbn [fst snd] in Hins.
  match type of Hins with
  | (if ?b then _ else _) = _ => destruct b eqn:Eb
  end; [discriminate Hins |].
  injection Hins as <-. split; [reflexivity |]. split; [exact Eb |].
  reflexivity.
Qed.

Lemma create_product_ok_inv (body : value F) w r w' :
  create_product_body body w = (Ok r, w') ->
  exists data db coll,
    body = VDict data
    /\ py_strip (get_default "database" (VStr "") data) = Ok db
    /\ py_strip (get_default "collection" (VStr "") data) = Ok coll.
Proof.
  intros H. unfold create_product_body in H.
  rewrite bind_lift in H.
  destruct body as [| | | | | | data | |]; cbn [as_dict] in H;
    try discriminate H.
  rewrite bind_lift in H.
  destruct (py_strip (get_default "database" (VStr "") data)) as [db |] eqn:Hdb;
    [| discriminate H].
  rewrite bind_lift in H.
  destruct (py_strip (get_default "collection" (VStr "") data))
    as [coll |] eqn:Hcoll; [| discriminate H].
  now exists data, db, coll.
Qed.

(** What an answer 201 of [create_product] says about the request and
    the store. *)
Lemma create_product_201 (body : value F) w p w' :
  create_product body w = ((p, 201), w') ->
  exists data db coll category sku name active country,
    body = VDict data
    /\ py_strip (get_default "database" (VStr "") data) = Ok db
    /\ py_strip (get_default "collection" (VStr "") data) = Ok coll
    /\ get "category" data = Some category
    /\ get "sku" data = Some sku
    /\ get "productName" data = Some name
    /\ get "active" data = Some active
    /\ get "country" data = Some country
    /\ p = PJson (VDict [("message", VStr "Product created successfully");
                         ("inserted_id",
                          VStr (Ident.str_of_oid (oid_at (S (moment w)))))])
    /\ existsb (cond_matches "_id" (VObjectId (oid_at (S (moment w)))))
         (docs_of w (db, coll)) = false
    /\ docs_of w' (db, coll)
       = (docs_of w (db, coll)
          ++ [[("category", category); ("sku", sku); ("productName", name);
               ("description", get_default "description" (VStr "") data);
               ("active", active); ("country", country);
               ("productLabel", get_default "productLabel" VNone data);
               ("createdAt", VDatetime (time_at (moment w)));
               ("_id", VObjectId (oid_at (S (moment w))))]])%list
    /\ (forall c, c <> (db, coll) -> docs_of w' c = docs_of w c).
Proof.
  intros H. apply handle_ok in H; [| discriminate].
  destruct (create_product_ok_inv _ _ _ _ H)
    as (data & db & coll & -> & Hdb & Hcoll).
  exists data, db, coll.
  destruct (first_missing required_fields data) as [f |] eqn:Hmiss.
  { unfold create_product_body in H. cbn [as_dict] in H.
    rewrite bind_lift, bind_lift, Hdb, bind_lift, Hcoll, Hmiss in H.
    apply jsonify_ok in H as (Hr & _). discriminate Hr. }
  destruct (create_product_fields data Hmiss)
    as (v1 & v2 & v3 & v4 & v5 & H1 & H2 & H3 & H4 & H5).
  exists v1, v2, v3, v4, v5.
  rewrite (create_product_checked data db coll w _ _ _ _ _
             Hdb Hcoll Hmiss H1 H2 H3 H4 H5) in H.
  apply bind_ok in H as (c & w1 & Hc & H).
  apply lift_ok in Hc as [Hc ->]. unfold named_collection in Hc.
  destruct (invalid_name db coll); [discriminate Hc |]. injection Hc as <-.
  apply bind_ok in H as (existing & w2 & Hfind & H).
  assert (Hw2 : w2 = advance w).
  { unfold find_one in Hfind. apply bind_ok in Hfind as ([] & w3 & Hq & Hfind).
    unfold check_query in Hq. destruct (query_error _); [discriminate Hq |].
    apply ret_ok in Hq as [_ ->]. now injection Hfind as _ <-. }
  subst w2.
  assert (Hins : exists id,
             insert_one_id (db, coll)
               [(VStr "category", v1); (VStr "sku", v2);
                (VStr "productName", v3);
                (VStr "description", get_default "description" (VStr "") data);
                (VStr "active", v4); (VStr "country", v5);
                (VStr "productLabel", get_default "productLabel" VNone data);
                (VStr "createdAt", VDatetime (time_at (moment w)))]
               (advance w) = (Ok id, w')
             /\ p = PJson (VDict [("message", VStr "Product created successfully");
                                  ("inserted_id", VStr (py_str id))])).
  { destruct existing as [[| kv rest] |].
    - apply bind_ok in H as (id & w3 & Hins & H).
      apply jsonify_ok in H as (Hr & -> & _). injection Hr as ->.
      now exists id.
    - apply jsonify_ok in H as (Hr & _). discriminate Hr.
    - apply bind_ok in H as (id & w3 & Hins & H).
      apply jsonify_ok in H as (Hr & -> & _). injection Hr as ->.
      now exists id. }
  destruct Hins as (id & Hins & ->).
  eapply insert_one_id_fresh in Hins as (-> & Hfree & ->);
    [| reflexivity | reflexivity].
  cbn [moment advance] in *.
  repeat (split; [first [eassumption | reflexivity | exact Hfree] |]).
  split.
  - rewrite docs_of_set_docs_same. reflexivity.
  - intros c Hc. now rewrite docs_of_set_docs_other.
Qed.

(** X19.  An answer 201 of [create_product] means that one document was
    appended to the named collection and to no other, that it carries
    the fields of the request, the time of the call and a fresh
    ObjectId, and that [inserted_id] is the text of that ObjectId. *)
Theorem create_product_stores_product :
  forall (body : value F) (w w' : world F) (p : payload F),
    create_product body w = ((p, 201), w') ->
    exists data db coll o d,
      body = VDict data
      /\ py_strip (get_default "database" (VStr "") data) = Ok db
      /\ py_strip (get_default "collection" (VStr "") data) = Ok coll
      /\ p = PJson (VDict [("message", VStr "Product created successfully");
                           ("inserted_id", VStr (Ident.str_of_oid o))])
      /\ docs_of w' (db, coll) = (docs_of w (db, coll) ++ [d])%list
      /\ (forall c, c <> (db, coll) -> docs_of w' c = docs_of w c)
      /\ get "_id" d = Some (VObjectId o)
      /\ id_unused w (db, coll) (VObjectId o)
      /\ get "category" d = get "category" data
      /\ get "sku" d = get "sku" data
      /\ get "productName" d = get "productName" data
      /\ get "active" d = get "active" data
      /\ get "country" d = get "country" data
      /\ get "description" d = Some (get_default "description" (VStr "") data)
      /\ get "productLabel" d = Some (get_default "productLabel" VNone data)
      /\ get "createdAt" d = Some (VDatetime (time_at (moment w))).
Proof.
  intros body w w' p H.
  destruct (create_product_201 _ _ _ _ H)
    as (data & db & coll & v1 & v2 & v3 & v4 & v5 & -> & Hdb & Hcoll
        & H1 & H2 & H3 & H4 & H5 & -> & Hfree & Hdocs & Hother).
  exists data, db, coll, (oid_at (S (moment w))).
  eexists. split; [reflexivity |]. split; [exact Hdb |].
  split; [exact Hcoll |]. split; [reflexivity |].
  split; [exact Hdocs |]. split; [exact Hother |].
  rewrite H1, H2, H3, H4, H5. unfold id_unused.
  repeat (split; [first [exact Hfree | reflexivity] |]). reflexivity.
Qed.

Lemma str_of_oid_truthy (o : N) :
  (o < 2 ^ 96)%N -> truthy (F := F) (VStr (Ident.str_of_oid o)) = true.
Proof.
  intros Ho. cbn [truthy]. rewrite eqb_empty_false; [reflexivity |].
  intros H. assert (Hl : String.length (Ident.str_of_oid o) = 24%nat).
  { unfold Ident.str_of_oid. rewrite (proj2 (N.ltb_lt _ _) Ho).
    unfold Ident.hex. now rewrite hex_digits_length. }
  rewrite H in Hl. discriminate Hl.
Qed.

Lemma object_id_is_valid_text (o : N) :
  (o < 2 ^ 96)%N ->
  object_id_is_valid (F := F) (VStr (Ident.str_of_oid o)) = true.
Proof.
  intros H. unfold object_id_is_valid.
  now rewrite str_of_oid_truthy, object_id_of_text.
Qed.

(** A document appended under an identifier no other document has is
    the one a search by identifier finds, and the one a delete by
    identifier removes. *)
Lemma find_appended (o : N) (ds : list (doc F)) (d : doc F) :
  existsb (cond_matches "_id" (VObjectId o)) ds = false ->
  get "_id" d = Some (VObjectId o) ->
  List.find (matches [("_id", VObjectId o)]) (ds ++ [d]) = Some d
  /\ existsb (matches [("_id", VObjectId o)]) (ds ++ [d]) = true
  /\ remove_first [("_id", VObjectId o)] (ds ++ [d]) = ds.
Proof.
  intros Hfree Hd.
  assert (Hm : matches [("_id", VObjectId o)] d = true).
  { rewrite matches_single. unfold cond_matches. rewrite Hd. cbn.
    apply N.eqb_refl. }
  induction ds as [| d0 ds IH]; cbn [app List.find existsb remove_first].
  - rewrite Hm. now cbn.
  - cbn [existsb] in Hfree. apply orb_false_iff in Hfree as [H0 Hfree].
    rewrite matches_single, H0. cbn [orb].
    destruct (IH Hfree) as (-> & -> & ->). now repeat split.
Qed.

Lemma jsonable_get (k : string) (d : doc F) (v : value F) :
  jsonable (VDict d) = true -> get k d = Some v -> jsonable v = true.
Proof.
  unfold get. cbn [jsonable].
  induction d as [| [k0 v0] d IH]; cbn [forallb dict_get]; [discriminate |].
  intros H Hg. apply andb_true_iff in H as [H0 H].
  destruct (String.eqb k k0).
  - now injection Hg as <-.
  - now apply IH.
Qed.

Lemma jsonable_get_default (k : string) (d : doc F) (v : value F) :
  jsonable (VDict d) = true -> jsonable v = true ->
  jsonable (get_default k v d) = true.
Proof.
  intros Hd Hv. unfold get_default.
  destruct (get k d) as [x |] eqn:E; [| exact Hv].
  exact (jsonable_get _ _ _ Hd E).
Qed.

(** X20.  A product created in the [products] collection of the
    configured database can be fetched by the [inserted_id] of the
    answer: [get_product] answers 200 with the fields of the request and
    that identifier as [_id]. *)
Theorem created_product_can_be_fetched :
  forall (data : doc F) (db : string) (w w1 : world F) (p : payload F),
    default_db = Some db ->
    py_strip (get_default "database" (VStr "") data) = Ok db ->
    py_strip (get_default "collection" (VStr "") data) = Ok "products" ->
    jsonable (VDict data) = true ->
    (oid_at (S (moment w)) < 2 ^ 96)%N ->
    create_product (VDict data) w = ((p, 201), w1) ->
    exists id shown,
      p = PJson (VDict [("message", VStr "Product created successfully");
                        ("inserted_id", VStr id)])
      /\ get_product id w1 = ((PJson (VDict shown), 200), w1)
      /\ get "_id" shown = Some (VStr id)
      /\ get "category" shown = get "category" data
      /\ get "sku" shown = get "sku" data
      /\ get "productName" shown = get "productName" data
      /\ get "active" shown = get "active" data
      /\ get "country" shown = get "country" data
      /\ get "description" shown
         = Some (get_default "description" (VStr "") data)
      /\ get "productLabel" shown
         = Some (get_default "productLabel" VNone data).
Proof.
  intros data db w w1 p Hcfg Hdb Hcoll Hjson Hoid H.
  destruct (create_product_201 _ _ _ _ H)
    as (data' & db' & coll' & v1 & v2 & v3 & v4 & v5 & Hbody & Hdb' & Hcoll'
        & H1 & H2 & H3 & H4 & H5 & -> & Hfree & Hdocs & _).
  injection Hbody as <-.
  rewrite Hdb in Hdb'. injection Hdb' as <-.
  rewrite Hcoll in Hcoll'. injection Hcoll' as <-.
  set (o := oid_at (S (moment w))) in *.
  exists (Ident.str_of_oid o). eexists.
  split; [reflexivity |].
  split.
  - unfold get_product, handle, get_product_body, get_collection.
    rewrite Hcfg. unfold bind at 1. unfold ret at 1.
    rewrite (object_id_is_valid_text o Hoid). cbn [negb].
    rewrite bind_lift, (object_id_of_text o Hoid).
    match type of Hdocs with
    | _ = (?ds ++ [?d])%list =>
        assert (Hfind : find_one (db, "products") [("_id", VObjectId o)] w1
                        = (Ok (Some d), w1));
          [rewrite find_one_by_id, Hdocs;
           destruct (find_appended o ds d Hfree eq_refl) as (Hf & _);
           exact (f_equal (fun x => (Ok x, w1)) Hf) |]
    end.
    rewrite (bind_run _ _ _ _ _ Hfind).
    rewrite bind_lift. unfold stringify_id.
    cbn [get dict_get String.eqb Ascii.eqb Bool.eqb py_str dict_set].
    unfold jsonify.
    match goal with
    | |- context [jsonable ?v] => assert (Hj : jsonable v = true)
    end.
    { cbn [jsonable forallb].
      rewrite (jsonable_get _ _ _ Hjson H1), (jsonable_get _ _ _ Hjson H2),
        (jsonable_get _ _ _ Hjson H3), (jsonable_get _ _ _ Hjson H4),
        (jsonable_get _ _ _ Hjson H5),
        (jsonable_get_default "description" data (VStr "") Hjson eq_refl),
        (jsonable_get_default "productLabel" data VNone Hjson eq_refl).
      reflexivity. }
    rewrite Hj. reflexivity.
  - rewrite H1, H2, H3, H4, H5. repeat split.
Qed.

Lemma delete_one_count_by_id c (o : N) (w : world F) :
  delete_one_count c [("_id", VObjectId o)] w
  = let w1 := {| colls := colls w; moment := moment w;
                 journal := journal w
                            ++ [WDeleteOne c [("_id", VObjectId o)]] |} in
    if existsb (matches [("_id", VObjectId o)]) (docs_of w c)
    then (Ok 1, set_docs c (remove_first [("_id", VObjectId o)] (docs_of w c)) w1)
    else (Ok 0, w1).
Proof. reflexivity. Qed.

Lemma remove_first_split (q : doc F) (ds : list (doc F)) :
  existsb (matches q) ds = true ->
  exists pre d post,
    ds = (pre ++ d :: post)%list
    /\ forallb (fun x => negb (matches q x)) pre = true
    /\ matches q d = true
    /\ remove_first q ds = (pre ++ post)%list.
Proof.
  induction ds as [| d0 ds IH]; [discriminate |].
  cbn [existsb remove_first]. destruct (matches q d0) eqn:E0; cbn [orb].
  - intros _. exists [], d0, ds. now repeat split.
  - intros H. destruct (IH H) as (pre & d & post & -> & Hpre & Hd & ->).
    exists (d0 :: pre), d, post. cbn [forallb app]. rewrite E0, Hpre.
    now repeat split.
Qed.

Lemma object_id_valid_ok (id : string) :
  object_id_is_valid (F := F) (VStr id) = true ->
  exists o, object_id (F := F) (VStr id) = Ok o.
Proof.
  unfold object_id_is_valid. intros H. apply andb_true_iff in H as [_ H].
  destruct (object_id (VStr id)) as [o |]; [now exists o | discriminate].
Qed.

Lemma delete_product_invalid (id db : string) (w : world F) :
  default_db = Some db ->
  object_id_is_valid (F := F) (VStr id) = false ->
  delete_product id w
  = ((PJson (VDict [("error", VStr "Invalid product ID format")]), 400), w).
Proof.
  intros Hcfg Ev.
  unfold delete_product, handle, delete_product_body, get_collection.
  rewrite Hcfg. unfold bind at 1. unfold ret at 1. rewrite Ev. reflexivity.
Qed.

Lemma delete_product_valid (id db : string) (o : N) (w : world F) :
  default_db = Some db ->
  object_id_is_valid (F := F) (VStr id) = true ->
  object_id (F := F) (VStr id) = Ok o ->
  delete_product id w
  = let w1 := {| colls := colls w; moment := moment w;
                 journal := journal w
                            ++ [WDeleteOne (db, "products")
                                  [("_id", VObjectId o)]] |} in
    if existsb (matches [("_id", VObjectId o)]) (docs_of w (db, "products"))
    then ((PJson (VDict [("message", VStr "Product deleted successfully")]),
           200),
          set_docs (db, "products")
            (remove_first [("_id", VObjectId o)] (docs_of w (db, "products")))
            w1)
    else ((PJson (VDict [("error", VStr "Product not found")]), 404), w1).
Proof.
  intros Hcfg Ev Ho.
  unfold delete_product, handle, delete_product_body, get_collection.
  rewrite Hcfg. unfold bind at 1. unfold ret at 1. rewrite Ev. cbn [negb].
  rewrite bind_lift, Ho. unfold bind. rewrite delete_one_count_by_id.
  cbv zeta. destruct (existsb _ _); reflexivity.
Qed.

(** X21.  [delete_product] never answers 500 when the database is
    configured: it answers 400 without touching the store for an
    identifier that is not an ObjectId, 404 with the documents unchanged
    when no product has the identifier, and otherwise 200, removing the
    first product with the identifier and nothing else. *)
Theorem delete_product_outcomes :
  forall (id db : string) (w : world F),
    default_db = Some db ->
    (object_id_is_valid (F := F) (VStr id) = false
     /\ delete_product id w
        = ((PJson (VDict [("error", VStr "Invalid product ID format")]), 400), w))
    \/ exists o,
         object_id (F := F) (VStr id) = Ok o
         /\ ((existsb (matches [("_id", VObjectId o)])
                (docs_of w (db, "products")) = false
              /\ fst (delete_product id w)
                 = (PJson (VDict [("error", VStr "Product not found")]), 404)
              /\ colls (snd (delete_product id w)) = colls w)
             \/ exists pre d post,
                  docs_of w (db, "products") = (pre ++ d :: post)%list
                  /\ forallb (fun x => negb (matches [("_id", VObjectId o)] x))
                       pre = true
                  /\ matches [("_id", VObjectId o)] d = true
                  /\ fst (delete_product id w)
                     = (PJson (VDict [("message",
                                       VStr "Product deleted successfully")]),
                        200)
                  /\ docs_of (snd (delete_product id w)) (db, "products")
                     = (pre ++ post)%list
                  /\ forall c, c <> (db, "products") ->
                       docs_of (snd (delete_product id w)) c = docs_of w c).
Proof.
  intros id db w Hcfg.
  destruct (object_id_is_valid (F := F) (VStr id)) eqn:Ev.
  2: { left. split; [reflexivity |]. now apply delete_product_invalid with db. }
  right. destruct (object_id_valid_ok id Ev) as (o & Ho).
  exists o. split; [exact Ho |].
  rewrite (delete_product_valid id db o w Hcfg Ev Ho). cbv zeta.
  destruct (existsb (matches [("_id", VObjectId o)])
              (docs_of w (db, "products"))) eqn:Ex.
  - right. destruct (remove_first_split _ _ Ex)
      as (pre & d & post & Hds & Hpre & Hd & Hrem).
    exists pre, d, post. cbn [fst snd].
    split; [exact Hds |]. split; [exact Hpre |]. split; [exact Hd |].
    split; [reflexivity |]. split.
    + rewrite docs_of_set_docs_same. exact Hrem.
    + intros c Hc. now rewrite docs_of_set_docs_other.
  - left. cbn [fst snd]. repeat split.
Qed.

(** X22.  Deleting a product just created in the [products] collection of
    the configured database, by the [inserted_id] of the answer, answers
    200 and leaves every collection with the documents it had before the
    product was created; fetching it afterwards answers 404. *)
Theorem create_then_delete_restores :
  forall (data : doc F) (db : string) (w w1 : world F) (p : payload F),
    default_db = Some db ->
    py_strip (get_default "database" (VStr "") data) = Ok db ->
    py_strip (get_default "collection" (VStr "") data) = Ok "products" ->
    (oid_at (S (moment w)) < 2 ^ 96)%N ->
    create_product (VDict data) w = ((p, 201), w1) ->
    exists id,
      p = PJson (VDict [("message", VStr "Product created successfully");
                        ("inserted_id", VStr id)])
      /\ fst (delete_product id w1)
         = (PJson (VDict [("message", VStr "Product deleted successfully")]),
            200)
      /\ (forall c, docs_of (snd (delete_product id w1)) c = docs_of w c)
      /\ fst (get_product id (snd (delete_product id w1)))
         = (PJson (VDict [("error", VStr "Product not found")]), 404).
Proof.
  intros data db w w1 p Hcfg Hdb Hcoll Hoid H.
  destruct (create_product_201 _ _ _ _ H)
    as (data' & db' & coll' & v1 & v2 & v3 & v4 & v5 & Hbody & Hdb' & Hcoll'
        & H1 & H2 & H3 & H4 & H5 & -> & Hfree & Hdocs & Hother).
  injection Hbody as <-.
  rewrite Hdb in Hdb'. injection Hdb' as <-.
  rewrite Hcoll in Hcoll'. injection Hcoll' as <-.
  set (o := oid_at (S (moment w))) in *.
  exists (Ident.str_of_oid o). split; [reflexivity |].
  match type of Hdocs with
  | _ = (?ds ++ [?d])%list =>
      destruct (find_appended o ds d Hfree eq_refl) as (_ & Hex & Hrem)
  end.
  assert (Hdel : delete_product (Ident.str_of_oid o) w1
                 = ((PJson (VDict [("message",
                                    VStr "Product deleted successfully")]), 200),
                    set_docs (db, "products") (docs_of w (db, "products"))
                      {| colls := colls w1; moment := moment w1;
                         journal := journal w1
                                    ++ [WDeleteOne (db, "products")
                                          [("_id", VObjectId o)]] |})).
  { rewrite (delete_product_valid _ db o w1 Hcfg
               (object_id_is_valid_text o Hoid) (object_id_of_text o Hoid)).
    cbv zeta. rewrite Hdocs.
    replace (existsb _ _) with true by (symmetry; exact Hex).
    replace (remove_first _ _) with (docs_of w (db, "products"))
      by (symmetry; exact Hrem).
    reflexivity. }
  rewrite Hdel. cbn [fst snd]. split; [reflexivity |]. split.
  - intros c. destruct (coll_ref_eq_dec c (db, "products")) as [-> | Hne].
    + now rewrite docs_of_set_docs_same.
    + rewrite docs_of_set_docs_other by exact Hne.
      rewrite <- (Hother c Hne). reflexivity.
  - unfold get_product, handle, get_product_body, get_collection.
    rewrite Hcfg. unfold bind at 1. unfold ret at 1.
    rewrite (object_id_is_valid_text o Hoid). cbn [negb].
    rewrite bind_lift, (object_id_of_text o Hoid).
    erewrite bind_run by apply find_one_by_id.
    rewrite docs_of_set_docs_same.
    replace (List.find _ _) with (@None (doc F)); [reflexivity |].
    symmetry. clear -Hfree.
    induction (docs_of w (db, "products")) as [| d0 ds IH]; [reflexivity |].
    cbn [existsb] in Hfree. apply orb_false_iff in Hfree as [H0 Hfree].
    cbn [List.find]. rewrite matches_single, H0. now apply IH.
Qed.

Lemma get_project_id (p : option (doc F)) (d : doc F) :
  get "_id" (project p d) = get "_id" d.
Proof.
  destruct p as [p |]; [| reflexivity]. unfold project, get.
  induction d as [| [k v] d IH]; [reflexivity |].
  cbn [filter fst dict_get]. destruct (String.eqb k "_id") eqn:E.
  - cbn [orb dict_get]. rewrite String.eqb_sym, E. reflexivity.
  - rewrite (String.eqb_sym "_id" k), E.
    destruct (_ || _); [cbn [dict_get]; rewrite (String.eqb_sym "_id" k), E |];
      exact IH.
Qed.

Lemma stringify_ids_total (ds : list (doc F)) :
  Forall (fun d => get "_id" d <> None) ds ->
  exists rs, stringify_ids ds = Ok rs /\ List.length rs = List.length ds.
Proof.
  induction 1 as [| d ds Hd _ (rs & Hrs & Hlen)].
  - now exists [].
  - cbn [stringify_ids]. unfold stringify_id.
    destruct (get "_id" d) as [v |]; [| contradiction].
    cbn [rbind]. rewrite Hrs. cbn [rbind]. eexists. split; [reflexivity |].
    cbn [List.length]. now rewrite Hlen.
Qed.

Lemma stringify_ids_same_length (ds rs : list (doc F)) :
  stringify_ids ds = Ok rs -> List.length rs = List.length ds.
Proof.
  revert rs. induction ds as [| d ds IH]; intros rs H; cbn [stringify_ids] in H.
  - now injection H as <-.
  - apply rbind_ok in H as (r & _ & H).
    apply rbind_ok in H as (rs' & Hrs & H). injection H as <-.
    cbn [List.length]. now rewrite (IH _ Hrs).
Qed.

Lemma filter_matches_all (ds : list (doc F)) : filter (matches []) ds = ds.
Proof.
  induction ds as [| d ds IH]; [reflexivity |].
  cbn [filter matches forallb]. now rewrite IH.
Qed.

(** X23.  When sorting only reorders the documents and every product has
    an identifier, [get_productstotalcount] answers 200 with the number
    of documents of the [products] collection as [response_count],
    whatever their fields, and leaves the store alone. *)
Theorem total_count_counts_products :
  forall (db : string) (w : world F),
    default_db = Some db ->
    (forall s (l : list (doc F)), Permutation (ext_sort s l) l) ->
    Forall (fun d => get "_id" d <> None) (docs_of w (db, "products")) ->
    get_productstotalcount w
    = ((PJson (VDict [("response_count",
                       VInt (len (docs_of w (db, "products"))))]), 200), w).
Proof.
  intros db w Hcfg Hsort Hids.
  unfold get_productstotalcount, handle, get_productstotalcount_body,
    get_collection.
  rewrite Hcfg. unfold bind at 1. unfold ret at 1.
  unfold bind at 1. unfold find. cbn [cursor_skip Z.ltb Z.compare rbind].
  cbn [Z.to_nat skipn encode_projection total_count_projection encode rbind
       query_error cursor_limit Z.eqb].
  rewrite filter_matches_all.
  match goal with
  | |- context [map (project ?p) ?l] =>
      destruct (stringify_ids_total (map (project p) l)) as (rs & Hrs & Hlen)
  end.
  { apply Forall_forall. intros d Hd. apply in_map_iff in Hd as (d0 & <- & Hd0).
    rewrite get_project_id.
    apply (Permutation_in _ (Hsort _ _)) in Hd0.
    now apply (proj1 (Forall_forall _ _) Hids). }
  rewrite bind_lift, Hrs. unfold jsonify. cbn [jsonable forallb].
  unfold ret, len.
  rewrite Hlen, length_map, (Permutation_length (Hsort _ _)). reflexivity.
Qed.

Lemma project_id_only (d : doc F) :
  Forall (fun kv => fst kv = "_id") (project (Some [("_id", VInt 1)]) d).
Proof.
  unfold project. apply Forall_forall. intros kv Hin.
  apply filter_In in Hin as [_ Hk].
  destruct (String.eqb (fst kv) "_id") eqn:E; [now apply String.eqb_eq |].
  cbn [orb] in Hk. unfold dict_has in Hk. cbn [dict_get] in Hk.
  rewrite E in Hk. discriminate Hk.
Qed.

Lemma dict_set_keys (k : string) (v : value F) (d : doc F) :
  Forall (fun kv => fst kv = k) d ->
  Forall (fun kv => fst kv = k) (dict_set String.eqb k v d).
Proof.
  induction 1 as [| [k0 v0] d Hk Hd IH]; cbn [dict_set].
  - now repeat constructor.
  - destruct (String.eqb k k0); (constructor; [exact Hk |]);
      [exact Hd | exact IH].
Qed.

Lemma stringify_ids_id_only (ds rs : list (doc F)) :
  Forall (Forall (fun kv => fst kv = "_id")) ds ->
  stringify_ids ds = Ok rs ->
  Forall (Forall (fun kv => fst kv = "_id")) rs.
Proof.
  intros Hds. revert rs.
  induction Hds as [| d ds Hd _ IH]; intros rs H; cbn [stringify_ids] in H.
  - injection H as <-. constructor.
  - apply rbind_ok in H as (r & Hr & H).
    apply rbind_ok in H as (rs' & Hrs & H). injection H as <-.
    constructor; [| now apply IH].
    unfold stringify_id in Hr. destruct (get "_id" d); [| discriminate Hr].
    injection Hr as <-. now apply dict_set_keys.
Qed.

(** X24.  [check_unique_with_category_and_sku] answers 500 when the body
    lacks [category] or [sku]; when it answers 200, it lists one entry
    for each product matching both the category and the sku, and an
    entry holds nothing but the identifier, as a string. *)
Theorem check_unique_lists_identifiers :
  forall (data : doc F) (db : string) (w : world F),
    default_db = Some db ->
    (get "category" data = None \/ get "sku" data = None ->
     check_unique_with_category_and_sku (VDict data) w
     = ((PExn KeyError, 500), w))
    /\ (forall category sku v,
          get "category" data = Some category ->
          get "sku" data = Some sku ->
          fst (check_unique_with_category_and_sku (VDict data) w)
          = (PJson v, 200) ->
          exists products,
            v = VDict [("products", VList (map VDict products))]
            /\ List.length products
               = List.length
                   (filter (matches [("category", category); ("sku", sku)])
                      (docs_of w (db, "products")))
            /\ Forall (Forall (fun kv => fst kv = "_id")) products
            /\ Forall has_string_id (map VDict products)).
Proof.
  intros data db w Hcfg. split.
  - intros Hmiss.
    unfold check_unique_with_category_and_sku, handle,
      check_unique_with_category_and_sku_body.
    rewrite bind_lift. cbn [json_subscript]. unfold subscript.
    destruct (get "category" data) as [c |] eqn:Ec; [| reflexivity].
    rewrite bind_lift.
    destruct Hmiss as [Hc | Hs]; [discriminate Hc |]. now rewrite Hs.
  - intros category sku v Hc Hs H.
    unfold check_unique_with_category_and_sku in H.
    destruct (handle _ w) as [[p st] w'] eqn:Eh. cbn [fst] in H.
    injection H as -> ->. apply handle_200 in Eh.
    unfold check_unique_with_category_and_sku_body in Eh.
    rewrite bind_lift in Eh. cbn [json_subscript] in Eh.
    unfold subscript in Eh. rewrite Hc, bind_lift, Hs in Eh.
    unfold get_collection in Eh. rewrite Hcfg in Eh.
    unfold bind at 1 in Eh. unfold ret at 1 in Eh.
    apply bind_ok in Eh as (found & w1 & Hfind & Eh).
    apply find_ok in Hfind as (-> & _ & p & Hp & ->).
    cbn [encode_projection encode rbind] in Hp. injection Hp as <-.
    apply bind_ok in Eh as (products & w2 & Hstr & Eh).
    apply lift_ok in Hstr as [Hstr ->].
    apply jsonify_ok in Eh as (Hr & _ & _). injection Hr as ->.
    exists products. split; [reflexivity |]. split; [| split].
    + etransitivity; [exact (stringify_ids_same_length _ _ Hstr) |].
      rewrite length_map. reflexivity.
    + apply (stringify_ids_id_only _ _ (ltac:(apply Forall_forall; intros d Hd;
        apply in_map_iff in Hd as (d0 & <- & _); apply project_id_only)) Hstr).
    + exact (stringify_ids_string_id _ _ Hstr).
Qed.

End ProductFacts.

Section ProductReads.
Context {F : Type} {rt : runtime F} {env : environment F} {drv : driver}.

(** X25.  Fetching a product, counting the products and the uniqueness
    check never change the store, whatever the request and the
    answer. *)
Theorem product_reads_leave_store :
  forall (id : string) (body : value F) (w : world F),
    snd (get_product id w) = w
    /\ snd (get_productstotalcount w) = w
    /\ snd (check_unique_with_category_and_sku body w) = w.
Proof.
  intros id body w. repeat split.
  - apply reads_handle. unfold get_product_body. reads.
  - apply reads_handle. unfold get_productstotalcount_body. reads.
  - apply reads_handle. unfold check_unique_with_category_and_sku_body. reads.
Qed.

(** X26.  [get_product] and [delete_product] look for the collection
    before they look at the identifier: without a configured database
    both answer 500, even for an identifier that is not an ObjectId; with
    one, such an identifier is answered 400 by both, whatever the store
    holds. *)
Theorem product_id_checked_after_configuration :
  forall (id : string) (w : world F),
    (default_db = None ->
     get_product id w = ((PExn ConfigError, 500), w)
     /\ delete_product id w = ((PExn ConfigError, 500), w))
    /\ (default_db <> None ->
        object_id_is_valid (F := F) (VStr id) = false ->
        get_product id w
        = ((PJson (VDict [("error", VStr "Invalid product ID format")]), 400), w)
        /\ delete_product id w
           = ((PJson (VDict [("error", VStr "Invalid product ID format")]), 400),
              w)).
Proof.
  intros id w. split.
  - intros Hcfg.
    unfold get_product, delete_product, handle, get_product_body,
      delete_product_body, get_collection.
    rewrite Hcfg. split; reflexivity.
  - intros Hcfg Ev.
    unfold get_product, delete_product, handle, get_product_body,
      delete_product_body, get_collection.
    destruct default_db as [db |]; [| contradiction].
    unfold bind, ret. rewrite Ev. split; reflexivity.
Qed.

End ProductReads.

(** ** The properties at work on sample requests *)

Lemma table_query_keys_witness :
  let filters : value Sample.dec :=
    VDict [("page", VInt 2); ("productName", VStr "kit")] in
  exists q,
    table_query filters = Ok q
    /\ (forall k x,
          get k q = Some x ->
          str_in k table_reserved = false
          /\ exists items, filters = VDict items /\ In k (map fst items))
    /\ ((forall items, filters <> VDict items) -> q = []).
Proof.
  intros filters. eexists. split.
  - vm_compute. reflexivity.
  - apply (table_query_keys filters). vm_compute. reflexivity.
Defined.

Lemma passed_over_filters_ignored_witness :
  table_query (F := Sample.dec)
    (VDict [("sku", VStr "1415");
            ("price", VDict [("data_type", VStr "range");
                             ("search_by", VStr "5")])])
  = table_query (VDict [("sku", VStr "1415")]).
Proof.
  apply (passed_over_filters_ignored
           [("sku", VStr "1415")] [] "price"
           (VDict [("data_type", VStr "range"); ("search_by", VStr "5")])).
  right. eexists. split; [reflexivity |]. right. reflexivity.
Defined.

Lemma text_predicate_is_default_witness :
  table_query (F := Sample.dec)
    (VDict [("productName", VDict [("search_by", VStr "kit")])])
  = table_query (VDict [("productName", VStr "kit")]).
Proof.
  apply (text_predicate_is_default [] [] "productName"
           [("search_by", VStr "kit")] "kit").
  - reflexivity.
  - left. reflexivity.
Defined.


Lemma files_query_clauses_witness :
  let data : doc Sample.dec :=
    [("database", VStr "reports_db"); ("uploadedBy", VStr "Jane");
     ("fileName", VStr "")] in
  get "uploadedBy" (files_query data) = Some (regex_cond (VStr "Jane"))
  /\ get "fileName" (files_query data) = None
  /\ get "database" (files_query data) = None.
Proof.
  intros data.
  assert (Hnd : NoDup (map fst data)).
  { repeat constructor; cbn;
      intros H; repeat (destruct H as [H | H]; [discriminate H |]); exact H. }
  split; [| split].
  - exact (files_query_clauses data "uploadedBy" Hnd).
  - reflexivity.
  - reflexivity.
Defined.

Lemma upload_rejected_before_store_witness :
  let req : upload_request Sample.dec :=
    {| req_file := Some {| filename := "budget.xlsx"; sheet := None |};
       req_form := [("database", "upload_db");
                    ("data_collection", "excel_data");
                    ("uploadedBy", "JaneDoe")] |} in
  status_of (upload_excel_file req Sample.shop) = 400
  /\ snd (upload_excel_file req Sample.shop) = Sample.shop.
Proof.
  intros req.
  apply (proj1 (upload_rejected_before_store req Sample.shop)).
  vm_compute. reflexivity.
Defined.

Lemma unreadable_upload_leaves_job_uploading_witness :
  exists e job w',
    upload_excel_file Cases.text_upload Sample.empty_world = ((PExn e, 500), w')
    /\ (e = InvalidFile \/ e = StopIteration)
    /\ docs_of w' ("upload_db", "file_uploads")
       = (docs_of Sample.empty_world ("upload_db", "file_uploads") ++ [job])%list
    /\ get "_id" job
       = Some (VStr (Ident.str_of_uuid (uuid_at (moment Sample.empty_world))))
    /\ get "status" job = Some (VStr "uploading")
    /\ (exists op, journal w' = (journal Sample.empty_world ++ [op])%list).
Proof.
  eapply (unreadable_upload_leaves_job_uploading Cases.text_upload _
            _ _ _ _ _ 2026 Sample.empty_world).
  - vm_compute. reflexivity.
  - reflexivity.
  - vm_compute. reflexivity.
  - vm_compute. reflexivity.
  - vm_compute. reflexivity.
  - vm_compute. reflexivity.
  - left. reflexivity.
Defined.

Lemma delete_changes_only_on_success_witness :
  snd (delete_uploaded_file (Cases.delete_request "job-1") Cases.archive)
  = Cases.archive.
Proof.
  apply (delete_changes_only_on_success
           (Cases.delete_request "job-1") Cases.archive).
  vm_compute. discriminate.
Defined.

Lemma delete_removes_rows_then_file_witness :
  let r := delete_uploaded_file
             (Cases.delete_request "000000000000000000000007")
             Cases.archive in
  answer r = VDict [("message", VStr "File deleted successfully");
                    ("rowsDeleted", VInt 2)]
  /\ exists db fc dcoll o,
       (forall d, In d (docs_of (snd r) (db, dcoll)) ->
                  matches [("fileId", VObjectId o)] d = false)
       /\ (fc <> dcoll ->
           len (docs_of (snd r) (db, fc))
           = len (docs_of Cases.archive (db, fc)) - 1)
       /\ journal (snd r)
          = (journal Cases.archive
             ++ [WDeleteMany (db, dcoll) [("fileId", VObjectId o)];
                 WDeleteOne (db, fc) [("_id", VObjectId o)]])%list.
Proof.
  intros r. split; [reflexivity |].
  destruct (delete_removes_rows_then_file
              [("database", VStr "reports_db");
               ("file_collection", VStr "uploaded_files");
               ("data_collection", VStr "excel_data");
               ("fileId", VStr "000000000000000000000007")]
              Cases.archive (snd r) (answer r))
    as (db & fc & dcoll & o & _ & _ & _ & _ & _ & H1 & H2 & H3).
  - vm_compute. reflexivity.
  - exists db, fc, dcoll, o. split; [exact H1 |]. split; [exact H2 | exact H3].
Defined.

Lemma delete_keeps_string_keyed_documents_witness :
  In [("_id", VStr "job-1"); ("filename", VStr "Plan.xlsx")]
     (docs_of Cases.archive ("reports_db", "uploaded_files"))
  /\ In [("_id", VStr "job-1"); ("filename", VStr "Plan.xlsx")]
       (docs_of
          (snd (delete_uploaded_file
                  (Cases.delete_request "000000000000000000000007")
                  Cases.archive))
          ("reports_db", "uploaded_files")).
Proof.
  split; [vm_compute; tauto |].
  apply (delete_keeps_string_keyed_documents
           (Cases.delete_request "000000000000000000000007") Cases.archive
           ("reports_db", "uploaded_files")
           [("_id", VStr "job-1"); ("filename", VStr "Plan.xlsx")]).
  - exact I.
  - exact I.
  - vm_compute. tauto.
Defined.

Lemma create_product_requires_fields_witness :
  let data : doc Sample.dec :=
    [("database", VStr "ecommercedb"); ("collection", VStr "products");
     ("category", VStr "toys"); ("sku", VStr "K-1");
     ("productName", VStr "Kite"); ("active", VBool false);
     ("country", VStr "FR")] in
  create_product (VDict data) Sample.shop
  = ((PJson (VDict [("error", VStr "'active' is required")]), 400), Sample.shop).
Proof.
  intros data.
  apply (create_product_requires_fields data
           ["category"; "sku"; "productName"] ["country"] "active"
           "ecommercedb" "products" Sample.shop).
  - reflexivity.
  - reflexivity.
  - reflexivity.
  - repeat constructor.
  - reflexivity.
Defined.

Lemma create_product_duplicate_sku_witness :
  let w : world Sample.dec :=
    {| colls := [(("ecommercedb", "products"),
                  [[("_id", VObjectId 1); ("sku", VStr "K-1")]])];
       moment := 4; journal := [] |} in
  fst (create_product (VDict Cases.kite) w)
  = (PJson (VDict [("error", VStr "SKU must be unique")]), 400)
  /\ colls (snd (create_product (VDict Cases.kite) w)) = colls w
  /\ journal (snd (create_product (VDict Cases.kite) w)) = journal w.
Proof.
  intros w.
  apply (create_product_duplicate_sku Cases.kite "ecommercedb" "products"
           "K-1" [("_id", VObjectId 1); ("sku", VStr "K-1")] w).
  - reflexivity.
  - reflexivity.
  - reflexivity.
  - reflexivity.
  - reflexivity.
  - left. reflexivity.
  - reflexivity.
Defined.

Lemma create_product_stores_product_witness :
  exists w' data db coll o d,
    create_product (VDict Cases.kite) Sample.shop
    = ((PJson (VDict [("message", VStr "Product created successfully");
                      ("inserted_id", VStr (Ident.str_of_oid o))]), 201), w')
    /\ VDict Cases.kite = VDict data
    /\ py_strip (get_default "database" (VStr "") data) = Ok db
    /\ py_strip (get_default "collection" (VStr "") data) = Ok coll
    /\ docs_of w' (db, coll) = (docs_of Sample.shop (db, coll) ++ [d])%list
    /\ get "_id" d = Some (VObjectId o)
    /\ get "sku" d = get "sku" data
    /\ get "createdAt" d = Some (VDatetime (time_at (moment Sample.shop))).
Proof.
  destruct (create_product_stores_product (VDict Cases.kite) Sample.shop
              (snd (create_product (VDict Cases.kite) Sample.shop))
              (fst (fst (create_product (VDict Cases.kite) Sample.shop))))
    as (data & db & coll & o & d & Hb & Hdb & Hcoll & Hp & Hdocs & _ & Hid & _
        & _ & Hsku & _ & _ & _ & _ & _ & Hat).
  - vm_compute. reflexivity.
  - exists (snd (create_product (VDict Cases.kite) Sample.shop)),
      data, db, coll, o, d.
    split.
    + rewrite <- Hp. vm_compute. reflexivity.
    + repeat (split; [assumption |]). assumption.
Defined.

Lemma created_product_can_be_fetched_witness :
  exists w1 id shown,
    create_product (VDict Cases.kite) Sample.shop
    = ((PJson (VDict [("message", VStr "Product created successfully");
                      ("inserted_id", VStr id)]), 201), w1)
    /\ get_product id w1 = ((PJson (VDict shown), 200), w1)
    /\ get "_id" shown = Some (VStr id)
    /\ get "sku" shown = Some (VStr "K-1")
    /\ get "productName" shown = Some (VStr "Kite").
Proof.
  destruct (created_product_can_be_fetched Cases.kite "ecommercedb"
              Sample.shop
              (snd (create_product (VDict Cases.kite) Sample.shop))
              (fst (fst (create_product (VDict Cases.kite) Sample.shop))))
    as (id & shown & Hp & Hget & Hid & _ & Hsku & Hname & _).
  - reflexivity.
  - reflexivity.
  - reflexivity.
  - reflexivity.
  - vm_compute. reflexivity.
  - vm_compute. reflexivity.
  - exists (snd (create_product (VDict Cases.kite) Sample.shop)), id, shown.
    split.
    + rewrite <- Hp. vm_compute. reflexivity.
    + repeat (split; [assumption |]). assumption.
Defined.

Lemma delete_product_outcomes_witness :
  fst (delete_product "000000000000000000000002" Sample.shop)
  = (PJson (VDict [("message", VStr "Product deleted successfully")]), 200)
  /\ docs_of (snd (delete_product "000000000000000000000002" Sample.shop))
       ("ecommercedb", "products")
     = [Sample.product 1 "My Test Product"; Sample.product 3 "Lamp"]
  /\ (object_id_is_valid (F := Sample.dec) (VStr "000000000000000000000002")
      = false
      \/ exists o, object_id (F := Sample.dec)
                     (VStr "000000000000000000000002") = Ok o).
Proof.
  split; [reflexivity |]. split; [reflexivity |].
  destruct (delete_product_outcomes "000000000000000000000002" "ecommercedb"
              Sample.shop) as [[H _] | (o & Ho & _)].
  - reflexivity.
  - left. exact H.
  - right. exists o. exact Ho.
Defined.

Lemma create_then_delete_restores_witness :
  exists w1 id,
    create_product (VDict Cases.kite) Sample.shop
    = ((PJson (VDict [("message", VStr "Product created successfully");
                      ("inserted_id", VStr id)]), 201), w1)
    /\ fst (delete_product id w1)
       = (PJson (VDict [("message", VStr "Product deleted successfully")]), 200)
    /\ (forall c, docs_of (snd (delete_product id w1)) c
                  = docs_of Sample.shop c)
    /\ fst (get_product id (snd (delete_product id w1)))
       = (PJson (VDict [("error", VStr "Product not found")]), 404).
Proof.
  destruct (create_then_delete_restores Cases.kite "ecommercedb"
              Sample.shop
              (snd (create_product (VDict Cases.kite) Sample.shop))
              (fst (fst (create_product (VDict Cases.kite) Sample.shop))))
    as (id & Hp & Hdel & Hdocs & Hget).
  - reflexivity.
  - reflexivity.
  - reflexivity.
  - vm_compute. reflexivity.
  - vm_compute. reflexivity.
  - exists (snd (create_product (VDict Cases.kite) Sample.shop)), id.
    split.
    + rewrite <- Hp. vm_compute. reflexivity.
    + split; [exact Hdel |]. split; [exact Hdocs | exact Hget].
Defined.

Lemma total_count_counts_products_witness :
  get_productstotalcount Sample.shop
  = ((PJson (VDict [("response_count", VInt 3)]), 200), Sample.shop).
Proof.
  apply (total_count_counts_products "ecommercedb" Sample.shop).
  - reflexivity.
  - intros s l. apply Permutation_refl.
  - repeat constructor; discriminate.
Defined.

Lemma check_unique_lists_identifiers_witness :
  let w : world Sample.dec :=
    {| colls := [(("ecommercedb", "products"),
                  [[("_id", VObjectId 1); ("category", VStr "toys");
                    ("sku", VStr "K-1")];
                   [("_id", VObjectId 2); ("category", VStr "toys");
                    ("sku", VStr "K-2")]])];
       moment := 4; journal := [] |} in
  let data : doc Sample.dec :=
    [("category", VStr "toys"); ("sku", VStr "K-1")] in
  check_unique_with_category_and_sku (VDict [("sku", VStr "K-1")]) w
  = ((PExn KeyError, 500), w)
  /\ exists products,
       answer (check_unique_with_category_and_sku (VDict data) w)
       = VDict [("products", VList (map VDict products))]
       /\ List.length products = 1%nat
       /\ Forall (Forall (fun kv => fst kv = "_id")) products.
Proof.
  intros w data. split.
  - refine (proj1 (check_unique_lists_identifiers [("sku", VStr "K-1")]
                     "ecommercedb" w _) _).
    + reflexivity.
    + left. reflexivity.
  - assert (Hcfg : default_db = Some "ecommercedb") by reflexivity.
    destruct (proj2 (check_unique_lists_identifiers data "ecommercedb" w
                       Hcfg)
                (VStr "toys") (VStr "K-1")
                (answer (check_unique_with_category_and_sku (VDict data) w)))
      as (products & Hv & Hlen & Hkeys & _).
    + reflexivity.
    + reflexivity.
    + vm_compute. reflexivity.
    + exists products. split; [exact Hv |]. split; [exact Hlen | exact Hkeys].
Defined.

Lemma product_id_checked_after_configuration_witness :
  get_product "not-an-id" Sample.shop
  = ((PJson (VDict [("error", VStr "Invalid product ID format")]), 400),
     Sample.shop)
  /\ delete_product "not-an-id" Sample.shop
     = ((PJson (VDict [("error", VStr "Invalid product ID format")]), 400),
        Sample.shop).
Proof.
  apply (proj2 (product_id_checked_after_configuration "not-an-id" Sample.shop)).
  - discriminate.
  - reflexivity.
Defined.

(** ** Names and identifiers at the edge *)

(** A database name with a space and a collection name with a dollar
    sign, which the driver refuses. *)
Lemma refused_names_answer_500 :
  let names : doc Sample.dec :=
    [("database", VStr "my db"); ("collection", VStr "a$b")] in
  let upload : upload_request Sample.dec :=
    {| req_file := req_file (Sample.budget_upload [Sample.budget_row]);
       req_form := [("database", "my db"); ("data_collection", "a$b");
                    ("uploadedBy", "JaneDoe")] |} in
  get_table_data (VDict names) Sample.shop
  = ((PExn InvalidName, 500), Sample.shop)
  /\ get_uploaded_files (VDict names) Sample.shop
     = ((PExn InvalidName, 500), Sample.shop)
  /\ upload_excel_file upload Sample.shop
     = ((PExn InvalidName, 500), Sample.shop)
  /\ delete_uploaded_file
       (VDict [("database", VStr "my db");
               ("file_collection", VStr "uploaded_files");
               ("data_collection", VStr "excel_data");
               ("fileId", VStr "000000000000000000000007")]) Sample.shop
     = ((PExn InvalidName, 500), Sample.shop).
Proof. repeat split; vm_compute; reflexivity. Qed.

(** A string of 24 characters with whitespace between the bytes is a
    valid identifier for [ObjectId]: it names no product, so the answer
    is 404 and not 400. *)
Lemma spaced_identifier_is_not_found :
  let id := "00 00 00 00 00 00 00 00 " in
  object_id_is_valid (F := Sample.dec) (VStr id) = true
  /\ fst (get_product id Sample.shop)
     = (PJson (VDict [("error", VStr "Product not found")]), 404)
  /\ fst (delete_product id Sample.shop)
     = (PJson (VDict [("error", VStr "Product not found")]), 404).
Proof. repeat split; vm_compute; reflexivity. Qed.

(** [int] refuses a string of more than 4300 digits: a [number]
    predicate with such a [search_by] is dropped like any other text that
    is not a number. *)
Lemma long_numbers_are_dropped :
  let nines := string_of_list_ascii (repeat "9"%char 4301) in
  int_of_str nines = None
  /\ table_query (F := Sample.dec)
       (VDict [("price", VDict [("data_type", VStr "number");
                                ("search_by", VStr nines)])])
     = Ok [].
Proof. split; vm_compute; reflexivity. Qed.
